(** * chrome-debugger-mcp: the CDP multiplexing layer of [server.py]

    A shallow embedding of [CDPClient], [CDPConnectionManager] and the
    debugger tools of [src/references/chrome-debugger-mcp/server.py],
    with the properties the protocol layer is expected to have.

    Conventions of the embedding.
    - A Python value that can reach this code is a JSON value: [json.loads]
      produces them, and [None] is JSON's [null] ([JNull]).  Numbers are
      Python ints ([Z]); float-valued JSON numbers are outside the model.
    - An [await] is a point where other coroutines run.  Each function is
      cut at its awaits into pieces that run without interruption; a piece
      is a computation in the monad [M] (state, printed lines, exception).
    - An f-string is kept as the list of its pieces ([fstring]): literal
      text, and [str()] of an interpolated value or exception.
    - [print] is modelled (the lines printed are part of a result); the
      calls to [logger], which write to the log file and to stderr, are
      left out. *)

From stdpp Require Import base option list strings gmap.

Local Open Scope Z_scope.

(** ** Python values *)

#[local] Set Warnings "-register-all".

Inductive json : Type :=
| JNull
| JBool (b : bool)
| JInt (z : Z)
| JStr (s : string)
| JList (l : list json)
| JDict (d : list (string * json)).

(** Python exceptions, and f-strings. [RuntimeError] carries its message. *)
Inductive exn : Type :=
| RuntimeError (msg : list fragment)
| JSONDecodeError
| TypeError
| AttributeError
| KeyError
| IndexError
| InvalidStateError
| ConnectionClosed
| CancelledError
| HandlerError (tag : string)
with fragment : Type :=
| Lit (s : string)      (* literal text, or a str interpolated as it is *)
| Str (v : json)        (* str(v) *)
| Dumps (v : json)      (* json.dumps(v, indent=2) *)
| StrExn (e : exn).     (* str(e) *)

(** The newline of the messages. *)
Definition NL : string := String (Ascii.ascii_of_nat 10) EmptyString.

Abbreviation fstring := (list fragment).

(** [str(e)] for an exception: the message of a [RuntimeError], else the
    text the raising library gives it. *)
Definition str_exn (e : exn) : fstring :=
  match e with
  | RuntimeError msg => msg
  | _ => [StrExn e]
  end.

(** [except Exception] does not catch [asyncio.CancelledError]. *)
Definition is_Exception (e : exn) : bool :=
  match e with
  | CancelledError => false
  | _ => true
  end.

(** A pure operation either raises or returns: [exn + A]. *)
#[export] Instance exn_ret : MRet (sum exn) := fun A a => inr a.
#[export] Instance exn_bind : MBind (sum exn) :=
  fun A B k r => match r with inl e => inl e | inr a => k a end.

Module Py.

(** [bool(v)], as used by [if v] and [not v]. *)
Definition truthy (v : json) : bool :=
  match v with
  | JNull => false
  | JBool b => b
  | JInt z => negb (Z.eqb z 0)
  | JStr s => negb (String.eqb s "")
  | JList l => match l with [] => false | _ => true end
  | JDict d => match d with [] => false | _ => true end
  end.

(** [a or b] *)
Definition or_ (a b : json) : json := if truthy a then a else b.

Fixpoint assoc (key : string) (d : list (string * json)) : option json :=
  match d with
  | [] => None
  | (k, v) :: d' => if String.eqb k key then Some v else assoc key d'
  end.

Definition is_str (key : string) (v : json) : bool :=
  match v with
  | JStr s => String.eqb s key
  | _ => false
  end.

Definition substring (key s : string) : bool :=
  match String.index 0 key s with
  | Some _ => true
  | None => false
  end.

(** [key in data] for a str [key]: a key of a dict, an element of a list,
    a substring of a str; other values are not containers. *)
Definition contains (key : string) (data : json) : exn + bool :=
  match data with
  | JDict d => inr (bool_decide (is_Some (assoc key d)))
  | JList l => inr (existsb (is_str key) l)
  | JStr s => inr (substring key s)
  | _ => inl TypeError
  end.

(** [data[key]] for a str [key] *)
Definition getitem (data : json) (key : string) : exn + json :=
  match data with
  | JDict d => match assoc key d with
               | Some v => inr v
               | None => inl KeyError
               end
  | _ => inl TypeError
  end.

(** [data.get(key, default)] *)
Definition get (data : json) (key : string) (dflt : json) : exn + json :=
  match data with
  | JDict d => inr (default dflt (assoc key d))
  | _ => inl AttributeError
  end.

(** Looking a value up in a dict whose keys are ints ([v in d], [d[v]]):
    a list or dict is unhashable; a bool is equal to the int 0 or 1;
    [None] and a str are equal to no int. *)
Definition int_key (v : json) : exn + option Z :=
  match v with
  | JInt z => inr (Some z)
  | JBool b => inr (Some (Z.b2z b))
  | JNull | JStr _ => inr None
  | JList _ | JDict _ => inl TypeError
  end.

(** Looking a value up in a dict whose keys are strs. *)
Definition str_key (v : json) : exn + option string :=
  match v with
  | JStr s => inr (Some s)
  | JNull | JBool _ | JInt _ => inr None
  | JList _ | JDict _ => inl TypeError
  end.

(** Equality of two hashable values as dict keys. *)
Definition key_eqb (a b : json) : bool :=
  match a, b with
  | JNull, JNull => true
  | JStr x, JStr y => String.eqb x y
  | (JInt _ | JBool _), (JInt _ | JBool _) =>
      match int_key a, int_key b with
      | inr (Some x), inr (Some y) => Z.eqb x y
      | _, _ => false
      end
  | _, _ => false
  end.

Definition hashable (v : json) : bool :=
  match v with
  | JList _ | JDict _ => false
  | _ => true
  end.

Fixpoint set_assoc (k v : json) (d : list (json * json)) : list (json * json) :=
  match d with
  | [] => [(k, v)]
  | (k', v') :: d' =>
      if key_eqb k' k then (k', v) :: d' else (k', v') :: set_assoc k v d'
  end.

(** [d[k] = v] on a dict with arbitrary keys *)
Definition setitem (d : list (json * json)) (k v : json)
    : exn + list (json * json) :=
  if hashable k then inr (set_assoc k v d) else inl TypeError.

(** [v[0]] *)
Definition getitem0 (v : json) : exn + json :=
  match v with
  | JList (x :: _) => inr x
  | JList [] => inl IndexError
  | JStr (String a _) => inr (JStr (String a EmptyString))
  | JStr EmptyString => inl IndexError
  | JDict _ => inl KeyError
  | _ => inl TypeError
  end.

(** [v + 1] *)
Definition add1 (v : json) : exn + json :=
  match v with
  | JInt z => inr (JInt (z + 1))
  | JBool b => inr (JInt (Z.b2z b + 1))
  | _ => inl TypeError
  end.

(** an [Optional[str]] argument as a value *)
Definition of_optional (o : option string) : json :=
  match o with
  | Some s => JStr s
  | None => JNull
  end.

(** [k in d] and [del d[k]] on a dict with arbitrary keys *)
Fixpoint get_assoc (k : json) (d : list (json * json)) : option json :=
  match d with
  | [] => None
  | (k', v) :: d' => if key_eqb k' k then Some v else get_assoc k d'
  end.

Fixpoint del_assoc (k : json) (d : list (json * json)) : list (json * json) :=
  match d with
  | [] => []
  | (k', v) :: d' => if key_eqb k' k then d' else (k', v) :: del_assoc k d'
  end.

(** the characters of a str, each as a str *)
Fixpoint chars (s : string) : list json :=
  match s with
  | EmptyString => []
  | String a s' => JStr (String a EmptyString) :: chars s'
  end.

(** [for x in v]: the items the loop goes through *)
Definition iter (v : json) : exn + list json :=
  match v with
  | JList l => inr l
  | JStr s => inr (chars s)
  | JDict d => inr ((fun kv => JStr kv.1) <$> d)
  | _ => inl TypeError
  end.

(** [sep.join(items)]: every item has to be a str *)
Fixpoint join (sep : string) (items : list json) : exn + string :=
  match items with
  | [] => inr EmptyString
  | JStr s :: rest =>
      match rest with
      | [] => inr s
      | _ => match join sep rest with
             | inr t => inr (String.append s (String.append sep t))
             | inl e => inl e
             end
      end
  | _ :: _ => inl TypeError
  end.

(** [s * n] *)
Fixpoint mul_str (s : string) (n : nat) : string :=
  match n with
  | O => EmptyString
  | S n' => String.append s (mul_str s n')
  end.

(** [v is None] *)
Definition is_None (v : json) : bool :=
  match v with
  | JNull => true
  | _ => false
  end.

End Py.

(** ** The monad of one uninterrupted piece of code

    A computation reads and writes a state [S], prints lines to stdout and
    either returns a value or raises. *)

Definition M (S A : Type) : Type := S -> S * list fstring * (exn + A).

Section Monad.
Context {S : Type}.

Definition ret {A} (a : A) : M S A := fun s => (s, [], inr a).

Definition raise {A} (e : exn) : M S A := fun s => (s, [], inl e).

Definition bind {A B} (m : M S A) (k : A -> M S B) : M S B :=
  fun s =>
    match m s with
    | (s1, o1, inl e) => (s1, o1, inl e)
    | (s1, o1, inr a) =>
        match k a s1 with
        | (s2, o2, r) => (s2, o1 ++ o2, r)
        end
    end.

(** a pure operation that may raise *)
Definition lift {A} (r : exn + A) : M S A := fun s => (s, [], r).

Definition gets {A} (f : S -> A) : M S A := fun s => (s, [], inr (f s)).

Definition modify (f : S -> S) : M S unit := fun s => (f s, [], inr tt).

Definition print (line : fstring) : M S unit := fun s => (s, [line], inr tt).

(** [try: m  except ...: h e] *)
Definition try_except {A} (m : M S A) (h : exn -> M S A) : M S A :=
  fun s =>
    match m s with
    | (s1, o1, inl e) =>
        match h e s1 with
        | (s2, o2, r) => (s2, o1 ++ o2, r)
        end
    | r => r
    end.

Definition when (b : bool) (m : M S unit) : M S unit :=
  if b then m else ret tt.

(** [for x in l: body x] *)
Fixpoint for_each {A} (l : list A) (body : A -> M S unit) : M S unit :=
  match l with
  | [] => ret tt
  | x :: l' => bind (body x) (fun _ => for_each l' body)
  end.

End Monad.

#[export] Instance M_ret {S} : MRet (M S) := @ret S.
#[export] Instance M_bind {S} : MBind (M S) := fun A B k m => bind m k.

(** [config.py] *)
Definition DEBUG : bool := true.

(** ** class CDPClient *)

Module CDPClient.

(** An [asyncio.Future] awaiting a response: pending, done with a
    result, or cancelled ([wait_for] cancels it when its timeout passes
    or when the waiting call is itself cancelled). *)
Inductive Future : Type :=
| FutPending
| FutResult (data : json)
| FutCancelled.

(** [future.set_result(data)] raises on a future that is already done,
    be it with a result or by cancellation. *)
Definition set_result (fut : Future) (data : json) : exn + Future :=
  match fut with
  | FutPending => inr (FutResult data)
  | FutResult _ => inl InvalidStateError
  | FutCancelled => inl InvalidStateError
  end.

(** [future.cancel()] has no effect on a future that is done. *)
Definition cancel_future (fut : Future) : Future :=
  match fut with
  | FutPending => FutCancelled
  | FutResult data => FutResult data
  | FutCancelled => FutCancelled
  end.

(** The websocket: whether it is closed, and the frames written to it. *)
Record WebSocket : Type := { closed : bool; sent : list json }.

(** The [asyncio.Task] running [_receive_loop]. *)
Inductive Task : Type := Running | Finished.

(** The fields of [__init__]. The record is parametric in the type of the
    registered handlers, so that a handler can be given the client to
    look at (with the handlers themselves hidden). *)
Record t_ (H : Type) : Type := mk {
  ws : option WebSocket;
  ws_url : option string;
  msg_id : Z;
  pending_responses : gmap Z Future;
  paused_data : json;
  event_handlers : gmap string H;
  receive_task : option Task;
  breakpoints : list (json * json)
}.
Arguments mk {H}.
Arguments ws {H}.
Arguments ws_url {H}.
Arguments msg_id {H}.
Arguments pending_responses {H}.
Arguments paused_data {H}.
Arguments event_handlers {H}.
Arguments receive_task {H}.
Arguments breakpoints {H}.

(** A registered handler is called with the event's params; it may look
    at the client and either returns or raises. *)
Abbreviation handler := (json -> t_ unit -> option exn).

Definition t : Type := t_ handler.

Definition observe (c : t) : t_ unit :=
  mk (ws c) (ws_url c) (msg_id c) (pending_responses c) (paused_data c)
     ((fun _ => tt) <$> event_handlers c) (receive_task c) (breakpoints c).

Definition set_ws (v : option WebSocket) (c : t) : t :=
  mk v (ws_url c) (msg_id c) (pending_responses c) (paused_data c)
     (event_handlers c) (receive_task c) (breakpoints c).
Definition set_ws_url (v : option string) (c : t) : t :=
  mk (ws c) v (msg_id c) (pending_responses c) (paused_data c)
     (event_handlers c) (receive_task c) (breakpoints c).
Definition set_msg_id (v : Z) (c : t) : t :=
  mk (ws c) (ws_url c) v (pending_responses c) (paused_data c)
     (event_handlers c) (receive_task c) (breakpoints c).
Definition set_pending_responses (v : gmap Z Future) (c : t) : t :=
  mk (ws c) (ws_url c) (msg_id c) v (paused_data c)
     (event_handlers c) (receive_task c) (breakpoints c).
Definition set_paused_data (v : json) (c : t) : t :=
  mk (ws c) (ws_url c) (msg_id c) (pending_responses c) v
     (event_handlers c) (receive_task c) (breakpoints c).
Definition set_event_handlers (v : gmap string handler) (c : t) : t :=
  mk (ws c) (ws_url c) (msg_id c) (pending_responses c) (paused_data c)
     v (receive_task c) (breakpoints c).
Definition set_receive_task (v : option Task) (c : t) : t :=
  mk (ws c) (ws_url c) (msg_id c) (pending_responses c) (paused_data c)
     (event_handlers c) v (breakpoints c).
Definition set_breakpoints (v : list (json * json)) (c : t) : t :=
  mk (ws c) (ws_url c) (msg_id c) (pending_responses c) (paused_data c)
     (event_handlers c) (receive_task c) v.

(** [__init__] *)
Definition init : t := mk None None 0 ∅ JNull ∅ None [].

(** What the network does to [connect]: target discovery fails (no page
    target, HTTP error), or it gives a websocket URL and opening the
    websocket fails, or the websocket opens. *)
Inductive connect_env : Type :=
| DiscoveryFails (e : exn)
| SocketFails (url : string) (e : exn)
| SocketOpens (url : string).

Definition connect (chrome_host : string) (chrome_port : Z)
    (env : connect_env) : M t unit :=
  try_except
    (match env with
     | DiscoveryFails e => raise e
     | SocketFails url e =>
         _ ← modify (set_ws_url (Some url));
         raise e
     | SocketOpens url =>
         _ ← modify (set_ws_url (Some url));
         _ ← modify (set_ws (Some {| closed := false; sent := [] |}));
         _ ← modify (set_receive_task (Some Running));
         when DEBUG (print [Lit "Connected to Chrome CDP: "; Lit url])
     end)
    (fun e =>
       if is_Exception e then
         raise (RuntimeError [Lit "Failed to connect to Chrome CDP at ";
                              Lit chrome_host; Lit ":"; Str (JInt chrome_port);
                              Lit ": "; StrExn e])
       else raise e).

(** [task.cancel()] followed by awaiting the task: a running receive loop
    is stopped, a finished one stays finished. *)
Definition cancel (task : Task) : Task := Finished.

(** [ws.close()] *)
Definition close (w : WebSocket) : WebSocket :=
  {| closed := true; sent := sent w |}.

Definition disconnect : M t unit :=
  task ← gets receive_task;
  _ ← match task with
      | Some task => modify (set_receive_task (Some (cancel task)))
      | None => mret tt
      end;
  w ← gets ws;
  match w with
  | Some w => modify (set_ws (Some (close w)))
  | None => mret tt
  end.

(** A websocket message is identified with what [json.loads] makes of
    it: the decoded value, or a decoding error. *)
Inductive message : Type :=
| Decodable (data : json)
| Undecodable.

Definition json_loads (m : message) : exn + json :=
  match m with
  | Decodable data => inr data
  | Undecodable => inl JSONDecodeError
  end.

(** The first part of [_handle_event]: the pause snapshot. *)
Definition track_pause (method params : json) : M t unit :=
  if Py.is_str "Debugger.paused" method then
    _ ← modify (set_paused_data params);
    when DEBUG
      (reason ← lift (Py.get params "reason" (JStr "unknown"));
       print [Lit "Debugger paused: "; Str reason])
  else if Py.is_str "Debugger.resumed" method then
    _ ← modify (set_paused_data JNull);
    when DEBUG (print [Lit "Debugger resumed"])
  else mret tt.

(** The second part: the handler registered for the method, if any. *)
Definition call_handler (method params : json) : M t unit :=
  key ← lift (Py.str_key method);
  handlers ← gets event_handlers;
  match key with
  | Some name =>
      match handlers !! name with
      | Some h =>
          c ← gets observe;
          match h params c with
          | Some e => raise e
          | None => mret tt
          end
      | None => mret tt
      end
  | None => mret tt
  end.

Definition _handle_event (event : json) : M t unit :=
  method ← lift (Py.getitem event "method");
  params ← lift (Py.get event "params" (JDict []));
  _ ← track_pause method params;
  call_handler method params.

(** The body of the [async for] of [_receive_loop]: one message. *)
Definition _receive_loop_body (message : message) : M t unit :=
  data ← lift (json_loads message);
  has_id ← lift (Py.contains "id" data);
  if has_id : bool then
    msg_id ← lift (Py.getitem data "id");
    key ← lift (Py.int_key msg_id);
    pending ← gets pending_responses;
    match key with
    | Some k =>
        match pending !! k with
        | Some fut =>
            fut' ← lift (set_result fut data);
            modify (set_pending_responses (<[k := fut']> pending))
        | None => mret tt
        end
    | None => mret tt
    end
  else
    has_method ← lift (Py.contains "method" data);
    if has_method : bool then _handle_event data else mret tt.

(** The [except] clauses of [_receive_loop]. *)
Definition _receive_loop_except (e : exn) : M t unit :=
  if is_Exception e then
    when DEBUG (print [Lit "CDP receive loop error: "; StrExn e])
  else mret tt.

(** [_receive_loop], run on the messages the websocket will yield before
    it closes. When the coroutine returns its task is finished. *)
Definition _receive_loop (messages : list message) : M t unit :=
  _ ← try_except (for_each messages _receive_loop_body) _receive_loop_except;
  modify (set_receive_task (Some Finished)).

(** [send_command] up to and including [await self.ws.send(...)]:
    returns the request id. *)
Definition send_command_send (method : string) (params : json) : M t Z :=
  w ← gets ws;
  match w with
  | None => raise (RuntimeError [Lit "Not connected to Chrome CDP"])
  | Some w =>
      _ ← modify (fun c => set_msg_id (msg_id c + 1) c);
      msg_id ← gets msg_id;
      let message := JDict [("id", JInt msg_id); ("method", JStr method);
                            ("params", Py.or_ params (JDict []))] in
      _ ← modify (fun c =>
             set_pending_responses (<[msg_id := FutPending]> (pending_responses c)) c);
      if closed w then raise ConnectionClosed
      else
        _ ← modify (set_ws (Some {| closed := false; sent := sent w ++ [message] |}));
        mret msg_id
  end.

(** How [asyncio.wait_for(future, timeout=10.0)] comes back. *)
Inductive wakeup : Type :=
| Response (response : json)
| TimeoutError.

(** What [wait_for] comes back with, by the state of the future when the
    call resumes: its result, or [TimeoutError] for the future that
    [wait_for] cancelled; it does not come back while the future is
    pending. *)
Definition wait_for (fut : Future) : option wakeup :=
  match fut with
  | FutPending => None
  | FutResult response => Some (Response response)
  | FutCancelled => Some TimeoutError
  end.

(** [del self.pending_responses[msg_id]] *)
Definition del_pending (msg_id : Z) : M t unit :=
  pending ← gets pending_responses;
  match pending !! msg_id with
  | Some _ => modify (set_pending_responses (delete msg_id pending))
  | None => raise KeyError
  end.

(** [send_command] from the return of [wait_for] on. *)
Definition send_command_wait (method : string) (msg_id : Z) (w : wakeup)
    : M t json :=
  match w with
  | Response response =>
      _ ← del_pending msg_id;
      has_error ← lift (Py.contains "error" response);
      if has_error : bool then
        error ← lift (Py.getitem response "error");
        raise (RuntimeError [Lit "CDP error: "; Str error])
      else
        lift (Py.get response "result" (JDict []))
  | TimeoutError =>
      _ ← del_pending msg_id;
      raise (RuntimeError [Lit "CDP command timeout: "; Lit method])
  end.

(** A whole [send_command] call as its caller sees it, given what its
    future is resolved with: [Some] response envelope, or [None] when
    the ten seconds pass first. *)
Definition send_command (method : string) (params : json)
    (reply : option json) : M t json :=
  msg_id ← send_command_send method params;
  send_command_wait method msg_id
    (match reply with
     | Some response => Response response
     | None => TimeoutError
     end).

(** *** Interleavings

    The coroutines of one client: the receive loop, and any number of
    [send_command] calls suspended in [wait_for]. A suspended call is
    its local variables: [msg_id] (the key) and [method]; its future is
    the one stored under [msg_id] in [pending_responses].

    [wait_for(future, timeout)] comes back in two turns of the event
    loop. When the future gets its result, or when the timeout passes and
    [wait_for] cancels the future, the waiting call is only scheduled:
    other coroutines, the receive loop among them, run before it resumes
    at [del self.pending_responses[msg_id]]. So the passing of the timeout
    ([Expire]) and the resumption of the call ([Wake]) are two actions.
    A call whose task is cancelled from outside while it waits
    ([CancelCall]) has its future cancelled by [wait_for] and leaves with
    [CancelledError], which [except asyncio.TimeoutError] does not catch:
    its entry is not deleted. (When the future already holds a response,
    whether the cancelled call still returns it depends on the version of
    asyncio: up to Python 3.11 it does, which is [Wake]; from 3.12 on
    [CancelledError] wins, which is [CancelCall]. Both are runs of the
    model.) *)

Record system : Type := {
  client : t;
  waiting : gmap Z string
}.

Inductive action : Type :=
| Call (method : string) (params : json)  (* send_command is called *)
| Deliver (message : message)             (* the receive loop reads a message *)
| Expire (msg_id : Z)                     (* the timeout of the call msg_id passes *)
| Wake (msg_id : Z)                       (* wait_for returns in the call msg_id *)
| CancelCall (msg_id : Z)                 (* the task of the call msg_id is cancelled *)
| StreamEnds (e : option exn)             (* the websocket stops yielding *)
| Disconnect.                             (* disconnect() *)

(** What the caller of an action sees. *)
Inductive outcome : Type :=
| Issued (msg_id : Z)
| NotIssued (e : exn)
| Returned (msg_id : Z) (result : json)
| Raised (msg_id : Z) (e : exn)
| Silent.

(** One turn of the receive loop, with the loop's [except] clauses
    around it: an exception ends the task. *)
Definition deliver (message : message) : M t unit :=
  try_except (_receive_loop_body message)
    (fun e => _ ← _receive_loop_except e;
              modify (set_receive_task (Some Finished))).

(** The remote end closes the websocket: the [async for] ends, normally
    or by raising [e], and the coroutine returns. *)
Definition stream_ends (w : WebSocket) (e : option exn) : M t unit :=
  _ ← modify (set_ws (Some (close w)));
  _ ← match e with
      | Some e => _receive_loop_except e
      | None => mret tt
      end;
  modify (set_receive_task (Some Finished)).

Definition step (a : action) (s : system) : system * list fstring * outcome :=
  match a with
  | Call method params =>
      match send_command_send method params (client s) with
      | (c, out, inr k) =>
          ({| client := c; waiting := <[k := method]> (waiting s) |}, out, Issued k)
      | (c, out, inl e) =>
          ({| client := c; waiting := waiting s |}, out, NotIssued e)
      end
  | Deliver message =>
      match receive_task (client s) with
      | Some Running =>
          match deliver message (client s) with
          | (c, out, _) => ({| client := c; waiting := waiting s |}, out, Silent)
          end
      | _ => (s, [], Silent)
      end
  | Expire k =>
      match waiting s !! k, pending_responses (client s) !! k with
      | Some _, Some fut =>
          ({| client := set_pending_responses
                          (<[k := cancel_future fut]> (pending_responses (client s)))
                          (client s);
              waiting := waiting s |}, [], Silent)
      | _, _ => (s, [], Silent)
      end
  | Wake k =>
      match waiting s !! k, pending_responses (client s) !! k with
      | Some method, Some fut =>
          match wait_for fut with
          | Some w =>
              match send_command_wait method k w (client s) with
              | (c, out, r) =>
                  ({| client := c; waiting := delete k (waiting s) |}, out,
                   match r with
                   | inr result => Returned k result
                   | inl e => Raised k e
                   end)
              end
          | None => (s, [], Silent)
          end
      | _, _ => (s, [], Silent)
      end
  | CancelCall k =>
      match waiting s !! k, pending_responses (client s) !! k with
      | Some _, Some fut =>
          ({| client := set_pending_responses
                          (<[k := cancel_future fut]> (pending_responses (client s)))
                          (client s);
              waiting := delete k (waiting s) |}, [], Raised k CancelledError)
      | _, _ => (s, [], Silent)
      end
  | StreamEnds e =>
      match receive_task (client s), ws (client s) with
      | Some Running, Some w =>
          match stream_ends w e (client s) with
          | (c, out, _) => ({| client := c; waiting := waiting s |}, out, Silent)
          end
      | _, _ => (s, [], Silent)
      end
  | Disconnect =>
      match disconnect (client s) with
      | (c, out, _) => ({| client := c; waiting := waiting s |}, out, Silent)
      end
  end.

Fixpoint run (acts : list action) (s : system)
    : system * list fstring * list outcome :=
  match acts with
  | [] => (s, [], [])
  | a :: acts' =>
      match step a s with
      | (s1, o1, r) =>
          match run acts' s1 with
          | (s2, o2, rs) => (s2, o1 ++ o2, r :: rs)
          end
      end
  end.

(** A client just connected to [url], with its handlers registered. *)
Definition connected (url : string) (handlers : gmap string handler) : system :=
  {| client := mk (Some {| closed := false; sent := [] |}) (Some url) 0 ∅ JNull
                  handlers (Some Running) [];
     waiting := ∅ |}.

(** The envelope [data] carries the id [k]: [data["id"]] is there and,
    as a dict key, equal to the int [k]. *)
Definition response_for (k : Z) (data : json) : Prop :=
  exists v, Py.getitem data "id" = inr v /\ Py.int_key v = inr (Some k).


(** The request ids handed out in a run, in order. *)
Definition issued (outs : list outcome) : list Z :=
  omap (fun r => match r with Issued k => Some k | _ => None end) outs.

(** The id of a frame written to the websocket, and the frames written. *)
Definition frame_id (frame : json) : option Z :=
  match Py.getitem frame "id" with
  | inr (JInt k) => Some k
  | _ => None
  end.

Definition sent_frames (c : t) : list json :=
  match ws c with
  | Some w => sent w
  | None => []
  end.

(** The websocket of [s] has been written [n] frames, with the ids 1 to
    [n] in this order, and while it is open the counter stands at [n]. *)
Definition wire_count (n : nat) (s : system) : Prop :=
  exists w,
    ws (client s) = Some w
    /\ omap frame_id (sent w) = seqZ 1 (Z.of_nat n)
    /\ length (sent w) = n
    /\ (closed w = false -> msg_id (client s) = Z.of_nat n).

End CDPClient.

(** ** class CDPConnectionManager

    [connections] is a Python dict: an association list in insertion
    order, one entry per key. The operations of the registry are taken one
    at a time: each runs to its end before the next one starts. *)

Module CDPConnectionManager.

Section Dict.
Context {V : Type}.

Fixpoint dict_get (key : string) (d : list (string * V)) : option V :=
  match d with
  | [] => None
  | (k, v) :: d' => if String.eqb k key then Some v else dict_get key d'
  end.

Definition dict_in (key : string) (d : list (string * V)) : bool :=
  bool_decide (is_Some (dict_get key d)).

(** [d[key] = v]: in place for a key already there, else at the end *)
Fixpoint dict_set (key : string) (v : V) (d : list (string * V))
    : list (string * V) :=
  match d with
  | [] => [(key, v)]
  | (k, v') :: d' =>
      if String.eqb k key then (k, v) :: d' else (k, v') :: dict_set key v d'
  end.

(** [del d[key]] *)
Fixpoint dict_del (key : string) (d : list (string * V)) : list (string * V) :=
  match d with
  | [] => []
  | (k, v) :: d' => if String.eqb k key then d' else (k, v) :: dict_del key d'
  end.

(** [next(iter(d.keys()), None)] *)
Definition first_key (d : list (string * V)) : option string :=
  match d with
  | [] => None
  | (k, _) :: _ => Some k
  end.
End Dict.

Record t : Type := {
  connections : list (string * CDPClient.t);
  active_connection_id : option string
}.

(** [__init__] *)
Definition init : t := {| connections := []; active_connection_id := None |}.

Definition set_connections (v : list (string * CDPClient.t)) (m : t) : t :=
  {| connections := v; active_connection_id := active_connection_id m |}.
Definition set_active_connection_id (v : option string) (m : t) : t :=
  {| connections := connections m; active_connection_id := v |}.

(** Run a method of a client object that is not (yet) in the dict. *)
Definition on_object {A} (cdp : CDPClient.t) (m : M CDPClient.t A)
    : M t (CDPClient.t * A) :=
  fun s =>
    match m cdp with
    | (cdp', out, inr a) => (s, out, inr (cdp', a))
    | (_, out, inl e) => (s, out, inl e)
    end.

(** Run a method of the client object stored under [key]: the object is
    shared with the dict, so its changes are seen there. *)
Definition on_client {A} (key : string) (m : M CDPClient.t A) : M t A :=
  fun s =>
    match dict_get key (connections s) with
    | Some cdp =>
        match m cdp with
        | (cdp', out, r) =>
            (set_connections (dict_set key cdp' (connections s)) s, out, r)
        end
    | None => (s, [], inl KeyError)
    end.

Definition connect (connection_id : string) (host : string) (port : Z)
    (env : CDPClient.connect_env) : M t fstring :=
  conns ← gets connections;
  if dict_in connection_id conns then
    mret [Lit "Error: Connection '"; Lit connection_id;
          Lit "' already exists. Use chrome_disconnect first."]
  else
    try_except
      ('(cdp, _) ← on_object CDPClient.init (CDPClient.connect host port env);
       _ ← modify (fun m => set_connections
                              (dict_set connection_id cdp (connections m)) m);
       active ← gets active_connection_id;
       _ ← match active with
           | None => modify (set_active_connection_id (Some connection_id))
           | Some _ => mret tt
           end;
       mret [Lit "✓ Connected to Chrome at "; Lit host; Lit ":"; Str (JInt port);
             Lit " (ID: "; Lit connection_id; Lit ")"])
      (fun e =>
         if is_Exception e then
           raise (RuntimeError [Lit "Failed to connect to Chrome at "; Lit host;
                                Lit ":"; Str (JInt port); Lit ": "; StrExn e])
         else raise e).

Definition disconnect (connection_id : string) : M t fstring :=
  conns ← gets connections;
  if negb (dict_in connection_id conns) then
    mret [Lit "Error: Connection '"; Lit connection_id; Lit "' not found"]
  else
    _ ← on_client connection_id CDPClient.disconnect;
    _ ← modify (fun m => set_connections (dict_del connection_id (connections m)) m);
    active ← gets active_connection_id;
    _ ← (if bool_decide (active = Some connection_id) then
           modify (fun m => set_active_connection_id (first_key (connections m)) m)
         else mret tt);
    mret [Lit "✓ Disconnected from '"; Lit connection_id; Lit "'"].

(** [for cdp in d.values(): body(cdp)], each object changed in place *)
Fixpoint each_value (body : M CDPClient.t unit) (d : list (string * CDPClient.t))
    : list (string * CDPClient.t) * list fstring * (exn + unit) :=
  match d with
  | [] => ([], [], inr tt)
  | (k, cdp) :: d' =>
      match body cdp with
      | (cdp', out, inr _) =>
          match each_value body d' with
          | (d'', out', r) => ((k, cdp') :: d'', out ++ out', r)
          end
      | (cdp', out, inl e) => ((k, cdp') :: d', out, inl e)
      end
  end.

Definition for_values (body : M CDPClient.t unit) : M t unit :=
  fun s =>
    match each_value body (connections s) with
    | (d, out, r) => (set_connections d s, out, r)
    end.

Definition disconnect_all : M t unit :=
  _ ← for_values CDPClient.disconnect;
  _ ← modify (set_connections []);
  modify (set_active_connection_id None).

(** A reference to a client object held by the dict: the key it is
    stored under, and its present state. *)
Definition ref : Type := string * CDPClient.t.

Definition get (connection_id : string) (m : t) : option ref :=
  cdp ← dict_get connection_id (connections m);
  Some (connection_id, cdp).

Definition get_active (m : t) : option ref :=
  match active_connection_id m with
  | Some id => if Py.truthy (JStr id) then get id m else None
  | None => None
  end.

Definition switch_active (connection_id : string) : M t fstring :=
  conns ← gets connections;
  if negb (dict_in connection_id conns) then
    mret [Lit "Error: Connection '"; Lit connection_id; Lit "' not found"]
  else
    _ ← modify (set_active_connection_id (Some connection_id));
    mret [Lit "✓ Switched to connection '"; Lit connection_id; Lit "'"].

Definition get_connection (connection_id : option string) (m : t)
    : option ref :=
  match connection_id with
  | None => get_active m
  | Some id => get id m
  end.

(** The registry invariant: [connections] has one entry per key, and
    [active_connection_id], when not [None], is one of its keys. *)
Definition invariant (m : t) : Prop :=
  NoDup (fst <$> connections m)
  /\ forall id, active_connection_id m = Some id ->
                dict_in id (connections m) = true.

Definition connection_info (active : option string) (conn_id : string)
    (cdp : CDPClient.t) : json :=
  JDict [("url", Py.of_optional (CDPClient.ws_url cdp));
         ("active", JBool (bool_decide (Some conn_id = active)));
         ("paused", JBool (negb (Py.is_None (CDPClient.paused_data cdp))))].

(** [list_connections]: the result dict is filled in the order of
    [connections]. *)
Definition list_connections (m : t) : list (string * json) :=
  foldl (fun result '(conn_id, cdp) =>
           dict_set conn_id (connection_info (active_connection_id m) conn_id cdp) result)
        [] (connections m).

End CDPConnectionManager.

(** ** The debugger tools

    The module-level tool functions, on the connection manager of the
    global [chrome_client] (taken as initialised). [reply] is what the
    tool's one [send_command] call is resolved with. *)

Module Tools.
Import CDPConnectionManager.

Definition no_connection (connection_id : option string) : fstring :=
  let conn_msg :=
    match connection_id with
    | Some id => if Py.truthy (JStr id) then [Lit " '"; Lit id; Lit "'"] else [Lit ""]
    | None => [Lit ""]
    end in
  [Lit "Error: No Chrome connection"] ++ conn_msg ++
  [Lit " found. Use chrome_connect() or chrome_launch() first."].

(** [except Exception as e: return f"<prefix>{str(e)}"] *)
Definition except_return {S} (prefix : string) (e : exn) : M S fstring :=
  if is_Exception e then mret (Lit prefix :: str_exn e) else raise e.

Definition debugger_step_over (connection_id : option string)
    (reply : option json) : M t fstring :=
  cdp ← gets (get_connection connection_id);
  match cdp with
  | None => mret (no_connection connection_id)
  | Some (key, _) =>
      try_except
        (on_client key
           (paused_data ← gets CDPClient.paused_data;
            if negb (Py.truthy paused_data) then
              mret [Lit "Not paused. Cannot step when execution is not paused."]
            else
              _ ← CDPClient.send_command "Debugger.stepOver" (JDict []) reply;
              mret [Lit "✓ Stepped over. Execution will pause at next line."; Lit NL;
                    Lit "Use debugger_get_call_stack() to see current location."]))
        (except_return "Error stepping over: ")
  end.

Definition debugger_step_into (connection_id : option string)
    (reply : option json) : M t fstring :=
  cdp ← gets (get_connection connection_id);
  match cdp with
  | None => mret (no_connection connection_id)
  | Some (key, _) =>
      try_except
        (on_client key
           (paused_data ← gets CDPClient.paused_data;
            if negb (Py.truthy paused_data) then
              mret [Lit "Not paused. Cannot step when execution is not paused."]
            else
              _ ← CDPClient.send_command "Debugger.stepInto" (JDict []) reply;
              mret [Lit "✓ Stepped into function. Execution will pause at first line.";
                    Lit NL;
                    Lit "Use debugger_get_call_stack() to see current location."]))
        (except_return "Error stepping into: ")
  end.

Definition debugger_step_out (connection_id : option string)
    (reply : option json) : M t fstring :=
  cdp ← gets (get_connection connection_id);
  match cdp with
  | None => mret (no_connection connection_id)
  | Some (key, _) =>
      try_except
        (on_client key
           (paused_data ← gets CDPClient.paused_data;
            if negb (Py.truthy paused_data) then
              mret [Lit "Not paused. Cannot step when execution is not paused."]
            else
              _ ← CDPClient.send_command "Debugger.stepOut" (JDict []) reply;
              mret [Lit "✓ Stepped out of function. Execution will pause at caller.";
                    Lit NL;
                    Lit "Use debugger_get_call_stack() to see current location."]))
        (except_return "Error stepping out: ")
  end.

Definition debugger_resume (connection_id : option string)
    (reply : option json) : M t fstring :=
  cdp ← gets (get_connection connection_id);
  match cdp with
  | None => mret (no_connection connection_id)
  | Some (key, _) =>
      try_except
        (on_client key
           (paused_data ← gets CDPClient.paused_data;
            if negb (Py.truthy paused_data) then
              mret [Lit "Not paused. Nothing to resume."]
            else
              _ ← CDPClient.send_command "Debugger.resume" (JDict []) reply;
              mret [Lit "✓ Execution resumed. Will pause at next breakpoint or exception."]))
        (except_return "Error resuming: ")
  end.

(** The formatting of the evaluation result. *)
Definition format_evaluation (expression : string) (result : json)
    : exn + fstring :=
  has_exc ← Py.contains "exceptionDetails" result;
  if has_exc : bool then
    exception ← Py.getitem result "exceptionDetails";
    error_text ← Py.get exception "text" (JStr "Unknown error");
    inr [Lit "❌ Evaluation error: "; Str error_text; Lit NL; Lit NL;
         Lit "Expression: "; Lit expression]
  else
    result_obj ← Py.get result "result" (JDict []);
    result_type ← Py.get result_obj "type" (JStr "undefined");
    result_value ← Py.get result_obj "value" JNull;
    result_description ← Py.get result_obj "description" JNull;
    let response := [Lit "✓ Evaluated: "; Lit expression; Lit NL; Lit NL;
                     Lit "Type: "; Str result_type; Lit NL] in
    inr (response ++
         match result_value with
         | JNull =>
             if Py.truthy result_description
             then [Lit "Description: "; Str result_description]
             else [Lit "Result: "; Str result_type]
         | _ => [Lit "Value: "; Dumps result_value]
         end).

Definition debugger_evaluate_on_call_frame (call_frame_id expression : string)
    (connection_id : option string) (reply : option json) : M t fstring :=
  cdp ← gets (get_connection connection_id);
  match cdp with
  | None => mret (no_connection connection_id)
  | Some (key, _) =>
      try_except
        (on_client key
           (paused_data ← gets CDPClient.paused_data;
            if negb (Py.truthy paused_data) then
              mret [Lit "Not paused. Cannot evaluate expressions outside of paused context."]
            else
              let params := JDict [("callFrameId", JStr call_frame_id);
                                   ("expression", JStr expression)] in
              result ← CDPClient.send_command "Debugger.evaluateOnCallFrame"
                                              params reply;
              lift (format_evaluation expression result)))
        (except_return "Error evaluating expression: ")
  end.

Definition debugger_set_breakpoint (url : string) (line_number : Z)
    (column_number : Z) (condition : option string)
    (connection_id : option string) (reply : option json) : M t fstring :=
  cdp ← gets (get_connection connection_id);
  match cdp with
  | None => mret (no_connection connection_id)
  | Some (key, _) =>
      try_except
        (on_client key
           (let condition := Py.of_optional condition in
            let params := [("url", JStr url);
                           ("lineNumber", JInt (line_number - 1));
                           ("columnNumber", JInt column_number)] in
            let params := if Py.truthy condition
                          then params ++ [("condition", condition)]
                          else params in
            result ← CDPClient.send_command "Debugger.setBreakpointByUrl"
                                            (JDict params) reply;
            breakpoint_id ← lift (Py.get result "breakpointId" JNull);
            locations ← lift (Py.get result "locations" (JList []));
            breakpoints ← gets CDPClient.breakpoints;
            breakpoints ← lift (Py.setitem breakpoints breakpoint_id
                                  (JDict [("url", JStr url);
                                          ("lineNumber", JInt line_number);
                                          ("columnNumber", JInt column_number);
                                          ("condition", condition)]));
            _ ← modify (CDPClient.set_breakpoints breakpoints);
            let response := [Lit "✓ Breakpoint set successfully"; Lit NL; Lit NL;
                             Lit "Breakpoint ID: "; Str breakpoint_id; Lit NL;
                             Lit "URL: "; Lit url; Lit NL;
                             Lit "Line: "; Str (JInt line_number)] in
            let response := if Py.truthy condition
                            then response ++ [Lit NL; Lit "Condition: "; Str condition]
                            else response in
            response ←
              (if Py.truthy locations then
                 loc ← lift (Py.getitem0 locations);
                 line ← lift (Py.get loc "lineNumber" (JInt 0));
                 actual_line ← lift (Py.add1 line);
                 column ← lift (Py.get loc "columnNumber" (JInt 0));
                 mret (response ++ [Lit NL; Lit NL; Lit "Actual location: Line ";
                                    Str actual_line; Lit ", Column "; Str column])
               else mret response);
            mret (response ++ [Lit NL; Lit NL;
                               Lit "Trigger the code path to pause at this breakpoint."])))
        (except_return "Error setting breakpoint: ")
  end.

(** The operations that need the debugger to be paused. *)
Inductive paused_op : Type :=
| Resume
| StepOver
| StepInto
| StepOut
| EvaluateOnCallFrame (call_frame_id expression : string).

Definition run_op (op : paused_op) : option string -> option json -> M t fstring :=
  match op with
  | Resume => debugger_resume
  | StepOver => debugger_step_over
  | StepInto => debugger_step_into
  | StepOut => debugger_step_out
  | EvaluateOnCallFrame call_frame_id expression =>
      debugger_evaluate_on_call_frame call_frame_id expression
  end.

(** The CDP command of each operation, and the message of its guard. *)
Definition op_method (op : paused_op) : string :=
  match op with
  | Resume => "Debugger.resume"
  | StepOver => "Debugger.stepOver"
  | StepInto => "Debugger.stepInto"
  | StepOut => "Debugger.stepOut"
  | EvaluateOnCallFrame _ _ => "Debugger.evaluateOnCallFrame"
  end.

Definition op_params (op : paused_op) : json :=
  match op with
  | EvaluateOnCallFrame call_frame_id expression =>
      JDict [("callFrameId", JStr call_frame_id); ("expression", JStr expression)]
  | _ => JDict []
  end.

Definition not_paused (op : paused_op) : fstring :=
  match op with
  | Resume => [Lit "Not paused. Nothing to resume."]
  | EvaluateOnCallFrame _ _ =>
      [Lit "Not paused. Cannot evaluate expressions outside of paused context."]
  | _ => [Lit "Not paused. Cannot step when execution is not paused."]
  end.

(** *** The tools without a guard on the pause *)

Definition debugger_enable (connection_id : option string)
    (reply : option json) : M t fstring :=
  cdp ← gets (get_connection connection_id);
  match cdp with
  | None => mret (no_connection connection_id)
  | Some (key, _) =>
      try_except
        (on_client key
           (_ ← CDPClient.send_command "Debugger.enable" (JDict []) reply;
            mret [Lit "✓ Debugger enabled successfully"; Lit NL; Lit NL;
                  Lit "You can now:"; Lit NL;
                  Lit "- Set breakpoints with debugger_set_breakpoint()"; Lit NL;
                  Lit "- Pause execution with debugger_pause()"; Lit NL;
                  Lit "- Configure exception breaking with debugger_set_pause_on_exceptions()"]))
        (except_return "Error enabling debugger: ")
  end.

Definition debugger_pause (connection_id : option string)
    (reply : option json) : M t fstring :=
  cdp ← gets (get_connection connection_id);
  match cdp with
  | None => mret (no_connection connection_id)
  | Some (key, _) =>
      try_except
        (on_client key
           (_ ← CDPClient.send_command "Debugger.pause" (JDict []) reply;
            mret [Lit "✓ Pause requested. Execution will pause at next statement."; Lit NL;
                  Lit "Use debugger_get_call_stack() once paused."]))
        (except_return "Error pausing: ")
  end.

Definition debugger_remove_breakpoint (breakpoint_id : string)
    (connection_id : option string) (reply : option json) : M t fstring :=
  cdp ← gets (get_connection connection_id);
  match cdp with
  | None => mret (no_connection connection_id)
  | Some (key, _) =>
      try_except
        (on_client key
           (_ ← CDPClient.send_command "Debugger.removeBreakpoint"
                  (JDict [("breakpointId", JStr breakpoint_id)]) reply;
            breakpoints ← gets CDPClient.breakpoints;
            _ ← match Py.get_assoc (JStr breakpoint_id) breakpoints with
                | Some _ =>
                    modify (CDPClient.set_breakpoints
                              (Py.del_assoc (JStr breakpoint_id) breakpoints))
                | None => mret tt
                end;
            mret [Lit "✓ Breakpoint "; Lit breakpoint_id; Lit " removed successfully"]))
        (except_return "Error removing breakpoint: ")
  end.

(** [messages[state]] *)
Definition pause_on_exceptions_message (state : string) : exn + string :=
  if String.eqb state "none" then inr "Will not pause on exceptions"
  else if String.eqb state "uncaught" then inr "Will pause only on uncaught exceptions"
  else if String.eqb state "all"
       then inr "Will pause on all exceptions (caught and uncaught)"
  else inl KeyError.

Definition debugger_set_pause_on_exceptions (state : string)
    (connection_id : option string) (reply : option json) : M t fstring :=
  cdp ← gets (get_connection connection_id);
  match cdp with
  | None => mret (no_connection connection_id)
  | Some (key, _) =>
      if negb (existsb (String.eqb state) ["none"; "uncaught"; "all"]) then
        mret [Lit "Error: state must be 'none', 'uncaught', or 'all' (got '";
              Lit state; Lit "')"]
      else
        try_except
          (on_client key
             (_ ← CDPClient.send_command "Debugger.setPauseOnExceptions"
                    (JDict [("state", JStr state)]) reply;
              message ← lift (pause_on_exceptions_message state);
              mret [Lit "✓ Exception breaking configured"; Lit NL; Lit NL; Lit message]))
          (except_return "Error setting pause on exceptions: ")
  end.

(** *** [debugger_get_call_stack] *)

(** The lines of one frame of the call stack. *)
Definition format_frame (i : Z) (frame : json) : exn + fstring :=
  call_frame_id ← Py.get frame "callFrameId" (JStr "unknown");
  function_name ← Py.get frame "functionName" JNull;
  let func_name := Py.or_ function_name (JStr "(anonymous)") in
  location ← Py.get frame "location" (JDict []);
  url ← Py.get frame "url" (JStr "unknown");
  line ← Py.get location "lineNumber" (JInt 0);
  line_num ← Py.add1 line;
  col_num ← Py.get location "columnNumber" (JInt 0);
  let result := [Lit "["; Str (JInt i); Lit "] "; Str func_name; Lit NL;
                 Lit "    Frame ID: "; Str call_frame_id; Lit NL;
                 Lit "    Location: "; Str url; Lit ":"; Str line_num; Lit ":";
                 Str col_num; Lit NL] in
  scope_chain ← Py.get frame "scopeChain" (JList []);
  result ←
    (if Py.truthy scope_chain then
       items ← Py.iter scope_chain;
       scopes ← mapM (fun s => Py.get s "type" (JStr "unknown")) items;
       joined ← Py.join ", " scopes;
       inr (result ++ [Lit "    Scopes: "; Lit joined; Lit NL])
     else inr result);
  inr (result ++ [Lit NL]).

(** [for i, frame in enumerate(call_frames)], from the index [i] on *)
Fixpoint format_frames (i : Z) (frames : list json) : exn + fstring :=
  match frames with
  | [] => inr []
  | frame :: rest =>
      lines ← format_frame i frame;
      more ← format_frames (i + 1) rest;
      inr (lines ++ more)
  end.

(** What [debugger_get_call_stack] makes of a non-empty [paused_data]. *)
Definition format_call_stack (paused_data : json) : exn + fstring :=
  call_frames ← Py.get paused_data "callFrames" (JList []);
  reason ← Py.get paused_data "reason" (JStr "unknown");
  if negb (Py.truthy call_frames) then
    inr [Lit "Execution is paused but no call stack available."]
  else
    frames ← Py.iter call_frames;
    body ← format_frames 0 frames;
    inr ([Lit "📍 Execution paused: "; Str reason; Lit NL; Lit NL;
          Lit "Call Stack:"; Lit NL; Lit (Py.mul_str "=" 60); Lit NL; Lit NL]
         ++ body ++
         [Lit NL;
          Lit "Use debugger_evaluate_on_call_frame(call_frame_id, expression) to inspect variables.";
          Lit NL;
          Lit "Use debugger_step_over/into/out() to continue stepping, or debugger_resume() to continue execution."]).

Definition debugger_get_call_stack (connection_id : option string) : M t fstring :=
  cdp ← gets (get_connection connection_id);
  match cdp with
  | None => mret (no_connection connection_id)
  | Some (key, _) =>
      try_except
        (on_client key
           (paused_data ← gets CDPClient.paused_data;
            if negb (Py.truthy paused_data) then
              mret [Lit "Not paused. Set a breakpoint with debugger_set_breakpoint() and trigger it, or use debugger_pause() to pause execution."]
            else lift (format_call_stack paused_data)))
        (except_return "Error getting call stack: ")
  end.

(** *** The connection tools *)

Definition chrome_connect (port : Z) (connection_id host : string)
    (env : CDPClient.connect_env) : M t fstring :=
  try_except
    (connect connection_id host port env)
    (fun e =>
       if is_Exception e then
         mret ([Lit "Error connecting to Chrome: "] ++ str_exn e ++
               [Lit NL; Lit NL; Lit "Make sure Chrome is running with:"; Lit NL;
                Lit "chrome --remote-debugging-port="; Str (JInt port)])
       else raise e).

Definition chrome_switch_connection (connection_id : string) : M t fstring :=
  switch_active connection_id.

Definition chrome_disconnect (connection_id : string) : M t fstring :=
  try_except (disconnect connection_id) (except_return "Error disconnecting: ").

End Tools.

(** ** Sample clients and messages *)

Module Examples.
Import CDPClient.

(** A handler that always raises. *)
Definition failing_handler : handler := fun _ _ => Some (HandlerError "boom").

(** A handler that raises unless the client is paused when it runs. *)
Definition paused_checker : handler :=
  fun _ c => if Py.truthy (paused_data c) then None else Some (HandlerError "not paused").

Definition handlers : gmap string handler :=
  {[ "Console.messageAdded" := failing_handler;
     "Debugger.paused" := paused_checker ]}.

(** A connected client with one [send_command] call waiting (id 1). *)
Definition busy : system :=
  (run [Call "Debugger.enable" (JDict [])] (connected "ws://localhost:9222/page/1" handlers)).1.1.

Definition response_1 : message :=
  Decodable (JDict [("id", JInt 1); ("result", JDict [])]).

Definition console_event : message :=
  Decodable (JDict [("method", JStr "Console.messageAdded");
                    ("params", JDict [("text", JStr "hello")])]).

Definition unknown_frame : json := JDict [("jsonrpc", JStr "2.0")].

Definition frames : json := JDict [("callFrames", JList []); ("reason", JStr "other")].

Definition paused_event : message :=
  Decodable (JDict [("method", JStr "Debugger.paused"); ("params", frames)]).

Definition bare_paused_event : message :=
  Decodable (JDict [("method", JStr "Debugger.paused")]).

Definition null_paused_event : message :=
  Decodable (JDict [("method", JStr "Debugger.paused"); ("params", JNull)]).

(** [busy] after a pause notification. *)
Definition paused : system := (step (Deliver paused_event) busy).1.1.

(** A registry holding one client, active, under the id "default". *)
Definition registry (cdp : t) : CDPConnectionManager.t :=
  {| CDPConnectionManager.connections := [("default", cdp)];
     CDPConnectionManager.active_connection_id := Some "default" |}.

(** A response to [Debugger.setBreakpointByUrl] for line 41 (0-indexed). *)
Definition breakpoint_response : list (string * json) :=
  [("id", JInt 2);
   ("result", JDict [("breakpointId", JStr "1:41:0:app.js");
                     ("locations",
                      JList [JDict [("scriptId", JStr "7");
                                    ("lineNumber", JInt 41);
                                    ("columnNumber", JInt 0)]])])].

End Examples.

(** * Properties *)

Module CDPClientSpec.
Import CDPClient.

(** C10. [send_command] on a client whose [ws] is [None] raises
    "Not connected to Chrome CDP" and changes nothing: the counter
    [msg_id], [pending_responses] and every other field are as before,
    nothing is printed, and no call is left waiting. *)
Theorem send_command_not_connected (s : system) (method : string)
    (params : json) (reply : option json) :
  ws (client s) = None ->
  let e := RuntimeError [Lit "Not connected to Chrome CDP"] in
  send_command_send method params (client s) = (client s, [], inl e)
  /\ send_command method params reply (client s) = (client s, [], inl e)
  /\ step (Call method params) s = (s, [], NotIssued e).
Proof.
  intros Hws e. destruct s as [c w]; simpl in *.
  assert (Hsend : send_command_send method params c = (c, [], inl e)).
  { unfold send_command_send, mbind, M_bind, bind, gets. simpl.
    rewrite Hws. reflexivity. }
  split; [exact Hsend|]. split.
  - unfold send_command, mbind, M_bind, bind. rewrite Hsend. reflexivity.
  - rewrite Hsend. reflexivity.
Qed.

Lemma send_command_not_connected_witness :
  send_command "Debugger.enable" (JDict []) None init
  = (init, [], inl (RuntimeError [Lit "Not connected to Chrome CDP"])).
Proof.
  apply (send_command_not_connected {| client := init; waiting := ∅ |}
           "Debugger.enable" (JDict []) None).
  reflexivity.
Defined.

(** What [disconnect] does, in one equation. *)
Lemma disconnect_eq (c : t) :
  disconnect c
  = (set_ws (close <$> ws c) (set_receive_task (cancel <$> receive_task c) c),
     [], inr tt).
Proof.
  destruct c as [w u i p d h [task|] b]; destruct w as [w|]; reflexivity.
Qed.

(** C2, as the code has it. [disconnect] stops the receive loop and closes
    the websocket, and doing it again changes nothing more; it does not
    touch [pending_responses] (nor [msg_id]): a request still pending is
    not resolved by it, and since no message is read any more it stays
    pending until its own timeout. *)
Theorem disconnect_idempotent_keeps_pending (c : t) :
  exists c' : t,
    disconnect c = (c', [], inr tt)
    /\ disconnect c' = (c', [], inr tt)
    /\ receive_task c' = (fun _ => Finished) <$> receive_task c
    /\ ws c' = close <$> ws c
    /\ pending_responses c' = pending_responses c
    /\ msg_id c' = msg_id c
    /\ forall (w : gmap Z string) (m : message),
         step (Deliver m) {| client := c'; waiting := w |}
         = ({| client := c'; waiting := w |}, [], Silent).
Proof.
  eexists. split; [apply disconnect_eq|].
  destruct c as [w u i p d h task b].
  split; [|repeat split].
  - rewrite disconnect_eq. destruct w as [[]|], task as [[]|]; reflexivity.
  - intros wt m. destruct w as [[]|], task as [[]|]; reflexivity.
Qed.

(** C2 as stated fails: a request pending when [disconnect] runs is still
    pending afterwards, and its call ends by its own timeout. *)
Lemma disconnect_leaves_request_pending :
  let s := (run [Call "Debugger.enable" (JDict [])] (connected "ws://page/1" ∅)).1.1 in
  let s' := (step Disconnect s).1.1 in
  pending_responses (client s) !! 1 = Some FutPending
  /\ pending_responses (client s') !! 1 = Some FutPending
  /\ (run [Expire 1; Wake 1] s').2
     = [Silent;
        Raised 1 (RuntimeError [Lit "CDP command timeout: "; Lit "Debugger.enable"])].
Proof. vm_compute. repeat split. Qed.

(** The [except] clauses print one line for an [Exception] ([DEBUG]). *)
Lemma receive_loop_except_eq (e : exn) (c : t) :
  _receive_loop_except e c
  = (c, if is_Exception e then [[Lit "CDP receive loop error: "; StrExn e]] else [],
     inr tt).
Proof. unfold _receive_loop_except. destruct (is_Exception e); reflexivity. Qed.

(** The loop after a first message whose body returns. *)
Lemma receive_loop_cons_ok (m : message) (rest : list message) (c c1 : t)
    (out : list fstring) :
  _receive_loop_body m c = (c1, out, inr tt) ->
  _receive_loop (m :: rest) c
  = match _receive_loop rest c1 with
    | (c2, out2, r) => (c2, out ++ out2, r)
    end.
Proof.
  intros Hb. unfold _receive_loop, mbind, M_bind, bind, try_except. simpl.
  unfold bind. rewrite Hb.
  destruct (for_each rest _receive_loop_body c1) as [[c2 o2] [e|[]]]; simpl.
  - destruct (_receive_loop_except e c2) as [[c3 o3] [e'|[]]]; simpl;
      rewrite ?app_nil_r, ?app_assoc; reflexivity.
  - rewrite ?app_nil_r; reflexivity.
Qed.

(** The loop after a first message whose body raises: the other messages
    are not read. *)
Lemma receive_loop_cons_raise (m : message) (rest : list message) (c c1 : t)
    (out : list fstring) (e : exn) :
  _receive_loop_body m c = (c1, out, inl e) ->
  _receive_loop (m :: rest) c
  = (set_receive_task (Some Finished) c1,
     out ++ (if is_Exception e then [[Lit "CDP receive loop error: "; StrExn e]] else []),
     inr tt).
Proof.
  intros Hb. unfold _receive_loop, mbind, M_bind, bind, try_except. simpl.
  unfold bind. rewrite Hb, receive_loop_except_eq. simpl.
  rewrite app_nil_r. reflexivity.
Qed.

Lemma body_skips (data : json) (c : t) :
  Py.contains "id" data = inr false ->
  Py.contains "method" data = inr false ->
  _receive_loop_body (Decodable data) c = (c, [], inr tt).
Proof.
  intros Hid Hm.
  unfold _receive_loop_body, mbind, M_bind, bind, lift, json_loads.
  rewrite Hid, Hm. reflexivity.
Qed.

(** A message that decodes to [null], a boolean or a number: the test
    ["id" in data] raises [TypeError]. *)
Lemma body_not_container (data : json) (c : t) :
  data = JNull \/ (exists b, data = JBool b) \/ (exists z, data = JInt z) ->
  _receive_loop_body (Decodable data) c = (c, [], inl TypeError).
Proof. intros [ -> | [ [b ->] | [z ->] ] ]; reflexivity. Qed.

(** C3, as the code has it. What the receive loop does with a message
    that is no response and no event depends on what it decodes to.
    - A dict, a list or a str in which neither "id" nor "method" occurs
      (as a key, an element or a substring): the message is skipped,
      without a report and without changing the client, and the loop goes
      on with the messages after it.
    - [null], a boolean or a number, the only values on which the test
      ["id" in data] itself fails: it raises [TypeError] and the loop
      ends; the error is printed, the task finishes, and the messages
      after it are not read.
    - A message that does not decode: [json.loads] raises and the loop
      ends in the same way. *)
Theorem receive_loop_malformed_frames (c : t) (data : json)
    (rest : list message) :
  (Py.contains "id" data = inr false ->
   Py.contains "method" data = inr false ->
   _receive_loop (Decodable data :: rest) c = _receive_loop rest c)
  /\ (data = JNull \/ (exists b, data = JBool b) \/ (exists z, data = JInt z) ->
      _receive_loop (Decodable data :: rest) c
      = (set_receive_task (Some Finished) c,
         [[Lit "CDP receive loop error: "; StrExn TypeError]], inr tt))
  /\ ((forall has_id, Py.contains "id" data <> inr has_id)
      <-> data = JNull \/ (exists b, data = JBool b) \/ (exists z, data = JInt z))
  /\ _receive_loop (Undecodable :: rest) c
     = (set_receive_task (Some Finished) c,
        [[Lit "CDP receive loop error: "; StrExn JSONDecodeError]], inr tt).
Proof.
  split; [|split; [|split]].
  - intros Hid Hm.
    rewrite (receive_loop_cons_ok _ _ c c []) by (apply body_skips; assumption).
    destruct (_receive_loop rest c) as [[c2 o2] r]. reflexivity.
  - intros Hnc.
    apply (receive_loop_cons_raise (Decodable data) rest c c [] TypeError).
    apply body_not_container, Hnc.
  - split.
    + intros H. destruct data; eauto; exfalso; simpl in H; eapply H; reflexivity.
    + intros [ -> | [ [b ->] | [z ->] ] ] has_id; discriminate.
  - apply (receive_loop_cons_raise Undecodable rest c c [] JSONDecodeError).
    reflexivity.
Qed.

Lemma receive_loop_malformed_frames_witness :
  _receive_loop (Decodable Examples.unknown_frame :: [Examples.response_1])
                (client Examples.busy)
  = _receive_loop [Examples.response_1] (client Examples.busy)
  /\ _receive_loop (Decodable (JInt 5) :: [Examples.response_1]) (client Examples.busy)
     = (set_receive_task (Some Finished) (client Examples.busy),
        [[Lit "CDP receive loop error: "; StrExn TypeError]], inr tt)
  /\ _receive_loop (Undecodable :: [Examples.response_1]) (client Examples.busy)
     = (set_receive_task (Some Finished) (client Examples.busy),
        [[Lit "CDP receive loop error: "; StrExn JSONDecodeError]], inr tt).
Proof.
  split; [|split].
  - apply (proj1 (receive_loop_malformed_frames (client Examples.busy)
                    Examples.unknown_frame [Examples.response_1])); reflexivity.
  - apply (proj1 (proj2 (receive_loop_malformed_frames (client Examples.busy)
                           (JInt 5) [Examples.response_1]))).
    right. right. exists 5. reflexivity.
  - apply (proj2 (proj2 (proj2 (receive_loop_malformed_frames (client Examples.busy)
                                  (JInt 5) [Examples.response_1])))).
Defined.

(** C3 as stated fails: the response read after a message that does not
    decode never reaches its future, because the loop has ended. *)
Lemma undecodable_frame_ends_receive_loop :
  let c := client Examples.busy in
  let resp := JDict [("id", JInt 1); ("result", JDict [])] in
  pending_responses (_receive_loop [Decodable resp] c).1.1 !! 1
  = Some (FutResult resp)
  /\ pending_responses (_receive_loop [Undecodable; Decodable resp] c).1.1 !! 1
     = Some FutPending
  /\ (step (Deliver (Decodable resp)) (step (Deliver Undecodable) Examples.busy).1.1)
     = ((step (Deliver Undecodable) Examples.busy).1.1, [], Silent).
Proof. vm_compute. repeat split. Qed.

Lemma track_pause_handlers (method params : json) (c c1 : t)
    (out : list fstring) (r : exn + unit) :
  track_pause method params c = (c1, out, r) ->
  event_handlers c1 = event_handlers c.
Proof.
  unfold track_pause, mbind, M_bind, bind, modify, when, lift, print, DEBUG.
  destruct (Py.is_str "Debugger.paused" method).
  - destruct (Py.get params "reason" (JStr "unknown")); intros [= <- _ _]; reflexivity.
  - destruct (Py.is_str "Debugger.resumed" method); intros [= <- _ _]; reflexivity.
Qed.

(** An event whose registered handler raises: [_handle_event] raises. *)
Lemma handle_event_handler_raises (c c1 : t) (d : list (string * json))
    (method : string) (h : handler) (e : exn) (out : list fstring) :
  let params := default (JDict []) (Py.assoc "params" d) in
  Py.assoc "method" d = Some (JStr method) ->
  event_handlers c !! method = Some h ->
  track_pause (JStr method) params c = (c1, out, inr tt) ->
  h params (observe c1) = Some e ->
  _handle_event (JDict d) c = (c1, out, inl e).
Proof.
  intros params Hm Hh Ht He.
  pose proof (track_pause_handlers _ _ _ _ _ _ Ht) as Hsame.
  unfold _handle_event, mbind, M_bind, bind, lift, Py.getitem, Py.get.
  rewrite Hm. fold params. rewrite Ht.
  unfold call_handler, mbind, M_bind, bind, lift, gets, raise. simpl.
  rewrite Hsame, Hh. simpl. rewrite He, app_nil_r. reflexivity.
Qed.

(** C4, as the code has it. An exception raised by the handler registered
    for an event's method leaves [_handle_event] and ends the receive
    loop: the pause tracking of that event has been done, the error is
    printed, the task finishes and the messages after the event are not
    read. *)
Theorem handler_failure_ends_receive_loop (c c1 : t)
    (d : list (string * json)) (method : string) (h : handler) (e : exn)
    (out : list fstring) (rest : list message) :
  let params := default (JDict []) (Py.assoc "params" d) in
  Py.assoc "id" d = None ->
  Py.assoc "method" d = Some (JStr method) ->
  event_handlers c !! method = Some h ->
  track_pause (JStr method) params c = (c1, out, inr tt) ->
  h params (observe c1) = Some e ->
  _handle_event (JDict d) c = (c1, out, inl e)
  /\ _receive_loop (Decodable (JDict d) :: rest) c
     = (set_receive_task (Some Finished) c1,
        out ++ (if is_Exception e
                then [[Lit "CDP receive loop error: "; StrExn e]] else []),
        inr tt).
Proof.
  intros params Hid Hm Hh Ht He.
  assert (Hev : _handle_event (JDict d) c = (c1, out, inl e))
    by (eapply handle_event_handler_raises; eassumption).
  split; [exact Hev|].
  apply receive_loop_cons_raise.
  unfold _receive_loop_body, mbind, M_bind, bind, lift, json_loads, Py.contains.
  rewrite Hid, Hm. simpl. rewrite Hev. reflexivity.
Qed.

Lemma handler_failure_ends_receive_loop_witness :
  _handle_event (JDict [("method", JStr "Console.messageAdded");
                        ("params", JDict [("text", JStr "hello")])])
                (client Examples.busy)
  = (client Examples.busy, [], inl (HandlerError "boom"))
  /\ _receive_loop [Examples.console_event; Examples.response_1] (client Examples.busy)
     = (set_receive_task (Some Finished) (client Examples.busy),
        [[Lit "CDP receive loop error: "; StrExn (HandlerError "boom")]], inr tt).
Proof.
  apply (handler_failure_ends_receive_loop (client Examples.busy) (client Examples.busy)
           [("method", JStr "Console.messageAdded");
            ("params", JDict [("text", JStr "hello")])]
           "Console.messageAdded" Examples.failing_handler (HandlerError "boom")
           [] [Examples.response_1]); reflexivity.
Defined.

(** C4 as stated fails: after an event whose handler raises, the loop has
    ended and the response that follows never reaches its future. *)
Lemma failing_handler_ends_receive_loop :
  let c := client Examples.busy in
  let resp := JDict [("id", JInt 1); ("result", JDict [])] in
  pending_responses (_receive_loop [Decodable resp] c).1.1 !! 1 = Some (FutResult resp)
  /\ pending_responses
       (_receive_loop [Examples.console_event; Decodable resp] c).1.1 !! 1
     = Some FutPending
  /\ receive_task (step (Deliver Examples.console_event) Examples.busy).1.1.(client)
     = Some Finished
  /\ step (Deliver (Decodable resp))
          (step (Deliver Examples.console_event) Examples.busy).1.1
     = ((step (Deliver Examples.console_event) Examples.busy).1.1, [], Silent).
Proof. vm_compute. repeat split. Qed.

(** C7, as the code has it. Reading a "Debugger.paused" event sets
    [paused_data] to the event's params, or to the empty dict when the
    event has none, so that [paused_data] is non-empty afterwards exactly
    when these params are; reading a "Debugger.resumed" event sets it to
    [None]. This is done before the handler registered for the method
    runs: the handler is called on the client as updated, and the update
    stays when the handler raises. *)
Theorem pause_snapshot_tracking (c : t) (d : list (string * json)) :
  let params := default (JDict []) (Py.assoc "params" d) in
  Py.assoc "id" d = None ->
  (Py.assoc "method" d = Some (JStr "Debugger.paused") ->
   exists out r,
     _receive_loop_body (Decodable (JDict d)) c = (set_paused_data params c, out, r)
     /\ Py.truthy (paused_data (set_paused_data params c)) = Py.truthy params
     /\ forall h p,
          event_handlers c !! "Debugger.paused" = Some h ->
          params = JDict p ->
          r = match h params (observe (set_paused_data params c)) with
              | Some e => inl e
              | None => inr tt
              end)
  /\ (Py.assoc "method" d = Some (JStr "Debugger.resumed") ->
      exists out r,
        _receive_loop_body (Decodable (JDict d)) c = (set_paused_data JNull c, out, r)
        /\ paused_data (set_paused_data JNull c) = JNull
        /\ forall h,
             event_handlers c !! "Debugger.resumed" = Some h ->
             r = match h params (observe (set_paused_data JNull c)) with
                 | Some e => inl e
                 | None => inr tt
                 end).
Proof.
  intros params Hid. split; intros Hm.
  - unfold _receive_loop_body, _handle_event, mbind, M_bind, bind, lift,
      json_loads, Py.contains, Py.getitem.
    rewrite Hid, Hm. simpl. fold params.
    unfold track_pause, call_handler, mbind, M_bind, bind, lift. simpl.
    destruct params as [| | | | |p] eqn:Hp; simpl;
      try (eexists _, _; split; [reflexivity|]; split; [reflexivity|];
           intros h p' _ [=]).
    destruct (event_handlers c !! "Debugger.paused") as [h|] eqn:Hh; simpl.
    + destruct (h (JDict p) (observe (set_paused_data (JDict p) c))) as [e|] eqn:He;
        simpl; eexists _, _; (split; [reflexivity|]); (split; [reflexivity|]);
        intros h' p' [= <-] _; rewrite He; reflexivity.
    + eexists _, _; split; [reflexivity|]; split; [reflexivity|].
      intros h' p' [=].
  - unfold _receive_loop_body, _handle_event, mbind, M_bind, bind, lift,
      json_loads, Py.contains, Py.getitem.
    rewrite Hid, Hm. simpl. fold params.
    unfold track_pause, call_handler, mbind, M_bind, bind, lift. simpl.
    destruct (event_handlers c !! "Debugger.resumed") as [h|] eqn:Hh; simpl.
    + destruct (h params (observe (set_paused_data JNull c))) as [e|] eqn:He;
        simpl; eexists _, _; (split; [reflexivity|]); (split; [reflexivity|]);
        intros h' [= <-]; rewrite He; reflexivity.
    + eexists _, _; split; [reflexivity|]; split; [reflexivity|].
      intros h' [=].
Qed.

(** [send_command] on an open websocket, up to the wait: the counter is
    incremented, a pending future is stored under the new id and the
    frame with that id is written. *)
Lemma send_command_send_open (c : t) (w : WebSocket) (method : string)
    (params : json) :
  ws c = Some w ->
  closed w = false ->
  let k := msg_id c + 1 in
  let frame := JDict [("id", JInt k); ("method", JStr method);
                      ("params", Py.or_ params (JDict []))] in
  send_command_send method params c
  = (set_ws (Some {| closed := false; sent := sent w ++ [frame] |})
       (set_pending_responses (<[k := FutPending]> (pending_responses c))
          (set_msg_id k c)),
     [], inr k).
Proof.
  intros Hws Hcl k frame.
  unfold send_command_send, mbind, M_bind, bind, gets. simpl.
  rewrite Hws. simpl. rewrite Hcl. reflexivity.
Qed.

(** The rest of [send_command] prints nothing, raises nothing but an
    [Exception], and changes no field but [pending_responses]. *)
Lemma send_command_wait_frame (method : string) (k : Z) (w : wakeup) (c : t) :
  exists p r,
    send_command_wait method k w c = (set_pending_responses p c, [], r)
    /\ (forall e, r = inl e -> is_Exception e = true).
Proof.
  assert (Hc : c = set_pending_responses (pending_responses c) c)
    by (destruct c; reflexivity).
  unfold send_command_wait, del_pending, mbind, M_bind, bind, gets, lift, raise.
  destruct w as [response|]; simpl;
    destruct (pending_responses c !! k); simpl;
    try (eexists _, _; split; [rewrite Hc at 1; reflexivity|]; intros e [= <-]; reflexivity).
  - destruct (Py.contains "error" response) as [e|[]] eqn:Ec; simpl.
    + eexists _, _. split; [reflexivity|].
      intros e' [= <-]. destruct response; simpl in Ec; inversion Ec; reflexivity.
    + destruct (Py.getitem response "error") as [e|err] eqn:E; simpl;
        (eexists _, _; split; [reflexivity|]); intros e' [= <-]; [|reflexivity].
      destruct response as [| | | | |d]; simpl in E; try (inversion E; reflexivity).
      destruct (Py.assoc "error" d); inversion E; reflexivity.
    + destruct (Py.get response "result" (JDict [])) as [e|res] eqn:E; simpl;
        (eexists _, _; split; [reflexivity|]); intros e' [=]. subst e'.
      destruct response; simpl in E; inversion E; reflexivity.
Qed.

(** A whole [send_command]: nothing printed, only [Exception]s. *)
Lemma send_command_quiet (method : string) (params : json) (reply : option json)
    (c : t) :
  exists c' r,
    send_command method params reply c = (c', [], r)
    /\ (forall e, r = inl e -> is_Exception e = true).
Proof.
  unfold send_command, mbind, M_bind, bind.
  destruct (send_command_send method params c) as [[c1 o1] [e|k]] eqn:Hs.
  - unfold send_command_send, mbind, M_bind, bind, gets, raise in Hs. simpl in Hs.
    destruct (ws c) as [w|]; simpl in Hs.
    + destruct (closed w); simpl in Hs; inversion Hs; subst.
      eexists _, _. split; [reflexivity|]. intros e' [= <-]. reflexivity.
    + inversion Hs; subst. eexists _, _. split; [reflexivity|].
      intros e' [= <-]. reflexivity.
  - assert (o1 = []) as ->.
    { unfold send_command_send, mbind, M_bind, bind, gets, raise in Hs. simpl in Hs.
      destruct (ws c) as [w|]; simpl in Hs; [|inversion Hs].
      destruct (closed w); simpl in Hs; inversion Hs; reflexivity. }
    destruct (send_command_wait_frame method k
                (match reply with Some r => Response r | None => TimeoutError end) c1)
      as (p & r & -> & Hr).
    eexists _, _. split; [reflexivity|]. exact Hr.
Qed.

(** With the websocket open, a whole [send_command] has written its
    frame, whatever the reply. *)
Lemma send_command_writes_frame (c : t) (w : WebSocket) (method : string)
    (params : json) (reply : option json) :
  ws c = Some w ->
  closed w = false ->
  let c' := (send_command method params reply c).1.1 in
  ws c' = Some {| closed := false;
                  sent := sent w ++ [JDict [("id", JInt (msg_id c + 1));
                                            ("method", JStr method);
                                            ("params", Py.or_ params (JDict []))]] |}
  /\ msg_id c' = msg_id c + 1.
Proof.
  intros Hws Hcl. unfold send_command, mbind, M_bind, bind.
  rewrite (send_command_send_open c w method params Hws Hcl).
  match goal with |- context [send_command_wait ?a ?b ?x ?y] =>
    destruct (send_command_wait_frame a b x y) as (p & r & -> & _) end.
  simpl. split; reflexivity.
Qed.

Lemma pause_snapshot_tracking_witness :
  exists out r,
    _receive_loop_body Examples.paused_event (client Examples.busy)
    = (set_paused_data Examples.frames (client Examples.busy), out, r).
Proof.
  destruct (proj1 (pause_snapshot_tracking (client Examples.busy)
                     [("method", JStr "Debugger.paused"); ("params", Examples.frames)]
                     eq_refl) eq_refl) as (out & r & H & _).
  exists out, r. exact H.
Defined.

(** *** What each piece does to [pending_responses] *)

Lemma send_command_send_cases (method : string) (params : json) (c : t) :
  let k := msg_id c + 1 in
  let c1 := set_pending_responses (<[k := FutPending]> (pending_responses c))
              (set_msg_id k c) in
  (ws c = None /\ exists e, send_command_send method params c = (c, [], inl e))
  \/ (exists e, send_command_send method params c = (c1, [], inl e))
  \/ (exists w, send_command_send method params c = (set_ws (Some w) c1, [], inr k)).
Proof.
  intros k c1. unfold send_command_send, mbind, M_bind, bind, gets, raise. simpl.
  destruct (ws c) as [w|] eqn:Hws; simpl.
  - destruct (closed w); simpl; eauto.
  - left. eauto.
Qed.

Lemma del_pending_present (k : Z) (c : t) (fut : Future) :
  pending_responses c !! k = Some fut ->
  del_pending k c = (set_pending_responses (delete k (pending_responses c)) c, [], inr tt).
Proof.
  intros H. unfold del_pending, mbind, M_bind, bind, gets. simpl. rewrite H. reflexivity.
Qed.

(** The end of a call whose future is in the table: its entry is
    removed, and the result is read off the response, or it is the
    timeout error. *)
Lemma send_command_wait_present (method : string) (k : Z) (w : wakeup) (c : t)
    (fut : Future) :
  pending_responses c !! k = Some fut ->
  send_command_wait method k w c
  = (set_pending_responses (delete k (pending_responses c)) c, [],
     match w with
     | Response response =>
         match Py.contains "error" response with
         | inl e => inl e
         | inr true =>
             match Py.getitem response "error" with
             | inl e => inl e
             | inr error => inl (RuntimeError [Lit "CDP error: "; Str error])
             end
         | inr false => Py.get response "result" (JDict [])
         end
     | TimeoutError => inl (RuntimeError [Lit "CDP command timeout: "; Lit method])
     end).
Proof.
  intros H. unfold send_command_wait, mbind, M_bind, bind, lift, raise.
  destruct w as [response|]; rewrite (del_pending_present k c fut H); [|reflexivity].
  destruct (Py.contains "error" response) as [e|[]]; [reflexivity| |].
  - destruct (Py.getitem response "error"); reflexivity.
  - destruct (Py.get response "result" (JDict [])); reflexivity.
Qed.

Lemma track_pause_frame (method params : json) (c : t) :
  exists pd out r, track_pause method params c = (set_paused_data pd c, out, r).
Proof.
  assert (Hc : c = set_paused_data (paused_data c) c) by (destruct c; reflexivity).
  unfold track_pause, mbind, M_bind, bind, lift, modify, when, print, DEBUG.
  destruct (Py.is_str "Debugger.paused" method);
    [|destruct (Py.is_str "Debugger.resumed" method)].
  - destruct (Py.get params "reason" (JStr "unknown")); simpl; eauto.
  - simpl. eauto.
  - exists (paused_data c). rewrite <- Hc. eauto.
Qed.

Lemma call_handler_frame (method params : json) (c : t) :
  exists out r, call_handler method params c = (c, out, r).
Proof.
  unfold call_handler, mbind, M_bind, bind, lift, gets, raise.
  destruct (Py.str_key method) as [e|[name|]]; simpl; eauto.
  destruct (event_handlers c !! name) as [h|]; simpl; eauto.
  destruct (h params (observe c)); simpl; eauto.
Qed.

(** [_handle_event] changes [paused_data] at most. *)
Lemma handle_event_frame (event : json) (c : t) :
  exists pd out r, _handle_event event c = (set_paused_data pd c, out, r).
Proof.
  assert (Hc : c = set_paused_data (paused_data c) c) by (destruct c; reflexivity).
  unfold _handle_event, mbind, M_bind, bind, lift.
  destruct (Py.getitem event "method") as [e|method];
    [exists (paused_data c); rewrite <- Hc; eauto|].
  destruct (Py.get event "params" (JDict [])) as [e|params];
    [exists (paused_data c); rewrite <- Hc; eauto|].
  destruct (track_pause_frame method params c) as (pd & out & r & ->).
  destruct r as [e|[]]; [eauto|].
  destruct (call_handler_frame method params (set_paused_data pd c)) as (out' & r' & ->).
  eauto.
Qed.

(** One message: either [pending_responses] is as before (and at most
    [paused_data] changed), or the message is a response carrying the id
    of a pending future, and exactly that future got the response. *)
Lemma body_cases (m : message) (c : t) :
  (exists pd out r, _receive_loop_body m c = (set_paused_data pd c, out, r))
  \/ (exists data k,
        m = Decodable data /\ response_for k data
        /\ pending_responses c !! k = Some FutPending
        /\ _receive_loop_body m c
           = (set_pending_responses (<[k := FutResult data]> (pending_responses c)) c,
              [], inr tt)).
Proof.
  assert (Hc : c = set_paused_data (paused_data c) c) by (destruct c; reflexivity).
  assert (Hsame : forall (out : list fstring) (r : exn + unit), exists pd out' r',
             (c, out, r) = (set_paused_data pd c, out', r'))
    by (intros; exists (paused_data c); rewrite <- Hc; eauto).
  unfold _receive_loop_body, mbind, M_bind, bind, lift, gets, modify.
  destruct m as [data|]; simpl; [|left; apply Hsame].
  destruct (Py.contains "id" data) as [e|[]] eqn:Hid; [left; apply Hsame| |].
  - destruct (Py.getitem data "id") as [e|v] eqn:Hv; [left; apply Hsame|].
    destruct (Py.int_key v) as [e|[k|]] eqn:Hk; simpl; [left; apply Hsame| |left; apply Hsame].
    destruct (pending_responses c !! k) as [[|old|]|] eqn:Hp; simpl;
      [|left; apply Hsame|left; apply Hsame|left; apply Hsame].
    right. exists data, k. repeat split; try reflexivity; try assumption.
    exists v. auto.
  - destruct (Py.contains "method" data) as [e|[]]; [left; apply Hsame| |left; apply Hsame].
    left. destruct (handle_event_frame data c) as (pd & out & r & ->). simpl. eauto.
Qed.

(** A response whose id is not in the table changes nothing. *)
Lemma body_unknown_id (data : json) (k : Z) (c : t) :
  response_for k data ->
  pending_responses c !! k = None ->
  _receive_loop_body (Decodable data) c = (c, [], inr tt).
Proof.
  intros (v & Hv & Hk) Hp.
  unfold _receive_loop_body, mbind, M_bind, bind, lift, gets. simpl.
  assert (Hid : Py.contains "id" data = inr true).
  { destruct data as [| | | | |d]; simpl in Hv; try discriminate.
    simpl. destruct (Py.assoc "id" d); [reflexivity|discriminate]. }
  rewrite Hid, Hv, Hk. simpl. rewrite Hp. reflexivity.
Qed.

(** One turn of the receive loop, with its [except] clauses. *)
Lemma deliver_cases (m : message) (c : t) :
  (exists pd task out,
      deliver m c = (set_receive_task task (set_paused_data pd c), out, inr tt))
  \/ (exists data k,
        m = Decodable data /\ response_for k data
        /\ pending_responses c !! k = Some FutPending
        /\ deliver m c
           = (set_pending_responses (<[k := FutResult data]> (pending_responses c)) c,
              [], inr tt)).
Proof.
  unfold deliver, try_except.
  destruct (body_cases m c) as [(pd & out & r & ->)|(data & k & -> & Hk & Hp & ->)].
  - left. destruct r as [e|[]].
    + unfold mbind, M_bind, bind, modify. rewrite receive_loop_except_eq. simpl. eauto.
    + exists pd, (receive_task c). destruct c. simpl. eauto.
  - right. exists data, k. auto.
Qed.

(** *** What each action does to the table and the counter *)

Lemma step_pending (a : action) (s : system) (j : Z) :
  let s' := (step a s).1.1 in
  pending_responses (client s') !! j = pending_responses (client s) !! j
  \/ (exists method params,
        a = Call method params /\ j = msg_id (client s) + 1
        /\ msg_id (client s') = j
        /\ pending_responses (client s') !! j = Some FutPending)
  \/ (exists data,
        a = Deliver (Decodable data) /\ response_for j data
        /\ pending_responses (client s) !! j = Some FutPending
        /\ pending_responses (client s') !! j = Some (FutResult data))
  \/ (a = Wake j /\ pending_responses (client s') !! j = None)
  \/ ((a = Expire j \/ a = CancelCall j)
      /\ pending_responses (client s) !! j = Some FutPending
      /\ pending_responses (client s') !! j = Some FutCancelled).
Proof.
  destruct s as [c wt]. destruct a as [method params|m|k|k|k|e|]; simpl.
  - destruct (send_command_send_cases method params c)
      as [(_ & e & ->)|[(e & ->)|(w & ->)]]; simpl; [auto| |];
      (destruct (decide (j = msg_id c + 1)) as [->|Hne];
       [right; left; exists method, params; rewrite lookup_insert_eq; auto
       |left; rewrite lookup_insert_ne by auto; reflexivity]).
  - destruct (receive_task c) as [[]|]; simpl; auto.
    destruct (deliver_cases m c) as [(pd & task & out & ->)|(data & k & -> & Hk & Hp & ->)];
      simpl; [auto|].
    destruct (decide (j = k)) as [->|Hne].
    + right; right; left. exists data. rewrite lookup_insert_eq. auto.
    + left. rewrite lookup_insert_ne by auto. reflexivity.
  - destruct (wt !! k) as [method|]; simpl; [|auto].
    destruct (pending_responses c !! k) as [fut|] eqn:Hp; simpl; [|auto].
    destruct (decide (j = k)) as [->|Hne];
      [|left; rewrite lookup_insert_ne by auto; reflexivity].
    rewrite lookup_insert_eq.
    destruct fut; simpl; [do 4 right; auto | left; auto | left; auto].
  - destruct (wt !! k) as [method|]; simpl; [|auto].
    destruct (pending_responses c !! k) as [fut|] eqn:Hp; simpl; [|auto].
    destruct (wait_for fut) as [w|]; simpl; [|auto].
    rewrite (send_command_wait_present method k _ c fut Hp). simpl.
    destruct (decide (j = k)) as [->|Hne].
    + right; right; right; left. rewrite lookup_delete_eq. auto.
    + left. rewrite lookup_delete_ne by auto. reflexivity.
  - destruct (wt !! k) as [method|]; simpl; [|auto].
    destruct (pending_responses c !! k) as [fut|] eqn:Hp; simpl; [|auto].
    destruct (decide (j = k)) as [->|Hne];
      [|left; rewrite lookup_insert_ne by auto; reflexivity].
    rewrite lookup_insert_eq.
    destruct fut; simpl; [do 4 right; auto | left; auto | left; auto].
  - destruct (receive_task c) as [[]|]; simpl; auto.
    destruct (ws c) as [w|]; simpl; auto.
    unfold stream_ends, mbind, M_bind, bind, modify.
    destruct e as [e|]; [rewrite receive_loop_except_eq|]; simpl; auto.
  - rewrite disconnect_eq. simpl. auto.
Qed.

Lemma step_msg_id (a : action) (s : system) :
  let s' := (step a s).1.1 in
  msg_id (client s') = msg_id (client s)
  \/ msg_id (client s') = msg_id (client s) + 1.
Proof.
  destruct s as [c wt]. destruct a as [method params|m|k|k|k|e|]; simpl.
  - destruct (send_command_send_cases method params c)
      as [(_ & e & ->)|[(e & ->)|(w & ->)]]; simpl; auto.
  - destruct (receive_task c) as [[]|]; simpl; auto.
    destruct (deliver_cases m c) as [(pd & task & out & ->)|(data & k & -> & Hk & Hp & ->)];
      simpl; auto.
  - destruct (wt !! k) as [method|]; simpl; [|auto].
    destruct (pending_responses c !! k) as [fut|] eqn:Hp; simpl; auto.
  - destruct (wt !! k) as [method|]; simpl; [|auto].
    destruct (pending_responses c !! k) as [fut|] eqn:Hp; simpl; [|auto].
    destruct (wait_for fut) as [w|]; simpl; [|auto].
    rewrite (send_command_wait_present method k _ c fut Hp). simpl. auto.
  - destruct (wt !! k) as [method|]; simpl; [|auto].
    destruct (pending_responses c !! k) as [fut|] eqn:Hp; simpl; auto.
  - destruct (receive_task c) as [[]|]; simpl; auto.
    destruct (ws c) as [w|]; simpl; auto.
    unfold stream_ends, mbind, M_bind, bind, modify.
    destruct e as [e|]; [rewrite receive_loop_except_eq|]; simpl; auto.
  - rewrite disconnect_eq. simpl. auto.
Qed.





Lemma run_cons (a : action) (acts : list action) (s : system) :
  run (a :: acts) s
  = ((run acts (step a s).1.1).1.1,
     (step a s).1.2 ++ (run acts (step a s).1.1).1.2,
     (step a s).2 :: (run acts (step a s).1.1).2).
Proof.
  simpl. destruct (step a s) as [[s1 o1] r]. simpl.
  destruct (run acts s1) as [[s2 o2] rs]. reflexivity.
Qed.



(** *** Ids are never reused *)

Lemma step_bounded (a : action) (s : system) :
  (forall j, is_Some (pending_responses (client s) !! j) -> j <= msg_id (client s)) ->
  forall j, is_Some (pending_responses (client (step a s).1.1) !! j) ->
            j <= msg_id (client (step a s).1.1).
Proof.
  intros H j Hj. pose proof (step_msg_id a s) as Hm. simpl in Hm.
  destruct (step_pending a s j)
    as [Heq|[(m & p & -> & -> & Hid & Hnew)|[(data & -> & Hr & Hold & Hnew)
       |[[-> Hnone]|(_ & Hold & Hnew)]]]].
  - rewrite Heq in Hj. specialize (H j Hj). lia.
  - lia.
  - assert (j <= msg_id (client s)) by (apply H; rewrite Hold; eauto). lia.
  - rewrite Hnone in Hj. destruct Hj as [? [=]].
  - assert (j <= msg_id (client s)) by (apply H; rewrite Hold; eauto). lia.
Qed.

Lemma run_bounded (acts : list action) (s : system) :
  (forall j, is_Some (pending_responses (client s) !! j) -> j <= msg_id (client s)) ->
  forall j, is_Some (pending_responses (client (run acts s).1.1) !! j) ->
            j <= msg_id (client (run acts s).1.1).
Proof.
  revert s. induction acts as [|a acts IH]; intros s H; [exact H|].
  rewrite run_cons. simpl. apply IH, step_bounded, H.
Qed.

(** In a run of a connected client the keys of the table are at most the
    counter. *)
Lemma connected_bounded (handlers : gmap string handler) (url : string)
    (acts : list action) (j : Z) :
  is_Some (pending_responses (client (run acts (connected url handlers)).1.1) !! j) ->
  j <= msg_id (client (run acts (connected url handlers)).1.1).
Proof.
  apply run_bounded. intros i Hi. simpl in Hi. rewrite lookup_empty in Hi.
  destruct Hi as [? [=]].
Qed.

(** An id at or below the counter that is not in the table stays out. *)
Lemma step_absent (a : action) (s : system) (k : Z) :
  pending_responses (client s) !! k = None ->
  k <= msg_id (client s) ->
  pending_responses (client (step a s).1.1) !! k = None
  /\ k <= msg_id (client (step a s).1.1).
Proof.
  intros Hk Hle. pose proof (step_msg_id a s) as Hm. simpl in Hm.
  split; [|lia].
  destruct (step_pending a s k)
    as [Heq|[(m & p & -> & -> & Hid & Hnew)|[(data & -> & Hr & Hold & Hnew)
       |[[-> Hnone]|(_ & Hold & Hnew)]]]].
  - congruence.
  - lia.
  - congruence.
  - assumption.
  - congruence.
Qed.

Lemma run_absent (acts : list action) (s : system) (k : Z) :
  pending_responses (client s) !! k = None ->
  k <= msg_id (client s) ->
  pending_responses (client (run acts s).1.1) !! k = None.
Proof.
  revert s. induction acts as [|a acts IH]; intros s Hk Hle; [exact Hk|].
  rewrite run_cons. simpl.
  destruct (step_absent a s k Hk Hle). apply IH; assumption.
Qed.

(** Reading a response whose id is not in the table changes nothing. *)
Lemma deliver_late (s : system) (k : Z) (data : json) :
  response_for k data ->
  pending_responses (client s) !! k = None ->
  step (Deliver (Decodable data)) s = (s, [], Silent).
Proof.
  intros Hr Hk. destruct s as [c wt]. simpl in *.
  destruct (receive_task c) as [[]|]; try reflexivity.
  unfold deliver, try_except. rewrite (body_unknown_id data k c Hr Hk). reflexivity.
Qed.

(** *** A response that is read reaches its call *)

Lemma response_has_id (k : Z) (data : json) :
  response_for k data -> Py.contains "id" data = inr true.
Proof.
  intros (v & Hv & _).
  destruct data as [| | | | |d]; simpl in Hv; try discriminate.
  simpl. destruct (Py.assoc "id" d); [reflexivity|discriminate].
Qed.


(** The running loop reads a response whose future is cancelled:
    [set_result] raises and the loop ends. *)
Lemma deliver_cancelled (s : system) (k : Z) (data : json) :
  receive_task (client s) = Some Running ->
  pending_responses (client s) !! k = Some FutCancelled ->
  response_for k data ->
  step (Deliver (Decodable data)) s
  = ({| client := set_receive_task (Some Finished) (client s); waiting := waiting s |},
     [[Lit "CDP receive loop error: "; StrExn InvalidStateError]], Silent).
Proof.
  intros Ht Hp Hr. pose proof (response_has_id k data Hr) as Hid.
  destruct Hr as (v & Hv & Hk). destruct s as [c wt]. simpl in *. rewrite Ht.
  unfold deliver, try_except, _receive_loop_body, mbind, M_bind, bind, lift, gets,
    modify, json_loads.
  rewrite Hid, Hv, Hk. cbn beta iota. rewrite Hp. reflexivity.
Qed.


(** A call resumes after its timeout: its entry is deleted and it raises
    the timeout error. *)
Lemma wake_timeout (s : system) (k : Z) (method : string) :
  waiting s !! k = Some method ->
  pending_responses (client s) !! k = Some FutCancelled ->
  step (Wake k) s
  = ({| client := set_pending_responses (delete k (pending_responses (client s)))
                    (client s);
        waiting := delete k (waiting s) |}, [],
     Raised k (RuntimeError [Lit "CDP command timeout: "; Lit method])).
Proof.
  intros Hw Hp. destruct s as [c wt]. cbn [step client waiting] in *.
  rewrite Hw, Hp. cbn [wait_for].
  rewrite (send_command_wait_present method k _ c _ Hp). reflexivity.
Qed.






(** *** A receive loop that has ended *)

Lemma step_finished (a : action) (s : system) :
  receive_task (client s) = Some Finished ->
  receive_task (client (step a s).1.1) = Some Finished.
Proof.
  intros Ht. destruct s as [c wt].
  destruct a as [method params|m|k|k|k|e|]; cbn [step client waiting] in *.
  - destruct (send_command_send_cases method params c)
      as [(_ & e & ->)|[(e & ->)|(w & ->)]]; exact Ht.
  - rewrite Ht. exact Ht.
  - destruct (wt !! k) as [method|]; [|exact Ht].
    destruct (pending_responses c !! k) as [fut|]; exact Ht.
  - destruct (wt !! k) as [method|]; [|exact Ht].
    destruct (pending_responses c !! k) as [fut|]; [|exact Ht].
    destruct (wait_for fut) as [w|]; [|exact Ht].
    destruct (send_command_wait_frame method k w c) as (p & r & -> & _). exact Ht.
  - destruct (wt !! k) as [method|]; [|exact Ht].
    destruct (pending_responses c !! k) as [fut|]; exact Ht.
  - rewrite Ht. exact Ht.
  - rewrite disconnect_eq. cbn. rewrite Ht. reflexivity.
Qed.

Lemma run_finished (acts : list action) (s : system) :
  receive_task (client s) = Some Finished ->
  receive_task (client (run acts s).1.1) = Some Finished.
Proof.
  revert s. induction acts as [|a acts IH]; intros s Ht; [exact Ht|].
  rewrite run_cons. cbn [fst]. apply IH, step_finished, Ht.
Qed.

(** Once the loop has ended no message is read. *)
Lemma deliver_finished (m : message) (s : system) :
  receive_task (client s) = Some Finished ->
  step (Deliver m) s = (s, [], Silent).
Proof. intros Ht. cbn [step]. rewrite Ht. reflexivity. Qed.

(** C5. The timeout of a call, on every reachable state. When the ten
    seconds pass, [wait_for] cancels the future of the call, and the call
    resumes only later; until then the cancelled future is still in
    [pending_responses].
    - When the call resumes before a response with its id is read, the
      timeout touches nothing else: the call raises the timeout error and
      its own entry is removed; the other entries, the other waiting
      calls, the websocket, the receive task and the counter are as
      before; and from then on, whatever happens in between, reading a
      response with the timed-out id changes nothing.
    - When a response with its id is read between the timeout and the
      resumption, [set_result] is called on the cancelled future and
      raises [InvalidStateError]: the receive loop prints the error and
      ends. The call still raises the timeout error, but from then on no
      message is read any more, whatever it is. *)
Theorem timeout_window_ends_receive_loop (handlers : gmap string handler)
    (url : string) (before : list action) (k : Z) (method : string) :
  let s := (run before (connected url handlers)).1.1 in
  waiting s !! k = Some method ->
  pending_responses (client s) !! k = Some FutPending ->
  let s1 := (step (Expire k) s).1.1 in
  step (Expire k) s = (s1, [], Silent)
  /\ client s1
     = set_pending_responses (<[k := FutCancelled]> (pending_responses (client s)))
         (client s)
  /\ waiting s1 = waiting s
  /\ (let s2 := (step (Wake k) s1).1.1 in
      step (Wake k) s1
      = (s2, [], Raised k (RuntimeError [Lit "CDP command timeout: "; Lit method]))
      /\ client s2
         = set_pending_responses (delete k (pending_responses (client s))) (client s)
      /\ waiting s2 = delete k (waiting s)
      /\ (forall j, j <> k ->
                    pending_responses (client s2) !! j = pending_responses (client s) !! j
                    /\ waiting s2 !! j = waiting s !! j)
      /\ (forall (later : list action) (data : json),
            response_for k data ->
            let s3 := (run later s2).1.1 in
            step (Deliver (Decodable data)) s3 = (s3, [], Silent)))
  /\ (forall data : json,
        response_for k data ->
        receive_task (client s) = Some Running ->
        let s2 := (step (Deliver (Decodable data)) s1).1.1 in
        step (Deliver (Decodable data)) s1
        = (s2, [[Lit "CDP receive loop error: "; StrExn InvalidStateError]], Silent)
        /\ client s2 = set_receive_task (Some Finished) (client s1)
        /\ (step (Wake k) s2).2
           = Raised k (RuntimeError [Lit "CDP command timeout: "; Lit method])
        /\ (forall (later : list action) (m : message),
              let s3 := (run later s2).1.1 in
              receive_task (client s3) = Some Finished
              /\ step (Deliver m) s3 = (s3, [], Silent))).
Proof.
  intros s Hw Hp s1.
  assert (Hexp : step (Expire k) s
                 = ({| client := set_pending_responses
                                   (<[k := FutCancelled]> (pending_responses (client s)))
                                   (client s);
                       waiting := waiting s |}, [], Silent)).
  { cbn [step]. rewrite Hw, Hp. reflexivity. }
  assert (Hle : k <= msg_id (client s))
    by (apply connected_bounded; fold s; rewrite Hp; eauto).
  set (se := {| client := set_pending_responses
                            (<[k := FutCancelled]> (pending_responses (client s)))
                            (client s);
                waiting := waiting s |}) in *.
  assert (Hpe : pending_responses (client se) !! k = Some FutCancelled)
    by apply lookup_insert_eq.
  pose proof (wake_timeout se k method Hw Hpe) as Hwake.
  unfold s1. rewrite Hexp. cbn [fst].
  split; [reflexivity|]. split; [reflexivity|]. split; [reflexivity|].
  split.
  - rewrite Hwake.
    cbn [fst client waiting se set_pending_responses pending_responses].
    rewrite delete_insert_eq.
    split; [reflexivity|]. split; [destruct (client s); reflexivity|].
    split; [reflexivity|].
    split; [intros j Hj; split; apply lookup_delete_ne; auto|].
    intros later data Hr. apply (deliver_late _ k data Hr).
    apply run_absent; cbn; [apply lookup_delete_eq|exact Hle].
  - intros data Hr Ht.
    rewrite (deliver_cancelled se k data Ht Hpe Hr).
    cbn [fst]. split; [reflexivity|]. split; [reflexivity|]. split.
    + match goal with |- (step (Wake k) ?sx).2 = _ =>
        rewrite (wake_timeout sx k method Hw Hpe) end.
      reflexivity.
    + intros later m.
      match goal with |- receive_task (client ?s3) = _ /\ _ =>
        assert (Hfin : receive_task (client s3) = Some Finished)
          by (apply run_finished; reflexivity)
      end.
      split; [exact Hfin|]. apply deliver_finished, Hfin.
Qed.

Lemma timeout_window_ends_receive_loop_witness :
  (run [Call "Debugger.enable" (JDict []);
        Expire 1;
        Deliver (Decodable (JDict [("id", JInt 1); ("result", JDict [])]));
        Wake 1;
        Call "Debugger.pause" (JDict []);
        Deliver (Decodable (JDict [("id", JInt 2); ("result", JDict [])]));
        Expire 2;
        Wake 2]
       (connected "ws://page/1" ∅)).2
  = [Issued 1; Silent; Silent;
     Raised 1 (RuntimeError [Lit "CDP command timeout: "; Lit "Debugger.enable"]);
     Issued 2; Silent; Silent;
     Raised 2 (RuntimeError [Lit "CDP command timeout: "; Lit "Debugger.pause"])]
  /\ step (Deliver (Decodable (JDict [("id", JInt 1); ("result", JDict [])])))
       (run [Call "Debugger.enable" (JDict []); Expire 1] (connected "ws://page/1" ∅)).1.1
     = ({| client :=
             set_receive_task (Some Finished)
               (client (run [Call "Debugger.enable" (JDict []); Expire 1]
                          (connected "ws://page/1" ∅)).1.1);
           waiting := {[ 1 := "Debugger.enable" ]} |},
        [[Lit "CDP receive loop error: "; StrExn InvalidStateError]], Silent).
Proof.
  split; [vm_compute; reflexivity|].
  destruct (proj2 (proj2 (proj2 (proj2
              (timeout_window_ends_receive_loop ∅ "ws://page/1"
                 [Call "Debugger.enable" (JDict [])] 1 "Debugger.enable"
                 eq_refl eq_refl))))
              (JDict [("id", JInt 1); ("result", JDict [])])
              (ex_intro _ (JInt 1) (conj eq_refl eq_refl)) eq_refl) as (H & _).
  exact H.
Defined.

End CDPClientSpec.

Module ManagerSpec.
Import CDPConnectionManager.

Section DictFacts.
Context {V : Type}.
Implicit Types (d : list (string * V)) (k key : string) (v : V).

Lemma dict_get_set_eq key v d : dict_get key (dict_set key v d) = Some v.
Proof.
  induction d as [|[k v'] d IH]; simpl.
  - rewrite String.eqb_refl. reflexivity.
  - destruct (String.eqb k key) eqn:E; simpl; rewrite E; auto.
Qed.

Lemma dict_get_set_ne key k v d :
  k <> key -> dict_get k (dict_set key v d) = dict_get k d.
Proof.
  intros Hne. induction d as [|[k' v'] d IH]; simpl.
  - destruct (String.eqb_spec key k); congruence.
  - destruct (String.eqb_spec k' key); simpl.
    + subst k'. destruct (String.eqb_spec key k); congruence.
    + destruct (String.eqb k' k); auto.
Qed.

Lemma dict_set_same key v d : dict_get key d = Some v -> dict_set key v d = d.
Proof.
  induction d as [|[k v'] d IH]; simpl; [discriminate|].
  destruct (String.eqb k key); intros H.
  - congruence.
  - rewrite IH; auto.
Qed.

Lemma dict_get_del_ne key k d :
  k <> key -> dict_get k (dict_del key d) = dict_get k d.
Proof.
  intros Hne. induction d as [|[k' v'] d IH]; simpl; [reflexivity|].
  destruct (String.eqb_spec k' key); simpl.
  - subst k'. destruct (String.eqb_spec key k); congruence.
  - destruct (String.eqb k' k); auto.
Qed.

Lemma dict_get_elem key d : is_Some (dict_get key d) <-> key ∈ (fst <$> d).
Proof.
  induction d as [|[k v] d IH]; simpl.
  - split; [intros [? [=]] | intros H; inversion H].
  - rewrite elem_of_cons, <- IH.
    destruct (String.eqb_spec k key); [subst; split; eauto|].
    split; [auto | intros [?|?]; congruence].
Qed.

Lemma dict_get_del_eq key d :
  NoDup (fst <$> d) -> dict_get key (dict_del key d) = None.
Proof.
  induction d as [|[k v] d IH]; simpl; [reflexivity|].
  intros Hnd. apply NoDup_cons in Hnd as [Hk Hnd].
  destruct (String.eqb_spec k key); simpl.
  - subst k. destruct (dict_get key d) eqn:E; [|reflexivity].
    exfalso. apply Hk, dict_get_elem. eauto.
  - destruct (String.eqb_spec k key); [congruence|auto].
Qed.

Lemma dict_del_keys_sub key k d :
  k ∈ (fst <$> dict_del key d) -> k ∈ (fst <$> d).
Proof.
  induction d as [|[k' v] d IH]; simpl; [auto|].
  destruct (String.eqb k' key); simpl; rewrite !elem_of_cons; intuition.
Qed.

Lemma dict_del_NoDup key d : NoDup (fst <$> d) -> NoDup (fst <$> dict_del key d).
Proof.
  induction d as [|[k v] d IH]; simpl; [auto|].
  intros Hnd. apply NoDup_cons in Hnd as [Hk Hnd].
  destruct (String.eqb k key); simpl; [assumption|].
  apply NoDup_cons. split; [|auto].
  intros Hin. apply Hk. eapply dict_del_keys_sub; eassumption.
Qed.

Lemma dict_set_keys key v d :
  fst <$> dict_set key v d
  = if dict_in key d then fst <$> d else (fst <$> d) ++ [key].
Proof.
  unfold dict_in. induction d as [|[k v'] d IH]; [reflexivity|].
  cbn [dict_set dict_get]. destruct (String.eqb k key) eqn:E.
  - reflexivity.
  - rewrite fmap_cons, IH. destruct (dict_get key d); reflexivity.
Qed.

Lemma dict_in_true key d : dict_in key d = true <-> is_Some (dict_get key d).
Proof. unfold dict_in. apply bool_decide_eq_true. Qed.

Lemma dict_in_false key d : dict_in key d = false <-> dict_get key d = None.
Proof.
  unfold dict_in. rewrite bool_decide_eq_false, <- eq_None_not_Some. reflexivity.
Qed.

Lemma dict_set_NoDup key v d : NoDup (fst <$> d) -> NoDup (fst <$> dict_set key v d).
Proof.
  intros Hnd. rewrite dict_set_keys.
  destruct (dict_in key d) eqn:E; [assumption|].
  apply NoDup_app. split; [assumption|]. split; [|apply NoDup_singleton].
  intros k Hk Hk'. apply list_elem_of_singleton in Hk'. subst k.
  apply dict_in_false in E. apply dict_get_elem in Hk as [? ?]. congruence.
Qed.

Lemma first_key_in d k : first_key d = Some k -> dict_in k d = true.
Proof.
  destruct d as [|[k' v] d]; simpl; [discriminate|].
  intros [= ->]. apply dict_in_true. simpl. rewrite String.eqb_refl. eauto.
Qed.
End DictFacts.

(** The state [connect] leaves. *)
Lemma connect_state (id host : string) (port : Z) (env : CDPClient.connect_env)
    (m : t) :
  (connect id host port env m).1.1
  = if dict_in id (connections m) then m
    else match env with
         | CDPClient.SocketOpens url =>
             {| connections :=
                  dict_set id (CDPClient.connect host port env CDPClient.init).1.1
                           (connections m);
                active_connection_id :=
                  match active_connection_id m with
                  | None => Some id
                  | Some a => Some a
                  end |}
         | _ => m
         end.
Proof.
  destruct m as [conns active].
  unfold connect, mbind, M_bind, bind, gets. simpl.
  destruct (dict_in id conns); [reflexivity|].
  destruct env as [e|url e|url].
  - destruct e; reflexivity.
  - destruct e; reflexivity.
  - destruct active; reflexivity.
Qed.

(** The state [disconnect] leaves. *)
Lemma disconnect_state (id : string) (m : t) (cdp : CDPClient.t) :
  dict_get id (connections m) = Some cdp ->
  (disconnect id m).1.1
  = let conns := dict_del id (dict_set id (CDPClient.disconnect cdp).1.1 (connections m)) in
    {| connections := conns;
       active_connection_id :=
         if bool_decide (active_connection_id m = Some id)
         then first_key conns else active_connection_id m |}.
Proof.
  intros Hget. destruct m as [conns active]. simpl in *.
  unfold disconnect, mbind, M_bind, bind, gets, on_client. simpl.
  assert (Hin : dict_in id conns = true) by (apply dict_in_true; eauto).
  rewrite Hin. simpl. rewrite Hget, CDPClientSpec.disconnect_eq. simpl.
  destruct (bool_decide (active = Some id)); reflexivity.
Qed.

Lemma disconnect_unknown (id : string) (m : t) :
  dict_get id (connections m) = None ->
  disconnect id m
  = (m, [], inr [Lit "Error: Connection '"; Lit id; Lit "' not found"]).
Proof.
  intros Hget. unfold disconnect, mbind, M_bind, bind, gets. simpl.
  assert (Hin : dict_in id (connections m) = false) by (apply dict_in_false; auto).
  rewrite Hin. reflexivity.
Qed.

Lemma each_value_disconnect (d : list (string * CDPClient.t)) :
  exists d' , each_value CDPClient.disconnect d = (d', [], inr tt).
Proof.
  induction d as [|[k cdp] d [d' IH]]; simpl; [eauto|].
  rewrite CDPClientSpec.disconnect_eq, IH. eauto.
Qed.

Lemma disconnect_all_state (m : t) :
  disconnect_all m = ({| connections := []; active_connection_id := None |}, [], inr tt).
Proof.
  unfold disconnect_all, mbind, M_bind, bind, for_values.
  destruct (each_value_disconnect (connections m)) as [d' ->]. reflexivity.
Qed.

Lemma switch_active_state (id : string) (m : t) :
  (switch_active id m).1.1
  = if dict_in id (connections m) then set_active_connection_id (Some id) m else m.
Proof.
  unfold switch_active, mbind, M_bind, bind, gets. simpl.
  destruct (dict_in id (connections m)); reflexivity.
Qed.

Lemma invariant_init : invariant init.
Proof. split; [constructor | intros id [=]]. Qed.

Lemma invariant_connect id host port env m :
  invariant m -> invariant (connect id host port env m).1.1.
Proof.
  intros [Hnd Hact]. rewrite connect_state.
  destruct (dict_in id (connections m)) eqn:Hin; [split; assumption|].
  destruct env; try (split; assumption).
  split; simpl.
  - apply dict_set_NoDup, Hnd.
  - intros a Ha. apply dict_in_true.
    destruct (decide (a = id)) as [->|Hne].
    + rewrite dict_get_set_eq. eauto.
    + rewrite dict_get_set_ne by assumption.
      apply dict_in_true, Hact.
      destruct (active_connection_id m); congruence.
Qed.

Lemma invariant_disconnect id m : invariant m -> invariant (disconnect id m).1.1.
Proof.
  intros [Hnd Hact].
  destruct (dict_get id (connections m)) as [cdp|] eqn:Hget.
  - rewrite (disconnect_state id m cdp Hget). split; simpl.
    + apply dict_del_NoDup, dict_set_NoDup, Hnd.
    + intros a. case_bool_decide as Heq.
      * apply first_key_in.
      * intros Ha. apply dict_in_true.
        assert (a <> id) by congruence.
        rewrite dict_get_del_ne, dict_get_set_ne by assumption.
        apply dict_in_true, Hact, Ha.
  - rewrite disconnect_unknown by assumption. split; assumption.
Qed.

Lemma invariant_switch_active id m : invariant m -> invariant (switch_active id m).1.1.
Proof.
  intros [Hnd Hact]. rewrite switch_active_state.
  destruct (dict_in id (connections m)) eqn:Hin; [|split; assumption].
  split; [assumption|]. simpl. intros a [= <-]. assumption.
Qed.

(** Disconnecting the active connection. *)
Lemma disconnect_active (id : string) (m : t) :
  invariant m ->
  active_connection_id m = Some id ->
  let m' := (disconnect id m).1.1 in
  dict_in id (connections m') = false
  /\ active_connection_id m' = first_key (connections m')
  /\ (connections m' = [] -> get_connection None m' = None).
Proof.
  intros [Hnd Hact] Hid.
  destruct (proj1 (dict_in_true _ _) (Hact id Hid)) as [cdp Hget].
  rewrite (disconnect_state id m cdp Hget). simpl.
  rewrite bool_decide_eq_true_2 by assumption.
  split; [|split; [reflexivity|]].
  - apply dict_in_false, dict_get_del_eq, dict_set_NoDup, Hnd.
  - intros Hnil. unfold get_connection, get_active. simpl. rewrite Hnil. reflexivity.
Qed.

(** Two connections, in the order [a] then [b]: [a] is the active one;
    disconnecting it makes [b] active; disconnecting [b] as well leaves
    nothing to resolve. *)
Lemma two_connections (a b host_a host_b url_a url_b : string) (port_a port_b : Z) :
  a <> b ->
  let m1 := (connect a host_a port_a (CDPClient.SocketOpens url_a) init).1.1 in
  let m2 := (connect b host_b port_b (CDPClient.SocketOpens url_b) m1).1.1 in
  let m3 := (disconnect a m2).1.1 in
  let m4 := (disconnect b m3).1.1 in
  active_connection_id m2 = Some a
  /\ active_connection_id m3 = Some b
  /\ fst <$> connections m3 = [b]
  /\ active_connection_id m4 = None
  /\ get_connection None m4 = None.
Proof.
  intros Hne m1 m2 m3 m4.
  assert (Hab : String.eqb a b = false) by (apply String.eqb_neq; assumption).
  assert (E1 : m1 = {| connections := [(a, (CDPClient.connect host_a port_a (CDPClient.SocketOpens url_a) CDPClient.init).1.1)];
                       active_connection_id := Some a |}).
  { unfold m1. rewrite connect_state. reflexivity. }
  assert (E2 : m2 = {| connections := [(a, (CDPClient.connect host_a port_a (CDPClient.SocketOpens url_a) CDPClient.init).1.1);
                                       (b, (CDPClient.connect host_b port_b (CDPClient.SocketOpens url_b) CDPClient.init).1.1)];
                       active_connection_id := Some a |}).
  { unfold m2. rewrite connect_state, E1. unfold dict_in. simpl. rewrite Hab. reflexivity. }
  assert (E3 : exists cdp, m3 = {| connections := [(b, cdp)]; active_connection_id := Some b |}).
  { unfold m3. rewrite E2. erewrite disconnect_state
      by (simpl; rewrite String.eqb_refl; reflexivity).
    simpl. rewrite !String.eqb_refl. simpl. rewrite String.eqb_refl.
    rewrite bool_decide_eq_true_2 by reflexivity. eauto. }
  destruct E3 as [cdp E3].
  assert (E4 : m4 = {| connections := []; active_connection_id := None |}).
  { unfold m4. rewrite E3. erewrite disconnect_state
      by (simpl; rewrite String.eqb_refl; reflexivity).
    simpl. rewrite !String.eqb_refl. simpl. rewrite String.eqb_refl.
    rewrite bool_decide_eq_true_2 by reflexivity. reflexivity. }
  rewrite E2, E3, E4. repeat split.
Qed.

(** C9. The registry invariant ([active_connection_id], when not [None],
    is a key of [connections]) holds at the start and is kept by
    [connect], [disconnect], [disconnect_all] and [switch_active].
    Disconnecting the active connection removes it and makes the first
    remaining key active, or none when no connection remains; so with two
    connections, disconnecting the active one leaves the other active,
    and after disconnecting the last one [get_connection(None)] is
    [None]. *)
Theorem registry_invariant :
  invariant init
  /\ (forall m : t,
        invariant m ->
        (forall id host port env, invariant (connect id host port env m).1.1)
        /\ (forall id, invariant (disconnect id m).1.1)
        /\ invariant (disconnect_all m).1.1
        /\ (forall id, invariant (switch_active id m).1.1)
        /\ (forall id,
              active_connection_id m = Some id ->
              let m' := (disconnect id m).1.1 in
              dict_in id (connections m') = false
              /\ active_connection_id m' = first_key (connections m')
              /\ (connections m' = [] -> get_connection None m' = None)))
  /\ (forall (a b host_a host_b url_a url_b : string) (port_a port_b : Z),
        a <> b ->
        let m1 := (connect a host_a port_a (CDPClient.SocketOpens url_a) init).1.1 in
        let m2 := (connect b host_b port_b (CDPClient.SocketOpens url_b) m1).1.1 in
        let m3 := (disconnect a m2).1.1 in
        let m4 := (disconnect b m3).1.1 in
        active_connection_id m2 = Some a
        /\ active_connection_id m3 = Some b
        /\ fst <$> connections m3 = [b]
        /\ active_connection_id m4 = None
        /\ get_connection None m4 = None).
Proof.
  split; [apply invariant_init|]. split.
  - intros m Hm. repeat split.
    + apply invariant_connect, Hm.
    + apply invariant_connect, Hm.
    + apply invariant_disconnect, Hm.
    + apply invariant_disconnect, Hm.
    + rewrite disconnect_all_state. simpl. constructor.
    + rewrite disconnect_all_state. simpl. intros id [=].
    + apply invariant_switch_active, Hm.
    + apply invariant_switch_active, Hm.
    + apply disconnect_active; assumption.
    + apply disconnect_active; assumption.
    + apply disconnect_active; assumption.
  - apply two_connections.
Qed.

Lemma registry_invariant_witness :
  invariant (connect "a" "localhost" 9222 (CDPClient.SocketOpens "ws://a") init).1.1
  /\ active_connection_id
       (disconnect "a"
          (connect "b" "localhost" 9223 (CDPClient.SocketOpens "ws://b")
             (connect "a" "localhost" 9222 (CDPClient.SocketOpens "ws://a") init).1.1).1.1).1.1
     = Some "b".
Proof.
  destruct registry_invariant as (Hinit & Hkeep & Htwo).
  split.
  - destruct (Hkeep init Hinit) as (Hc & _). apply Hc.
  - refine (proj1 (proj2 (Htwo "a" "b" "localhost" "localhost" "ws://a" "ws://b"
                            9222 9223 _))).
    discriminate.
Defined.

End ManagerSpec.

Module ToolsSpec.
Import CDPConnectionManager Tools.

(** A resolved connection is the object stored under its key. *)
Lemma get_connection_stored (connection_id : option string) (m : t)
    (key : string) (cdp : CDPClient.t) :
  get_connection connection_id m = Some (key, cdp) ->
  dict_get key (connections m) = Some cdp.
Proof.
  unfold get_connection, get_active, get.
  destruct connection_id as [id|].
  - destruct (dict_get id (connections m)) eqn:E; simpl; intros [= <- <-]; assumption.
  - destruct (active_connection_id m) as [id|]; [|discriminate].
    destruct (Py.truthy (JStr id)); [|discriminate].
    destruct (dict_get id (connections m)) eqn:E; simpl; intros [= <- <-]; assumption.
Qed.

Lemma format_evaluation_exn (expression : string) (result : json) (e : exn) :
  format_evaluation expression result = inl e -> is_Exception e = true.
Proof.
  unfold format_evaluation, mbind, exn_bind.
  repeat match goal with
         | |- context [match ?x with _ => _ end] => destruct x eqn:?
         end;
    intros [= <-];
    repeat match goal with
           | H : Py.contains _ ?v = inl _ |- _ => destruct v; simpl in H; inversion H; clear H
           | H : Py.get ?v _ _ = inl _ |- _ => destruct v; simpl in H; inversion H; clear H
           | H : Py.getitem ?v _ = inl _ |- _ =>
               destruct v; simpl in H;
               repeat match type of H with
                      | context [match ?y with _ => _ end] => destruct y
                      end; inversion H; clear H
           end; reflexivity.
Qed.

Lemma set_connections_same (m : t) (key : string) (cdp : CDPClient.t) :
  dict_get key (connections m) = Some cdp ->
  set_connections (dict_set key cdp (connections m)) m = m.
Proof.
  intros H. unfold set_connections. rewrite ManagerSpec.dict_set_same by assumption.
  destruct m; reflexivity.
Qed.

(** C6. For resume, step over, step into, step out and evaluate on call
    frame, on a resolved connection: when [paused_data] is empty the tool
    returns its "Not paused" message and nothing changes (no id is
    allocated, nothing is written); when it is not empty the tool makes
    its [send_command] call, with the method and params of the
    operation, and on an open websocket this writes the command's
    frame. *)
Theorem paused_guard (op : paused_op) (m : t) (connection_id : option string)
    (reply : option json) (key : string) (cdp : CDPClient.t) :
  get_connection connection_id m = Some (key, cdp) ->
  (Py.truthy (CDPClient.paused_data cdp) = false ->
   run_op op connection_id reply m = (m, [], inr (not_paused op)))
  /\ (Py.truthy (CDPClient.paused_data cdp) = true ->
      let cdp' := (CDPClient.send_command (op_method op) (op_params op) reply cdp).1.1 in
      (exists r,
         run_op op connection_id reply m
         = (set_connections (dict_set key cdp' (connections m)) m, [], inr r))
      /\ forall w,
           CDPClient.ws cdp = Some w ->
           CDPClient.closed w = false ->
           CDPClient.ws cdp'
           = Some {| CDPClient.closed := false;
                     CDPClient.sent :=
                       CDPClient.sent w ++
                       [JDict [("id", JInt (CDPClient.msg_id cdp + 1));
                               ("method", JStr (op_method op));
                               ("params", op_params op)]] |}).
Proof.
  intros Hconn.
  pose proof (get_connection_stored _ _ _ _ Hconn) as Hget.
  split.
  - intros Hp.
    destruct op; simpl;
      unfold debugger_resume, debugger_step_over, debugger_step_into,
        debugger_step_out, debugger_evaluate_on_call_frame,
        mbind, M_bind, bind, gets, try_except, on_client;
      rewrite Hconn; simpl; rewrite Hget; simpl; rewrite Hp; simpl;
      rewrite (set_connections_same m key cdp Hget); reflexivity.
  - intros Hp cdp'. split.
    + destruct (CDPClientSpec.send_command_quiet (op_method op) (op_params op) reply cdp)
        as (c1 & r & Hs & Hexn).
      unfold cdp'. rewrite Hs. simpl.
      destruct op; simpl in Hs |- *;
        unfold debugger_resume, debugger_step_over, debugger_step_into,
          debugger_step_out, debugger_evaluate_on_call_frame,
          mbind, M_bind, bind, gets, try_except, on_client;
        rewrite Hconn; simpl; rewrite Hget; simpl; rewrite Hp; simpl;
        rewrite Hs; destruct r as [e|res]; simpl;
        try (unfold except_return; rewrite (Hexn e eq_refl); simpl; eauto);
        eauto.
      unfold lift.
      destruct (format_evaluation expression res) as [e|msg] eqn:Hf; simpl; eauto.
      unfold except_return. rewrite (format_evaluation_exn _ _ _ Hf). simpl. eauto.
    + intros w Hws Hcl. unfold cdp'.
      destruct (CDPClientSpec.send_command_writes_frame cdp w (op_method op)
                  (op_params op) reply Hws Hcl) as [-> _].
      destruct op; reflexivity.
Qed.

(** C8. [debugger_set_breakpoint] with the 1-indexed line [line_number]
    writes a frame whose "lineNumber" is [line_number - 1]; when the
    response confirms a location with the 0-indexed line [l], the
    message reports line [l + 1] as the actual location, next to the
    requested line [line_number]; so when the remote confirms the line it
    was sent, the message reports [line_number]. *)
Theorem breakpoint_line_round_trip (m : t) (url : string)
    (line_number column_number : Z) (condition : option string)
    (connection_id : option string) (key : string) (cdp : CDPClient.t)
    (w : CDPClient.WebSocket) (response result loc : list (string * json))
    (breakpoint_id column : json) (l : Z) (more : list json) :
  get_connection connection_id m = Some (key, cdp) ->
  CDPClient.ws cdp = Some w ->
  CDPClient.closed w = false ->
  Py.assoc "error" response = None ->
  Py.assoc "result" response = Some (JDict result) ->
  Py.assoc "breakpointId" result = Some breakpoint_id ->
  Py.hashable breakpoint_id = true ->
  Py.assoc "locations" result = Some (JList (JDict loc :: more)) ->
  Py.assoc "lineNumber" loc = Some (JInt l) ->
  Py.assoc "columnNumber" loc = Some column ->
  let cond := Py.of_optional condition in
  let params := [("url", JStr url); ("lineNumber", JInt (line_number - 1));
                 ("columnNumber", JInt column_number)]
                ++ (if Py.truthy cond then [("condition", cond)] else []) in
  let frame := JDict [("id", JInt (CDPClient.msg_id cdp + 1));
                      ("method", JStr "Debugger.setBreakpointByUrl");
                      ("params", JDict params)] in
  let report (actual_line : Z) :=
    [Lit "✓ Breakpoint set successfully"; Lit NL; Lit NL;
     Lit "Breakpoint ID: "; Str breakpoint_id; Lit NL;
     Lit "URL: "; Lit url; Lit NL;
     Lit "Line: "; Str (JInt line_number)]
    ++ (if Py.truthy cond then [Lit NL; Lit "Condition: "; Str cond] else [])
    ++ [Lit NL; Lit NL; Lit "Actual location: Line "; Str (JInt actual_line);
        Lit ", Column "; Str column]
    ++ [Lit NL; Lit NL; Lit "Trigger the code path to pause at this breakpoint."] in
  exists cdp' : CDPClient.t,
    debugger_set_breakpoint url line_number column_number condition
      connection_id (Some (JDict response)) m
    = (set_connections (dict_set key cdp' (connections m)) m, [], inr (report (l + 1)))
    /\ CDPClient.ws cdp'
       = Some {| CDPClient.closed := false;
                 CDPClient.sent := CDPClient.sent w ++ [frame] |}
    /\ (l = line_number - 1 -> report (l + 1) = report line_number).
Proof.
  intros Hconn Hws Hcl Herr Hres Hbp Hhash Hlocs Hline Hcol cond params frame report.
  pose proof (get_connection_stored _ _ _ _ Hconn) as Hget.
  assert (Hparams : Py.or_ (JDict params) (JDict []) = JDict params) by reflexivity.
  unfold debugger_set_breakpoint, mbind, M_bind, bind, gets, try_except, on_client.
  rewrite Hconn. simpl. rewrite Hget.
  unfold CDPClient.send_command, mbind, M_bind, bind.
  fold cond.
  assert (Hp : (if Py.truthy cond
                then [("url", JStr url); ("lineNumber", JInt (line_number - 1));
                      ("columnNumber", JInt column_number); ("condition", cond)]
                else [("url", JStr url); ("lineNumber", JInt (line_number - 1));
                      ("columnNumber", JInt column_number)]) = params)
    by (unfold params; destruct (Py.truthy cond); reflexivity).
  rewrite Hp.
  rewrite (CDPClientSpec.send_command_send_open cdp w _ _ Hws Hcl), Hparams.
  fold frame.
  unfold CDPClient.send_command_wait, CDPClient.del_pending, mbind, M_bind, bind,
    gets, lift, modify, Py.contains, Py.get.
  simpl. rewrite lookup_insert_eq. simpl.
  rewrite Herr, Hres. simpl. rewrite Hbp, Hlocs. simpl.
  unfold Py.setitem. rewrite Hhash. simpl.
  rewrite Hline, Hcol. simpl.
  eexists. split; [|split].
  - unfold report. destruct (Py.truthy cond); reflexivity.
  - reflexivity.
  - intros ->. do 2 f_equal. lia.
Qed.

Lemma paused_guard_witness :
  run_op StepOver None None (Examples.registry (CDPClient.client Examples.busy))
  = (Examples.registry (CDPClient.client Examples.busy), [],
     inr [Lit "Not paused. Cannot step when execution is not paused."])
  /\ CDPClient.ws
       (CDPClient.send_command "Debugger.stepOver" (JDict []) None
          (CDPClient.client Examples.paused)).1.1
     = Some {| CDPClient.closed := false;
               CDPClient.sent :=
                 [JDict [("id", JInt 1); ("method", JStr "Debugger.enable");
                         ("params", JDict [])];
                  JDict [("id", JInt 2); ("method", JStr "Debugger.stepOver");
                         ("params", JDict [])]] |}.
Proof.
  split.
  - apply (proj1 (paused_guard StepOver
                    (Examples.registry (CDPClient.client Examples.busy))
                    None None "default" (CDPClient.client Examples.busy) eq_refl)).
    reflexivity.
  - apply (proj2 (proj2 (paused_guard StepOver
                           (Examples.registry (CDPClient.client Examples.paused))
                           None None "default" (CDPClient.client Examples.paused)
                           eq_refl) eq_refl)
             {| CDPClient.closed := false;
                CDPClient.sent := [JDict [("id", JInt 1);
                                          ("method", JStr "Debugger.enable");
                                          ("params", JDict [])]] |});
      reflexivity.
Defined.

Lemma breakpoint_line_round_trip_witness :
  exists m',
    debugger_set_breakpoint "app.js" 42 0 None None
      (Some (JDict Examples.breakpoint_response))
      (Examples.registry (CDPClient.client Examples.busy))
    = (m', [],
       inr [Lit "✓ Breakpoint set successfully"; Lit NL; Lit NL;
            Lit "Breakpoint ID: "; Str (JStr "1:41:0:app.js"); Lit NL;
            Lit "URL: "; Lit "app.js"; Lit NL;
            Lit "Line: "; Str (JInt 42);
            Lit NL; Lit NL; Lit "Actual location: Line "; Str (JInt 42);
            Lit ", Column "; Str (JInt 0);
            Lit NL; Lit NL;
            Lit "Trigger the code path to pause at this breakpoint."]).
Proof.
  destruct (breakpoint_line_round_trip
              (Examples.registry (CDPClient.client Examples.busy))
              "app.js" 42 0 None None "default" (CDPClient.client Examples.busy)
              {| CDPClient.closed := false;
                 CDPClient.sent := [JDict [("id", JInt 1);
                                           ("method", JStr "Debugger.enable");
                                           ("params", JDict [])]] |}
              Examples.breakpoint_response
              [("breakpointId", JStr "1:41:0:app.js");
               ("locations",
                JList [JDict [("scriptId", JStr "7"); ("lineNumber", JInt 41);
                              ("columnNumber", JInt 0)]])]
              [("scriptId", JStr "7"); ("lineNumber", JInt 41);
               ("columnNumber", JInt 0)]
              (JStr "1:41:0:app.js") (JInt 0) 41 []
              eq_refl eq_refl eq_refl eq_refl eq_refl eq_refl eq_refl eq_refl
              eq_refl eq_refl) as (cdp' & H & _).
  eexists. exact H.
Defined.

(** C7 as stated fails: after a "Debugger.paused" event without params
    the snapshot is the empty dict, which the guards take as not paused;
    after one whose params are [null] it is [None]. *)
Lemma pause_event_can_leave_snapshot_empty :
  let c := CDPClient.client Examples.busy in
  let c1 := (CDPClient._receive_loop_body Examples.bare_paused_event c).1.1 in
  let c2 := (CDPClient._receive_loop_body Examples.null_paused_event c).1.1 in
  CDPClient.paused_data c1 = JDict []
  /\ Py.truthy (CDPClient.paused_data c1) = false
  /\ debugger_resume None None (Examples.registry c1)
     = (Examples.registry c1, [], inr [Lit "Not paused. Nothing to resume."])
  /\ CDPClient.paused_data c2 = JNull.
Proof. vm_compute. repeat split. Qed.

End ToolsSpec.


(** * Further properties of [CDPClient] *)

Module ClientFacts.
Import CDPClient.

(** A [connect] that fails, at target discovery or at opening the
    websocket, raises "Failed to connect to Chrome CDP at host:port: ..."
    and leaves the client without websocket and without receive task (only
    [ws_url] may have been set); a [send_command] after it is refused with
    "Not connected to Chrome CDP". *)
Theorem connect_failure_leaves_unconnected (chrome_host : string) (chrome_port : Z)
    (env : connect_env) (e : exn) (method : string) (params : json)
    (reply : option json) :
  env = DiscoveryFails e \/ (exists url, env = SocketFails url e) ->
  is_Exception e = true ->
  exists c' : t,
    connect chrome_host chrome_port env init
    = (c', [],
       inl (RuntimeError [Lit "Failed to connect to Chrome CDP at "; Lit chrome_host;
                          Lit ":"; Str (JInt chrome_port); Lit ": "; StrExn e]))
    /\ ws c' = None /\ receive_task c' = None
    /\ pending_responses c' = ∅ /\ msg_id c' = 0
    /\ send_command method params reply c'
       = (c', [], inl (RuntimeError [Lit "Not connected to Chrome CDP"])).
Proof.
  intros [->|[url ->]] He;
    unfold connect, try_except, mbind, M_bind, bind, modify, raise; simpl;
    rewrite He; eexists; (split; [reflexivity|]); repeat split.
Qed.

Lemma connect_failure_leaves_unconnected_witness :
  exists c' : t,
    connect "localhost" 9222 (SocketFails "ws://localhost:9222/page/1" ConnectionClosed) init
    = (c', [],
       inl (RuntimeError [Lit "Failed to connect to Chrome CDP at "; Lit "localhost";
                          Lit ":"; Str (JInt 9222); Lit ": "; StrExn ConnectionClosed]))
    /\ ws c' = None.
Proof.
  destruct (connect_failure_leaves_unconnected "localhost" 9222
              (SocketFails "ws://localhost:9222/page/1" ConnectionClosed)
              ConnectionClosed "Debugger.enable" (JDict []) None
              (or_intror (ex_intro _ "ws://localhost:9222/page/1" eq_refl)) eq_refl)
    as (c' & H1 & H2 & _).
  exists c'. split; assumption.
Defined.

(** A whole [send_command] on an open websocket, with an id that is not in
    the table: it returns the "result" of a response without "error" (the
    empty dict when there is none), raises "CDP error: ..." with the
    "error" of a response that has one, and raises the timeout error when
    no response comes. In the three cases one id has been used, the frame
    has been written, and [pending_responses] is as it was before. *)
Theorem send_command_outcomes (c : t) (w : WebSocket) (method : string)
    (params : json) :
  ws c = Some w ->
  closed w = false ->
  pending_responses c !! (msg_id c + 1) = None ->
  let k := msg_id c + 1 in
  let frame := JDict [("id", JInt k); ("method", JStr method);
                      ("params", Py.or_ params (JDict []))] in
  let c' := set_ws (Some {| closed := false; sent := sent w ++ [frame] |})
              (set_msg_id k c) in
  (forall response,
      Py.assoc "error" response = None ->
      send_command method params (Some (JDict response)) c
      = (c', [], inr (default (JDict []) (Py.assoc "result" response))))
  /\ (forall response error,
        Py.assoc "error" response = Some error ->
        send_command method params (Some (JDict response)) c
        = (c', [], inl (RuntimeError [Lit "CDP error: "; Str error])))
  /\ send_command method params None c
     = (c', [], inl (RuntimeError [Lit "CDP command timeout: "; Lit method])).
Proof.
  intros Hws Hcl Hfresh k frame c'.
  assert (Hc' : forall r : exn + json,
             (set_pending_responses
                (delete k (<[k := FutPending]> (pending_responses c)))
                (set_ws (Some {| closed := false; sent := sent w ++ [frame] |})
                   (set_pending_responses (<[k := FutPending]> (pending_responses c))
                      (set_msg_id k c))), @nil fstring, r) = (c', [], r)).
  { intros r. rewrite delete_insert_id by exact Hfresh.
    unfold c'. destruct c; reflexivity. }
  split; [|split].
  - intros response Herr. unfold send_command, mbind, M_bind, bind.
    rewrite (CDPClientSpec.send_command_send_open c w method params Hws Hcl).
    fold k frame. cbv beta iota.
    erewrite CDPClientSpec.send_command_wait_present
      by (simpl; apply lookup_insert_eq).
    simpl. rewrite Herr. simpl. apply Hc'.
  - intros response error Herr. unfold send_command, mbind, M_bind, bind.
    rewrite (CDPClientSpec.send_command_send_open c w method params Hws Hcl).
    fold k frame. cbv beta iota.
    erewrite CDPClientSpec.send_command_wait_present
      by (simpl; apply lookup_insert_eq).
    simpl. rewrite Herr. simpl. apply Hc'.
  - unfold send_command, mbind, M_bind, bind.
    rewrite (CDPClientSpec.send_command_send_open c w method params Hws Hcl).
    fold k frame. cbv beta iota.
    erewrite CDPClientSpec.send_command_wait_present
      by (simpl; apply lookup_insert_eq).
    apply Hc'.
Qed.

Lemma send_command_outcomes_witness :
  send_command "Runtime.evaluate" (JDict [("expression", JStr "1+1")])
    (Some (JDict [("id", JInt 1); ("result", JDict [("value", JInt 2)])]))
    (client (connected "ws://page/1" ∅))
  = (set_ws (Some {| closed := false;
                     sent := [JDict [("id", JInt 1); ("method", JStr "Runtime.evaluate");
                                     ("params", JDict [("expression", JStr "1+1")])]] |})
       (set_msg_id 1 (client (connected "ws://page/1" ∅))),
     [], inr (JDict [("value", JInt 2)])).
Proof.
  apply (proj1 (send_command_outcomes (client (connected "ws://page/1" ∅))
                  {| closed := false; sent := [] |} "Runtime.evaluate"
                  (JDict [("expression", JStr "1+1")]) eq_refl eq_refl eq_refl)
           [("id", JInt 1); ("result", JDict [("value", JInt 2)])]).
  reflexivity.
Defined.

(** [disconnect] closes the websocket but keeps it: a [send_command] after
    it is not refused with "Not connected"; it uses an id, stores a future
    that nothing will resolve or remove, writes nothing and raises the
    websocket's [ConnectionClosed]. *)
Theorem send_command_after_disconnect (c : t) (w : WebSocket) (method : string)
    (params : json) (reply : option json) :
  ws c = Some w ->
  let c1 := (disconnect c).1.1 in
  let k := msg_id c + 1 in
  send_command method params reply c1
  = (set_pending_responses (<[k := FutPending]> (pending_responses c)) (set_msg_id k c1),
     [], inl ConnectionClosed)
  /\ ws (set_msg_id k c1) = Some {| closed := true; sent := sent w |}.
Proof.
  intros Hws c1 k. unfold c1. rewrite CDPClientSpec.disconnect_eq. simpl.
  rewrite Hws. simpl. split; [|reflexivity].
  unfold send_command, send_command_send, mbind, M_bind, bind, gets, modify, raise.
  simpl. reflexivity.
Qed.

Lemma send_command_after_disconnect_witness :
  (send_command "Debugger.enable" (JDict []) None
     (disconnect (client Examples.paused)).1.1).2
  = inl ConnectionClosed.
Proof.
  pose proof (send_command_after_disconnect (client Examples.paused)
                {| closed := false;
                   sent := [JDict [("id", JInt 1); ("method", JStr "Debugger.enable");
                                   ("params", JDict [])]] |}
                "Debugger.enable" (JDict []) None eq_refl) as [H _].
  simpl in H. rewrite H. reflexivity.
Defined.

(** A second response for an id whose future already holds a response (its
    call has not come back yet) raises [InvalidStateError] in the receive
    loop: the loop ends there, the first response stays in the future, and
    the messages after it are not read. *)
Theorem duplicate_response_ends_receive_loop (c : t) (k : Z) (first data : json)
    (rest : list message) :
  pending_responses c !! k = Some (FutResult first) ->
  response_for k data ->
  _receive_loop (Decodable data :: rest) c
  = (set_receive_task (Some Finished) c,
     [[Lit "CDP receive loop error: "; StrExn InvalidStateError]], inr tt).
Proof.
  intros Hp (v & Hv & Hk).
  apply (CDPClientSpec.receive_loop_cons_raise _ rest c c [] InvalidStateError).
  unfold _receive_loop_body, mbind, M_bind, bind, lift, gets. simpl.
  assert (Hid : Py.contains "id" data = inr true).
  { destruct data as [| | | | |d]; simpl in Hv; try discriminate.
    simpl. destruct (Py.assoc "id" d); [reflexivity|discriminate]. }
  rewrite Hid, Hv, Hk. simpl. rewrite Hp. reflexivity.
Qed.

Lemma duplicate_response_ends_receive_loop_witness :
  let c1 := (_receive_loop_body Examples.response_1 (client Examples.busy)).1.1 in
  _receive_loop [Examples.response_1] c1
  = (set_receive_task (Some Finished) c1,
     [[Lit "CDP receive loop error: "; StrExn InvalidStateError]], inr tt).
Proof.
  apply (duplicate_response_ends_receive_loop
           (_receive_loop_body Examples.response_1 (client Examples.busy)).1.1 1
           (JDict [("id", JInt 1); ("result", JDict [])])
           (JDict [("id", JInt 1); ("result", JDict [])]) []).
  - reflexivity.
  - exists (JInt 1). split; reflexivity.
Defined.

(** A message that decodes to [null], a boolean or a number is not a
    container: testing it for "id" raises [TypeError] and the receive loop
    ends. So does a response whose "id" is a list or a dict, which cannot
    be looked up in the table. *)
Theorem non_object_frame_ends_receive_loop (c : t) (data : json)
    (rest : list message) :
  (data = JNull \/ (exists b, data = JBool b) \/ (exists z, data = JInt z)
   \/ (exists d v, data = JDict d /\ Py.assoc "id" d = Some v /\ Py.hashable v = false)) ->
  _receive_loop (Decodable data :: rest) c
  = (set_receive_task (Some Finished) c,
     [[Lit "CDP receive loop error: "; StrExn TypeError]], inr tt).
Proof.
  intros H.
  apply (CDPClientSpec.receive_loop_cons_raise _ rest c c [] TypeError).
  unfold _receive_loop_body, mbind, M_bind, bind, lift, gets.
  destruct H as [->|[[b ->]|[[z ->]|(d & v & -> & Hv & Hh)]]]; try reflexivity.
  simpl. rewrite Hv. simpl. destruct v; try discriminate; reflexivity.
Qed.

Lemma non_object_frame_ends_receive_loop_witness :
  _receive_loop [Decodable JNull; Examples.response_1] (client Examples.busy)
  = (set_receive_task (Some Finished) (client Examples.busy),
     [[Lit "CDP receive loop error: "; StrExn TypeError]], inr tt).
Proof.
  apply (non_object_frame_ends_receive_loop (client Examples.busy) JNull
           [Examples.response_1]).
  left. reflexivity.
Defined.

(** An event whose method is neither "Debugger.paused" nor
    "Debugger.resumed" and has no registered handler is ignored: the
    client is unchanged, nothing is printed, and the loop goes on. *)
Theorem unhandled_event_ignored (c : t) (d : list (string * json))
    (method : string) (rest : list message) :
  Py.assoc "id" d = None ->
  Py.assoc "method" d = Some (JStr method) ->
  method <> "Debugger.paused" ->
  method <> "Debugger.resumed" ->
  event_handlers c !! method = None ->
  _receive_loop_body (Decodable (JDict d)) c = (c, [], inr tt)
  /\ _receive_loop (Decodable (JDict d) :: rest) c = _receive_loop rest c.
Proof.
  intros Hid Hm Hp Hr Hh.
  assert (Hb : _receive_loop_body (Decodable (JDict d)) c = (c, [], inr tt)).
  { unfold _receive_loop_body, _handle_event, track_pause, call_handler,
      mbind, M_bind, bind, lift, gets, json_loads, Py.contains, Py.getitem, Py.get.
    rewrite Hid, Hm. simpl.
    apply String.eqb_neq in Hp, Hr. rewrite Hp, Hr. simpl. rewrite Hh. reflexivity. }
  split; [exact Hb|].
  rewrite (CDPClientSpec.receive_loop_cons_ok _ rest c c [] Hb).
  destruct (_receive_loop rest c) as [[c2 o2] r]. reflexivity.
Qed.

Lemma unhandled_event_ignored_witness :
  _receive_loop_body
    (Decodable (JDict [("method", JStr "Page.loadEventFired"); ("params", JDict [])]))
    (client Examples.busy)
  = (client Examples.busy, [], inr tt).
Proof.
  apply (unhandled_event_ignored (client Examples.busy)
           [("method", JStr "Page.loadEventFired"); ("params", JDict [])]
           "Page.loadEventFired" []); try reflexivity; discriminate.
Defined.

(** *** What reading a message can change *)

Lemma handle_event_paused (event : json) (c : t) :
  let c' := (_handle_event event c).1.1 in
  paused_data c' <> paused_data c ->
  exists d,
    event = JDict d
    /\ ((Py.assoc "method" d = Some (JStr "Debugger.paused")
         /\ paused_data c' = default (JDict []) (Py.assoc "params" d))
        \/ (Py.assoc "method" d = Some (JStr "Debugger.resumed")
            /\ paused_data c' = JNull)).
Proof.
  unfold _handle_event, mbind, M_bind, bind, lift.
  destruct event as [| | | | |d]; simpl; try contradiction.
  destruct (Py.assoc "method" d) as [method|] eqn:Hm; simpl; [|contradiction].
  set (params := default (JDict []) (Py.assoc "params" d)).
  intros Hne. exists d. split; [reflexivity|].
  revert Hne. unfold track_pause, mbind, M_bind, bind, lift, modify, when, print, DEBUG.
  destruct (Py.is_str "Debugger.paused" method) eqn:Hp;
    [|destruct (Py.is_str "Debugger.resumed" method) eqn:Hr].
  - assert (method = JStr "Debugger.paused") as ->.
    { destruct method; simpl in Hp; try discriminate.
      apply String.eqb_eq in Hp. congruence. }
    intros _. left. split; [exact Hm|].
    destruct (Py.get params "reason" (JStr "unknown")); simpl; [reflexivity|].
    destruct (CDPClientSpec.call_handler_frame (JStr "Debugger.paused") params (set_paused_data params c))
      as (out & r & ->). reflexivity.
  - assert (method = JStr "Debugger.resumed") as ->.
    { destruct method; simpl in Hr; try discriminate.
      apply String.eqb_eq in Hr. congruence. }
    intros _. right. split; [exact Hm|]. simpl.
    destruct (CDPClientSpec.call_handler_frame (JStr "Debugger.resumed") params (set_paused_data JNull c))
      as (out & r & ->). reflexivity.
  - simpl. destruct (CDPClientSpec.call_handler_frame method params c) as (out & r & ->).
    simpl. contradiction.
Qed.

Lemma body_paused (m : message) (c : t) :
  let c' := (_receive_loop_body m c).1.1 in
  paused_data c' <> paused_data c ->
  exists d,
    m = Decodable (JDict d)
    /\ Py.assoc "id" d = None
    /\ ((Py.assoc "method" d = Some (JStr "Debugger.paused")
         /\ paused_data c' = default (JDict []) (Py.assoc "params" d))
        \/ (Py.assoc "method" d = Some (JStr "Debugger.resumed")
            /\ paused_data c' = JNull)).
Proof.
  unfold _receive_loop_body, mbind, M_bind, bind, lift, gets, modify.
  destruct m as [data|]; simpl; [|contradiction].
  destruct (Py.contains "id" data) as [e0|[]] eqn:Hid; simpl; [contradiction| |].
  - destruct (Py.getitem data "id") as [e0|v]; simpl; [contradiction|].
    destruct (Py.int_key v) as [e0|[k|]]; simpl; try contradiction.
    destruct (pending_responses c !! k) as [[|old|]|]; simpl; contradiction.
  - destruct (Py.contains "method" data) as [e0|[]]; simpl; try contradiction.
    intros Hne.
    assert (Hne' : paused_data (_handle_event data c).1.1 <> paused_data c).
    { destruct (_handle_event data c) as [[c2 o2] r2]. exact Hne. }
    destruct (handle_event_paused data c Hne') as (d & -> & Hd).
    exists d. split; [reflexivity|]. split.
    + simpl in Hid. destruct (Py.assoc "id" d); [discriminate|reflexivity].
    + destruct (_handle_event (JDict d) c) as [[c2 o2] r2]. exact Hd.
Qed.

(** Whatever happens on a client (calls, messages read, timeouts passing,
    calls coming back or being cancelled, the stream ending, a
    disconnect), [paused_data] changes only when the
    receive loop reads an event without "id" whose method is
    "Debugger.paused" (it becomes the event's params, [{}] by default) or
    "Debugger.resumed" (it becomes [None]). *)
Theorem paused_data_changes_only_on_pause_events (a : action) (s : system) :
  let c' := client (step a s).1.1 in
  paused_data c' <> paused_data (client s) ->
  exists d,
    a = Deliver (Decodable (JDict d))
    /\ Py.assoc "id" d = None
    /\ ((Py.assoc "method" d = Some (JStr "Debugger.paused")
         /\ paused_data c' = default (JDict []) (Py.assoc "params" d))
        \/ (Py.assoc "method" d = Some (JStr "Debugger.resumed")
            /\ paused_data c' = JNull)).
Proof.
  destruct s as [c wt]. destruct a as [method params|m|k|k|k|e|]; simpl.
  - destruct (CDPClientSpec.send_command_send_cases method params c)
      as [(_ & e & ->)|[(e & ->)|(w & ->)]]; simpl; contradiction.
  - destruct (receive_task c) as [[]|]; simpl; try contradiction.
    pose proof (body_paused m c) as H. simpl in H.
    unfold deliver, try_except.
    destruct (_receive_loop_body m c) as [[c1 o1] r]. simpl in H.
    destruct r as [e0|[]]; simpl.
    + unfold mbind, M_bind, bind, modify.
      rewrite CDPClientSpec.receive_loop_except_eq. simpl.
      intros Hne. destruct (H Hne) as (d & -> & Hd). eauto.
    + intros Hne. destruct (H Hne) as (d & -> & Hd). eauto.
  - destruct (wt !! k) as [method|]; simpl; [|contradiction].
    destruct (pending_responses c !! k) as [fut|] eqn:Hp; simpl; contradiction.
  - destruct (wt !! k) as [method|]; simpl; [|contradiction].
    destruct (pending_responses c !! k) as [fut|] eqn:Hp; simpl; [|contradiction].
    destruct (wait_for fut) as [w|]; simpl; [|contradiction].
    rewrite (CDPClientSpec.send_command_wait_present method k _ c fut Hp). simpl.
    contradiction.
  - destruct (wt !! k) as [method|]; simpl; [|contradiction].
    destruct (pending_responses c !! k) as [fut|] eqn:Hp; simpl; contradiction.
  - destruct (receive_task c) as [[]|]; simpl; try contradiction.
    destruct (ws c) as [w|]; simpl; [|contradiction].
    unfold stream_ends, mbind, M_bind, bind, modify.
    destruct e as [e|]; [rewrite CDPClientSpec.receive_loop_except_eq|]; simpl;
      contradiction.
  - rewrite CDPClientSpec.disconnect_eq. simpl. contradiction.
Qed.

Lemma paused_data_changes_only_on_pause_events_witness :
  exists d, Examples.paused_event = Decodable (JDict d) /\ Py.assoc "id" d = None.
Proof.
  destruct (paused_data_changes_only_on_pause_events
              (Deliver Examples.paused_event) Examples.busy)
    as (d & Ha & Hid & _).
  - vm_compute. discriminate.
  - exists d. split; [congruence|assumption].
Defined.

(** One turn of the receive loop never writes to the websocket and never
    allocates an id; it leaves [ws], [ws_url], [msg_id], [breakpoints] and
    the handlers as they are, and [pending_responses] keeps the same keys:
    the loop resolves futures, it neither adds nor removes entries. *)
Theorem receive_loop_keeps_requests (m : message) (c : t) :
  let c' := (deliver m c).1.1 in
  ws c' = ws c /\ ws_url c' = ws_url c /\ msg_id c' = msg_id c
  /\ breakpoints c' = breakpoints c /\ event_handlers c' = event_handlers c
  /\ dom (pending_responses c') = dom (pending_responses c)
  /\ (deliver m c).2 = inr tt.
Proof.
  destruct (CDPClientSpec.deliver_cases m c)
    as [(pd & task & out & ->)|(data & k & -> & Hk & Hp & ->)]; simpl.
  - repeat split.
  - repeat split. apply dom_insert_lookup_L. rewrite Hp. eauto.
Qed.

(** *** The ids on the wire *)

Lemma step_wire (a : action) (s : system) (n : nat) :
  wire_count n s ->
  ((step a s).2 = Issued (Z.of_nat n + 1) /\ wire_count (S n) (step a s).1.1)
  \/ ((forall k, (step a s).2 <> Issued k) /\ wire_count n (step a s).1.1).
Proof.
  intros (w & Hws & Hids & Hlen & Hopen).
  destruct s as [c wt]. simpl in *.
  destruct a as [method params|m|k|k|k|e|]; simpl.
  - unfold send_command_send, mbind, M_bind, bind, gets, modify, raise. simpl.
    rewrite Hws. simpl. destruct (closed w) eqn:Hcl; simpl.
    + right. split; [discriminate|]. exists w. simpl. rewrite Hcl.
      repeat split; [assumption..|discriminate].
    + left. rewrite (Hopen eq_refl). split; [reflexivity|].
      eexists. simpl. split; [reflexivity|]. simpl.
      rewrite omap_app, Hids, length_app, Hlen. simpl.
      rewrite (seqZ_S 1 n). repeat split; [|lia|intros _; lia].
      do 2 f_equal. lia.
  - right. destruct (receive_task c) as [[]|]; simpl;
      try (split; [discriminate|]; exists w; auto).
    destruct (CDPClientSpec.deliver_cases m c)
      as [(pd & task & out & ->)|(data & j & -> & Hj & Hp & ->)]; simpl;
      (split; [discriminate|]; exists w; auto).
  - right. destruct (wt !! k) as [method|]; simpl;
      [|split; [discriminate|]; exists w; auto].
    destruct (pending_responses c !! k) as [fut|] eqn:Hp; simpl;
      (split; [discriminate|]; exists w; auto).
  - right. destruct (wt !! k) as [method|]; simpl;
      [|split; [discriminate|]; exists w; auto].
    destruct (pending_responses c !! k) as [fut|] eqn:Hp; simpl;
      [|split; [discriminate|]; exists w; auto].
    destruct (wait_for fut) as [wk|]; cbn beta iota;
      [|split; [discriminate|]; exists w; auto].
    rewrite (CDPClientSpec.send_command_wait_present method k _ c fut Hp). simpl.
    split; [destruct wk; [destruct (Py.contains _ _) as [?|[]];
                            [|destruct (Py.getitem _ _)|destruct (Py.get _ _ _)]|];
            discriminate|].
    exists w. auto.
  - right. destruct (wt !! k) as [method|]; simpl;
      [|split; [discriminate|]; exists w; auto].
    destruct (pending_responses c !! k) as [fut|] eqn:Hp; simpl;
      (split; [discriminate|]; exists w; auto).
  - right. destruct (receive_task c) as [[]|]; simpl;
      try (split; [discriminate|]; exists w; auto).
    rewrite Hws. simpl.
    unfold stream_ends, mbind, M_bind, bind, modify.
    destruct e as [e|]; [rewrite CDPClientSpec.receive_loop_except_eq|]; simpl;
      (split; [discriminate|]; eexists; simpl; split; [reflexivity|]; simpl;
       repeat split; [assumption..|discriminate]).
  - right. rewrite CDPClientSpec.disconnect_eq. simpl. split; [discriminate|].
    rewrite Hws. simpl. eexists. split; [destruct (receive_task c); reflexivity|].
    simpl. repeat split; [assumption..|discriminate].
Qed.

Lemma run_wire (acts : list action) (s : system) (n : nat) :
  wire_count n s ->
  exists j : nat,
    issued (run acts s).2 = seqZ (Z.of_nat n + 1) (Z.of_nat j)
    /\ wire_count (n + j) (run acts s).1.1.
Proof.
  revert s n. induction acts as [|a acts IH]; intros s n Hn.
  - exists 0%nat. simpl. rewrite Nat.add_0_r. auto.
  - rewrite CDPClientSpec.run_cons. simpl.
    destruct (step_wire a s n Hn) as [[Hr Hn']|[Hr Hn']].
    + destruct (IH _ _ Hn') as (j & Hi & Hj). exists (S j).
      unfold issued in *. simpl. rewrite Hr. simpl. rewrite Hi.
      split.
      * rewrite (seqZ_cons _ (Z.of_nat (S j))) by lia. f_equal. f_equal; lia.
      * replace (n + S j)%nat with (S n + j)%nat by lia. exact Hj.
    + destruct (IH _ _ Hn') as (j & Hi & Hj). exists j.
      unfold issued in *. simpl.
      destruct ((step a s).2) as [k| | | |] eqn:Hk; simpl; auto.
      exfalso. apply (Hr k). reflexivity.
Qed.

(** In every run of a connected client, the frames written to the
    websocket carry, in the order written, exactly the ids given to the
    calls, and these are 1, 2, 3, ... without gap or repetition. *)
Theorem wire_ids_count_from_one (handlers : gmap string handler) (url : string)
    (acts : list action) :
  let s := (run acts (connected url handlers)).1.1 in
  let outs := (run acts (connected url handlers)).2 in
  omap frame_id (sent_frames (client s)) = issued outs
  /\ issued outs = seqZ 1 (Z.of_nat (length (sent_frames (client s)))).
Proof.
  intros s outs.
  assert (H0 : wire_count 0 (connected url handlers)).
  { eexists. simpl. split; [reflexivity|]. simpl. repeat split. }
  destruct (run_wire acts _ 0 H0) as (j & Hi & (w & Hws & Hids & Hlen & _)).
  fold s in Hws. fold outs in Hi. simpl in Hi, Hids, Hlen.
  unfold sent_frames. rewrite Hws, Hi, Hids, Hlen. auto.
Qed.

(** *** The table and the waiting calls *)

Lemma step_waiting_has_future (a : action) (s : system) :
  (forall j, is_Some (waiting s !! j) -> is_Some (pending_responses (client s) !! j)) ->
  forall j, is_Some (waiting (step a s).1.1 !! j) ->
            is_Some (pending_responses (client (step a s).1.1) !! j).
Proof.
  intros H j. destruct s as [c wt]. simpl in H.
  destruct a as [method params|m|k|k|k|e|]; simpl.
  - destruct (CDPClientSpec.send_command_send_cases method params c)
      as [(_ & e & ->)|[(e & ->)|(w & ->)]]; simpl.
    + apply H.
    + intros Hj. destruct (decide (j = msg_id c + 1)) as [->|Hne].
      * rewrite lookup_insert_eq. eauto.
      * rewrite lookup_insert_ne by auto. apply H, Hj.
    + destruct (decide (j = msg_id c + 1)) as [->|Hne].
      * rewrite !lookup_insert_eq. eauto.
      * rewrite !lookup_insert_ne by auto. apply H.
  - destruct (receive_task c) as [[]|]; simpl; try apply H.
    destruct (CDPClientSpec.deliver_cases m c)
      as [(pd & task & out & ->)|(data & k & -> & Hk & Hp & ->)]; simpl; [apply H|].
    intros Hj. destruct (decide (j = k)) as [->|Hne].
    + rewrite lookup_insert_eq. eauto.
    + rewrite lookup_insert_ne by auto. apply H, Hj.
  - destruct (wt !! k) as [method|] eqn:Hw; simpl; [|apply H].
    destruct (pending_responses c !! k) as [fut|] eqn:Hp; simpl; [|apply H].
    intros Hj. destruct (decide (j = k)) as [->|Hne].
    + rewrite lookup_insert_eq. eauto.
    + rewrite lookup_insert_ne by auto. apply H, Hj.
  - destruct (wt !! k) as [method|] eqn:Hw; simpl; [|apply H].
    destruct (pending_responses c !! k) as [fut|] eqn:Hp; simpl; [|apply H].
    destruct (wait_for fut) as [wk|]; cbn beta iota; [|apply H].
    rewrite (CDPClientSpec.send_command_wait_present method k _ c fut Hp). simpl.
    destruct (decide (j = k)) as [->|Hne].
    + rewrite lookup_delete_eq. intros [? [=]].
    + rewrite !lookup_delete_ne by auto. apply H.
  - destruct (wt !! k) as [method|] eqn:Hw; simpl; [|apply H].
    destruct (pending_responses c !! k) as [fut|] eqn:Hp; simpl; [|apply H].
    destruct (decide (j = k)) as [->|Hne].
    + rewrite lookup_delete_eq. intros [? [=]].
    + rewrite lookup_delete_ne, lookup_insert_ne by auto. apply H.
  - destruct (receive_task c) as [[]|]; simpl; try apply H.
    destruct (ws c) as [w|]; simpl; [|apply H].
    unfold stream_ends, mbind, M_bind, bind, modify.
    destruct e as [e|]; [rewrite CDPClientSpec.receive_loop_except_eq|]; simpl; apply H.
  - rewrite CDPClientSpec.disconnect_eq. simpl. apply H.
Qed.

Lemma step_keys_positive (a : action) (s : system) :
  0 <= msg_id (client s) ->
  (forall j, is_Some (pending_responses (client s) !! j) -> 1 <= j) ->
  0 <= msg_id (client (step a s).1.1)
  /\ forall j, is_Some (pending_responses (client (step a s).1.1) !! j) -> 1 <= j.
Proof.
  intros H0 H. pose proof (CDPClientSpec.step_msg_id a s) as Hm. simpl in Hm.
  split; [lia|]. intros j Hj.
  destruct (CDPClientSpec.step_pending a s j)
    as [Heq|[(m & p & -> & -> & Hid & Hnew)|[(data & -> & Hr & Hold & Hnew)
       |[[-> Hnone]|(_ & Hold & Hnew)]]]].
  - rewrite Heq in Hj. auto.
  - lia.
  - apply H. rewrite Hold. eauto.
  - rewrite Hnone in Hj. destruct Hj as [? [=]].
  - apply H. rewrite Hold. eauto.
Qed.

(** In every run of a connected client: the keys of [pending_responses]
    are ids that were handed out (between 1 and [msg_id]), and every call
    suspended in [wait_for] has its future in the table, so that its
    [del self.pending_responses[msg_id]] finds the key. *)
Theorem pending_table_invariant (handlers : gmap string handler) (url : string)
    (acts : list action) :
  let s := (run acts (connected url handlers)).1.1 in
  (forall j, is_Some (pending_responses (client s) !! j) ->
             1 <= j <= msg_id (client s))
  /\ (forall j, is_Some (waiting s !! j) ->
                is_Some (pending_responses (client s) !! j)).
Proof.
  assert (Hgen : forall acts s0,
             0 <= msg_id (client s0) ->
             (forall j, is_Some (pending_responses (client s0) !! j) -> 1 <= j) ->
             (forall j, is_Some (waiting s0 !! j) ->
                        is_Some (pending_responses (client s0) !! j)) ->
             (forall j, is_Some (pending_responses (client (run acts s0).1.1) !! j) -> 1 <= j)
             /\ (forall j, is_Some (waiting (run acts s0).1.1 !! j) ->
                   is_Some (pending_responses (client (run acts s0).1.1) !! j))).
  { clear acts. intros acts. induction acts as [|a acts IH]; intros s0 H0 H1 H2.
    - split; assumption.
    - rewrite CDPClientSpec.run_cons. simpl.
      destruct (step_keys_positive a s0 H0 H1) as [H0' H1'].
      apply IH; [assumption|assumption|].
      apply step_waiting_has_future, H2. }
  intros s.
  assert (Hempty : forall j : Z,
             is_Some (pending_responses (client (connected url handlers)) !! j) -> False).
  { intros j Hj. simpl in Hj. rewrite lookup_empty in Hj. destruct Hj as [? [=]]. }
  destruct (Hgen acts (connected url handlers)) as [Hpos Hwait].
  - simpl. lia.
  - intros j Hj. destruct (Hempty j Hj).
  - intros j Hj. simpl in Hj. rewrite lookup_empty in Hj. destruct Hj as [? [=]].
  - split; [|exact Hwait].
    intros j Hj. split; [apply Hpos, Hj|].
    apply (CDPClientSpec.run_bounded acts (connected url handlers));
      [intros i Hi; destruct (Hempty i Hi)|exact Hj].
Qed.

End ClientFacts.

(** * Further properties of [CDPConnectionManager] *)

Module ManagerFacts.
Import CDPConnectionManager.

Lemma dict_set_absent {V} (key : string) (v : V) (d : list (string * V)) :
  dict_get key d = None -> dict_set key v d = d ++ [(key, v)].
Proof.
  induction d as [|[k v'] d IH]; simpl; [reflexivity|].
  destruct (String.eqb k key); [discriminate|]. intros H. rewrite IH; auto.
Qed.

Lemma connect_existing (m : t) (connection_id host : string) (port : Z)
    (env : CDPClient.connect_env) :
  dict_in connection_id (connections m) = true ->
  connect connection_id host port env m
  = (m, [], inr [Lit "Error: Connection '"; Lit connection_id;
                 Lit "' already exists. Use chrome_disconnect first."]).
Proof.
  intros Hin. unfold connect, mbind, M_bind, bind, gets. simpl. rewrite Hin. reflexivity.
Qed.

Lemma connect_failed (m : t) (connection_id host : string) (port : Z)
    (env : CDPClient.connect_env) (e : exn) :
  dict_in connection_id (connections m) = false ->
  env = CDPClient.DiscoveryFails e \/ (exists url, env = CDPClient.SocketFails url e) ->
  is_Exception e = true ->
  connect connection_id host port env m
  = (m, [],
     inl (RuntimeError
            [Lit "Failed to connect to Chrome at "; Lit host; Lit ":";
             Str (JInt port); Lit ": ";
             StrExn (RuntimeError
                       [Lit "Failed to connect to Chrome CDP at "; Lit host;
                        Lit ":"; Str (JInt port); Lit ": "; StrExn e])])).
Proof.
  intros Hin Henv He. unfold connect, mbind, M_bind, bind, gets. simpl.
  rewrite Hin. simpl.
  destruct Henv as [->|[url ->]];
    unfold try_except, on_object, CDPClient.connect, try_except, mbind, M_bind,
      bind, modify, raise; simpl; rewrite He; reflexivity.
Qed.

(** [connect] with an id that is already connected returns the
    "already exists" message without trying to connect; a [connect] that
    fails raises "Failed to connect to Chrome at host:port: ...". In both
    cases the registry is left as it was. *)
Theorem connect_refused_or_failed (m : t) (connection_id host : string) (port : Z)
    (env : CDPClient.connect_env) (e : exn) :
  (dict_in connection_id (connections m) = true ->
   connect connection_id host port env m
   = (m, [], inr [Lit "Error: Connection '"; Lit connection_id;
                  Lit "' already exists. Use chrome_disconnect first."]))
  /\ (dict_in connection_id (connections m) = false ->
      env = CDPClient.DiscoveryFails e \/ (exists url, env = CDPClient.SocketFails url e) ->
      is_Exception e = true ->
      connect connection_id host port env m
      = (m, [],
         inl (RuntimeError
                [Lit "Failed to connect to Chrome at "; Lit host; Lit ":";
                 Str (JInt port); Lit ": ";
                 StrExn (RuntimeError
                           [Lit "Failed to connect to Chrome CDP at "; Lit host;
                            Lit ":"; Str (JInt port); Lit ": "; StrExn e])]))).
Proof.
  split; [apply connect_existing|apply connect_failed].
Qed.

Lemma connect_refused_or_failed_witness :
  connect "default" "localhost" 9222 (CDPClient.SocketOpens "ws://other")
    (Examples.registry (CDPClient.client Examples.busy))
  = (Examples.registry (CDPClient.client Examples.busy), [],
     inr [Lit "Error: Connection '"; Lit "default";
          Lit "' already exists. Use chrome_disconnect first."])
  /\ (connect "b" "localhost" 9333 (CDPClient.DiscoveryFails ConnectionClosed)
        (Examples.registry (CDPClient.client Examples.busy))).1.1
     = Examples.registry (CDPClient.client Examples.busy).
Proof.
  split.
  - apply (proj1 (connect_refused_or_failed
                    (Examples.registry (CDPClient.client Examples.busy))
                    "default" "localhost" 9222 (CDPClient.SocketOpens "ws://other")
                    ConnectionClosed)).
    reflexivity.
  - rewrite (proj2 (connect_refused_or_failed
                      (Examples.registry (CDPClient.client Examples.busy))
                      "b" "localhost" 9333 (CDPClient.DiscoveryFails ConnectionClosed)
                      ConnectionClosed) eq_refl (or_introl eq_refl) eq_refl).
    reflexivity.
Defined.

(** A [connect] that succeeds under a new id puts a fresh client at the end
    of [connections]: websocket open with nothing written, receive task
    running, no pending request, not paused. The connections that were
    there are untouched, and the new one becomes active only when there
    was no active connection. *)
Theorem connect_success (m : t) (connection_id host url : string) (port : Z) :
  dict_in connection_id (connections m) = false ->
  let cdp := CDPClient.mk (Some {| CDPClient.closed := false; CDPClient.sent := [] |})
               (Some url) 0 ∅ JNull ∅ (Some CDPClient.Running) [] in
  let m' := {| connections := connections m ++ [(connection_id, cdp)];
               active_connection_id :=
                 match active_connection_id m with
                 | None => Some connection_id
                 | Some a => Some a
                 end |} in
  connect connection_id host port (CDPClient.SocketOpens url) m
  = (m', [[Lit "Connected to Chrome CDP: "; Lit url]],
     inr [Lit "✓ Connected to Chrome at "; Lit host; Lit ":"; Str (JInt port);
          Lit " (ID: "; Lit connection_id; Lit ")"])
  /\ get_connection (Some connection_id) m' = Some (connection_id, cdp)
  /\ (forall k, k <> connection_id ->
                get_connection (Some k) m' = get_connection (Some k) m).
Proof.
  intros Hin cdp m'.
  assert (Hnone : dict_get connection_id (connections m) = None)
    by (apply ManagerSpec.dict_in_false; exact Hin).
  assert (Happ : connections m ++ [(connection_id, cdp)]
                 = dict_set connection_id cdp (connections m))
    by (symmetry; apply dict_set_absent, Hnone).
  split; [|split].
  - unfold m'. rewrite Happ.
    unfold connect, mbind, M_bind, bind, gets. cbn beta iota. rewrite Hin.
    destruct m as [conns [a|]]; reflexivity.
  - unfold get_connection, get, m'. cbn [connections]. rewrite Happ.
    rewrite ManagerSpec.dict_get_set_eq. reflexivity.
  - intros k Hk. unfold get_connection, get, m'. cbn [connections]. rewrite Happ.
    rewrite ManagerSpec.dict_get_set_ne by assumption. reflexivity.
Qed.

Lemma connect_success_witness :
  (connect "main" "localhost" 9222 (CDPClient.SocketOpens "ws://page/1") init).1.1
  = {| connections :=
         [("main", CDPClient.mk
                     (Some {| CDPClient.closed := false; CDPClient.sent := [] |})
                     (Some "ws://page/1") 0 ∅ JNull ∅ (Some CDPClient.Running) [])];
       active_connection_id := Some "main" |}.
Proof.
  rewrite (proj1 (connect_success init "main" "localhost" "ws://page/1" 9222 eq_refl)).
  reflexivity.
Defined.

Lemma registry_invariant_one (cdp : CDPClient.t) : invariant (Examples.registry cdp).
Proof.
  split; simpl.
  - apply NoDup_singleton.
  - intros id [= <-]. reflexivity.
Qed.

Lemma registry_invariant_two (c1 c2 : CDPClient.t) :
  invariant {| connections := [("default", c1); ("staging", c2)];
               active_connection_id := Some "default" |}.
Proof.
  split; simpl.
  - apply NoDup_cons. split; [|apply NoDup_singleton].
    intros Hin. apply list_elem_of_singleton in Hin. discriminate.
  - intros id [= <-]. reflexivity.
Qed.

(** [switch_active] with an unknown id returns "not found" and changes
    nothing. With a known id it makes it the active one, and then
    [get_connection(None)] is that connection, except for the empty id ""
    which [get_active] takes for no id at all: it resolves to nothing. *)
Theorem switch_active_resolution (m : t) (connection_id : string) :
  (dict_get connection_id (connections m) = None ->
   switch_active connection_id m
   = (m, [], inr [Lit "Error: Connection '"; Lit connection_id; Lit "' not found"]))
  /\ (forall cdp,
        dict_get connection_id (connections m) = Some cdp ->
        let m' := set_active_connection_id (Some connection_id) m in
        switch_active connection_id m
        = (m', [], inr [Lit "✓ Switched to connection '"; Lit connection_id; Lit "'"])
        /\ get_connection None m'
           = if String.eqb connection_id "" then None else Some (connection_id, cdp)).
Proof.
  split.
  - intros Hget. unfold switch_active, mbind, M_bind, bind, gets. simpl.
    rewrite (proj2 (ManagerSpec.dict_in_false _ _) Hget). reflexivity.
  - intros cdp Hget m'. split.
    + unfold switch_active, mbind, M_bind, bind, gets. simpl.
      assert (Hin : dict_in connection_id (connections m) = true)
        by (apply ManagerSpec.dict_in_true; eauto).
      rewrite Hin. reflexivity.
    + unfold get_connection, get_active, get, m'. simpl.
      destruct (String.eqb connection_id ""); simpl; [reflexivity|].
      rewrite Hget. reflexivity.
Qed.

Lemma switch_active_resolution_witness :
  get_connection None
    (set_active_connection_id (Some "")
       {| connections := [("", CDPClient.client Examples.busy)];
          active_connection_id := None |})
  = None
  /\ switch_active "staging" (Examples.registry (CDPClient.client Examples.busy))
     = (Examples.registry (CDPClient.client Examples.busy), [],
        inr [Lit "Error: Connection '"; Lit "staging"; Lit "' not found"]).
Proof.
  split.
  - apply (proj2 (proj2 (switch_active_resolution
                           {| connections := [("", CDPClient.client Examples.busy)];
                              active_connection_id := None |} "")
                    (CDPClient.client Examples.busy) eq_refl)).
  - apply (proj1 (switch_active_resolution
                    (Examples.registry (CDPClient.client Examples.busy)) "staging")).
    reflexivity.
Defined.

(** [disconnect] of a connection that is not the active one: it is
    removed from the registry, the active id stays, and every other
    connection is as before. With an unknown id, [disconnect] returns
    "not found" and changes nothing. *)
Theorem disconnect_other (m : t) (connection_id : string) :
  invariant m ->
  (dict_get connection_id (connections m) = None ->
   disconnect connection_id m
   = (m, [], inr [Lit "Error: Connection '"; Lit connection_id; Lit "' not found"]))
  /\ (forall cdp,
        dict_get connection_id (connections m) = Some cdp ->
        active_connection_id m <> Some connection_id ->
        exists m',
          disconnect connection_id m
          = (m', [], inr [Lit "✓ Disconnected from '"; Lit connection_id; Lit "'"])
          /\ active_connection_id m' = active_connection_id m
          /\ dict_get connection_id (connections m') = None
          /\ forall k, k <> connection_id ->
                       dict_get k (connections m') = dict_get k (connections m)).
Proof.
  intros [Hnd Hact]. split.
  - apply ManagerSpec.disconnect_unknown.
  - intros cdp Hget Hne.
    assert (Hin : dict_in connection_id (connections m) = true)
      by (apply ManagerSpec.dict_in_true; eauto).
    eexists. split; [|split; [|split]].
    + unfold disconnect, mbind, M_bind, bind, gets, on_client. simpl.
      rewrite Hin. simpl. rewrite Hget, CDPClientSpec.disconnect_eq. simpl.
      rewrite bool_decide_eq_false_2 by exact Hne. reflexivity.
    + reflexivity.
    + simpl. apply ManagerSpec.dict_get_del_eq, ManagerSpec.dict_set_NoDup, Hnd.
    + intros k Hk. simpl.
      rewrite ManagerSpec.dict_get_del_ne, ManagerSpec.dict_get_set_ne by assumption.
      reflexivity.
Qed.

Lemma disconnect_other_witness :
  let m := {| connections := [("default", CDPClient.client Examples.busy);
                              ("staging", CDPClient.client Examples.paused)];
              active_connection_id := Some "default" |} in
  disconnect "test" m
  = (m, [], inr [Lit "Error: Connection '"; Lit "test"; Lit "' not found"])
  /\ exists m',
       disconnect "staging" m
       = (m', [], inr [Lit "✓ Disconnected from '"; Lit "staging"; Lit "'"])
       /\ active_connection_id m' = Some "default"
       /\ dict_get "staging" (connections m') = None
       /\ dict_get "default" (connections m') = Some (CDPClient.client Examples.busy).
Proof.
  intros m. split.
  - apply (proj1 (disconnect_other m "test" (registry_invariant_two _ _))).
    reflexivity.
  - destruct (proj2 (disconnect_other m "staging" (registry_invariant_two _ _))
                (CDPClient.client Examples.paused) eq_refl)
      as (m' & H1 & H2 & H3 & H4); [discriminate|].
    exists m'. split; [exact H1|]. split; [exact H2|]. split; [exact H3|].
    rewrite (H4 "default") by discriminate. reflexivity.
Defined.

(** [disconnect_all] empties the registry whatever it held: afterwards no
    id resolves, with or without a connection id, and an id that was in
    use can be connected again. *)
Theorem disconnect_all_clears (m : t) (connection_id host url : string) (port : Z)
    (resolve : option string) :
  let m' := (disconnect_all m).1.1 in
  disconnect_all m = ({| connections := []; active_connection_id := None |}, [], inr tt)
  /\ get_connection resolve m' = None
  /\ active_connection_id
       (connect connection_id host port (CDPClient.SocketOpens url) m').1.1
     = Some connection_id.
Proof.
  intros m'. unfold m'. rewrite ManagerSpec.disconnect_all_state. simpl.
  split; [reflexivity|]. split.
  - destruct resolve; reflexivity.
  - reflexivity.
Qed.

(** *** [list_connections] *)

Lemma list_connections_foldl (active : option string)
    (l acc : list (string * CDPClient.t)) (res : list (string * json)) :
  NoDup (fst <$> l) ->
  (forall k, k ∈ (fst <$> l) -> dict_get k res = None) ->
  foldl (fun result '(conn_id, cdp) =>
           dict_set conn_id (connection_info active conn_id cdp) result) res l
  = res ++ ((fun '(conn_id, cdp) => (conn_id, connection_info active conn_id cdp)) <$> l).
Proof.
  revert res. induction l as [|[k cdp] l IH]; intros res Hnd Hfresh.
  - simpl. rewrite app_nil_r. reflexivity.
  - rewrite fmap_cons in Hnd. apply NoDup_cons in Hnd as [Hk Hnd]. simpl.
    rewrite IH.
    + rewrite dict_set_absent by (apply Hfresh; rewrite fmap_cons; apply list_elem_of_here).
      rewrite <- app_assoc. reflexivity.
    + exact Hnd.
    + intros j Hj. rewrite ManagerSpec.dict_get_set_ne.
      * apply Hfresh. rewrite fmap_cons. apply list_elem_of_further, Hj.
      * intros ->. contradiction.
Qed.

(** Under the registry invariant, [list_connections] has one entry per
    connection, in the order of [connections]: the entry of a connection
    gives its URL, says "active" exactly for the active id (so at most one
    entry is active) and says "paused" exactly when [paused_data] is not
    [None]. *)
Theorem list_connections_entries (m : t) :
  invariant m ->
  list_connections m
  = (fun '(conn_id, cdp) =>
       (conn_id, connection_info (active_connection_id m) conn_id cdp)) <$> connections m
  /\ fst <$> list_connections m = fst <$> connections m
  /\ forall conn_id cdp,
       dict_get conn_id (connections m) = Some cdp ->
       dict_get conn_id (list_connections m)
       = Some (JDict [("url", Py.of_optional (CDPClient.ws_url cdp));
                      ("active", JBool (bool_decide (Some conn_id = active_connection_id m)));
                      ("paused", JBool (negb (Py.is_None (CDPClient.paused_data cdp))))]).
Proof.
  intros [Hnd _].
  assert (Heq : list_connections m
                = (fun '(conn_id, cdp) =>
                     (conn_id, connection_info (active_connection_id m) conn_id cdp))
                    <$> connections m).
  { unfold list_connections.
    rewrite (list_connections_foldl _ _ (connections m) []); [reflexivity|exact Hnd|].
    reflexivity. }
  split; [exact Heq|]. rewrite Heq. split.
  - rewrite <- list_fmap_compose. apply list_fmap_ext. intros i [k cdp] _. reflexivity.
  - intros conn_id cdp. generalize (connections m). intros l.
    induction l as [|[k c] l IH]; simpl; [discriminate|].
    destruct (String.eqb_spec k conn_id) as [->|Hne].
    + intros [= ->]. reflexivity.
    + exact IH.
Qed.

Lemma list_connections_entries_witness :
  list_connections (Examples.registry (CDPClient.client Examples.paused))
  = [("default", JDict [("url", JStr "ws://localhost:9222/page/1");
                        ("active", JBool true); ("paused", JBool true)])].
Proof.
  rewrite (proj1 (list_connections_entries
                    (Examples.registry (CDPClient.client Examples.paused))
                    (registry_invariant_one _))).
  reflexivity.
Defined.

End ManagerFacts.

(** * Further properties of the tools *)

Module ToolsFacts.
Import CDPConnectionManager Tools.

(** What a whole [send_command] is on an open websocket. *)
Lemma send_command_open (c : CDPClient.t) (w : CDPClient.WebSocket)
    (method : string) (params : json) (reply : option json) :
  CDPClient.ws c = Some w ->
  CDPClient.closed w = false ->
  let k := CDPClient.msg_id c + 1 in
  let frame := JDict [("id", JInt k); ("method", JStr method);
                      ("params", Py.or_ params (JDict []))] in
  CDPClient.send_command method params reply c
  = (CDPClient.set_pending_responses (delete k (CDPClient.pending_responses c))
       (CDPClient.set_ws
          (Some {| CDPClient.closed := false; CDPClient.sent := CDPClient.sent w ++ [frame] |})
          (CDPClient.set_msg_id k c)),
     [],
     match reply with
     | Some response =>
         match Py.contains "error" response with
         | inl e => inl e
         | inr true =>
             match Py.getitem response "error" with
             | inl e => inl e
             | inr error => inl (RuntimeError [Lit "CDP error: "; Str error])
             end
         | inr false => Py.get response "result" (JDict [])
         end
     | None => inl (RuntimeError [Lit "CDP command timeout: "; Lit method])
     end).
Proof.
  intros Hws Hcl k frame. unfold CDPClient.send_command, mbind, M_bind, bind.
  rewrite (CDPClientSpec.send_command_send_open c w method params Hws Hcl).
  fold k frame. cbv beta iota.
  erewrite CDPClientSpec.send_command_wait_present by (simpl; apply lookup_insert_eq).
  simpl. rewrite delete_insert_eq. destruct reply; reflexivity.
Qed.

(** Resolving again after the resolved client has been updated. *)
Lemma get_connection_updated (connection_id : option string) (m : t) (key : string)
    (cdp cdp' : CDPClient.t) :
  get_connection connection_id m = Some (key, cdp) ->
  get_connection connection_id
    (set_connections (dict_set key cdp' (connections m)) m) = Some (key, cdp').
Proof.
  unfold get_connection, get_active, get. simpl.
  destruct connection_id as [id|].
  - destruct (dict_get id (connections m)) eqn:E; simpl; intros [= <- <-].
    rewrite ManagerSpec.dict_get_set_eq. reflexivity.
  - destruct (active_connection_id m) as [id|]; [|discriminate].
    destruct (negb (String.eqb id "")); [|discriminate].
    destruct (dict_get id (connections m)) eqn:E; simpl; intros [= <- <-].
    rewrite ManagerSpec.dict_get_set_eq. reflexivity.
Qed.

(** Every debugger tool called when no connection resolves (no such id, or
    no id given and no active connection) returns the "No Chrome
    connection" message and does nothing else. *)
Theorem no_connection_reported (m : t) (connection_id : option string)
    (reply : option json) :
  get_connection connection_id m = None ->
  let answer := (m, @nil fstring, @inr exn fstring (no_connection connection_id)) in
  (forall op, run_op op connection_id reply m = answer)
  /\ (forall url line column condition,
        debugger_set_breakpoint url line column condition connection_id reply m = answer)
  /\ (forall breakpoint_id,
        debugger_remove_breakpoint breakpoint_id connection_id reply m = answer)
  /\ (forall state,
        debugger_set_pause_on_exceptions state connection_id reply m = answer)
  /\ debugger_enable connection_id reply m = answer
  /\ debugger_pause connection_id reply m = answer
  /\ debugger_get_call_stack connection_id m = answer.
Proof.
  intros Hnone answer.
  repeat split; intros;
    try match goal with op : paused_op |- _ => destruct op end;
    unfold run_op, debugger_resume, debugger_step_over, debugger_step_into,
      debugger_step_out, debugger_evaluate_on_call_frame, debugger_set_breakpoint,
      debugger_remove_breakpoint, debugger_set_pause_on_exceptions, debugger_enable,
      debugger_pause, debugger_get_call_stack, mbind, M_bind, bind, gets;
    cbn beta iota; rewrite Hnone; reflexivity.
Qed.

Lemma no_connection_reported_witness :
  debugger_enable (Some "staging") None init
  = (init, [],
     inr [Lit "Error: No Chrome connection"; Lit " '"; Lit "staging"; Lit "'";
          Lit " found. Use chrome_connect() or chrome_launch() first."]).
Proof.
  apply (proj1 (proj2 (proj2 (proj2 (proj2
           (no_connection_reported init (Some "staging") None eq_refl)))))).
Defined.

Lemma on_client_run {A} (key : string) (body : M CDPClient.t A) (m : t)
    (cdp : CDPClient.t) :
  dict_get key (connections m) = Some cdp ->
  on_client key body m
  = match body cdp with
    | (cdp', out, r) => (set_connections (dict_set key cdp' (connections m)) m, out, r)
    end.
Proof. intros H. unfold on_client. rewrite H. reflexivity. Qed.

(** [debugger_set_pause_on_exceptions] on a resolved connection: a state
    other than "none", "uncaught" and "all" is refused with an error
    message and nothing is sent; with one of the three, the command is
    written with that state, and a response without error gives the
    confirmation for that state. *)
Theorem pause_on_exceptions_validated (m : t) (connection_id : option string)
    (key : string) (cdp : CDPClient.t) (state : string) :
  get_connection connection_id m = Some (key, cdp) ->
  (state <> "none" -> state <> "uncaught" -> state <> "all" ->
   forall reply,
     debugger_set_pause_on_exceptions state connection_id reply m
     = (m, [], inr [Lit "Error: state must be 'none', 'uncaught', or 'all' (got '";
                    Lit state; Lit "')"]))
  /\ (forall w response,
        state = "none" \/ state = "uncaught" \/ state = "all" ->
        CDPClient.ws cdp = Some w ->
        CDPClient.closed w = false ->
        Py.assoc "error" response = None ->
        let k := CDPClient.msg_id cdp + 1 in
        let frame := JDict [("id", JInt k);
                            ("method", JStr "Debugger.setPauseOnExceptions");
                            ("params", JDict [("state", JStr state)])] in
        let cdp' := CDPClient.set_pending_responses
                      (delete k (CDPClient.pending_responses cdp))
                      (CDPClient.set_ws
                         (Some {| CDPClient.closed := false;
                                  CDPClient.sent := CDPClient.sent w ++ [frame] |})
                         (CDPClient.set_msg_id k cdp)) in
        exists message,
          pause_on_exceptions_message state = inr message
          /\ debugger_set_pause_on_exceptions state connection_id
               (Some (JDict response)) m
             = (set_connections (dict_set key cdp' (connections m)) m, [],
                inr [Lit "✓ Exception breaking configured"; Lit NL; Lit NL; Lit message])).
Proof.
  intros Hconn.
  pose proof (ToolsSpec.get_connection_stored _ _ _ _ Hconn) as Hget.
  split.
  - intros H1 H2 H3 reply.
    unfold debugger_set_pause_on_exceptions, mbind, M_bind, bind, gets.
    cbn beta iota. rewrite Hconn. cbn beta iota.
    apply String.eqb_neq in H1, H2, H3. simpl. rewrite H1, H2, H3. reflexivity.
  - intros w response Hstate Hws Hcl Herr k frame cdp'.
    assert (Hvalid : existsb (String.eqb state) ["none"; "uncaught"; "all"] = true)
      by (destruct Hstate as [ -> | [ -> | -> ] ]; reflexivity).
    assert (Hmsg : exists message, pause_on_exceptions_message state = inr message)
      by (destruct Hstate as [ -> | [ -> | -> ] ]; eexists; reflexivity).
    destruct Hmsg as [message Hmsg]. exists message. split; [exact Hmsg|].
    unfold debugger_set_pause_on_exceptions, mbind, M_bind, bind, gets.
    cbn beta iota. rewrite Hconn. cbn beta iota. rewrite Hvalid. cbn [negb].
    unfold try_except. rewrite (on_client_run key _ m cdp Hget).
    rewrite (send_command_open cdp w _ _ _ Hws Hcl).
    cbn [Py.contains]. rewrite Herr. cbn. unfold lift. rewrite Hmsg. reflexivity.
Qed.

Lemma pause_on_exceptions_validated_witness :
  debugger_set_pause_on_exceptions "sometimes" None None
    (Examples.registry (CDPClient.client Examples.busy))
  = (Examples.registry (CDPClient.client Examples.busy), [],
     inr [Lit "Error: state must be 'none', 'uncaught', or 'all' (got '";
          Lit "sometimes"; Lit "')"])
  /\ (debugger_set_pause_on_exceptions "all" None
        (Some (JDict [("id", JInt 2); ("result", JDict [])]))
        (Examples.registry (CDPClient.client Examples.busy))).2
     = inr [Lit "✓ Exception breaking configured"; Lit NL; Lit NL;
            Lit "Will pause on all exceptions (caught and uncaught)"].
Proof.
  split.
  - apply (proj1 (pause_on_exceptions_validated
                    (Examples.registry (CDPClient.client Examples.busy)) None "default"
                    (CDPClient.client Examples.busy) "sometimes" eq_refl));
      discriminate.
  - destruct (proj2 (pause_on_exceptions_validated
                       (Examples.registry (CDPClient.client Examples.busy)) None "default"
                       (CDPClient.client Examples.busy) "all" eq_refl)
                {| CDPClient.closed := false;
                   CDPClient.sent := [JDict [("id", JInt 1);
                                             ("method", JStr "Debugger.enable");
                                             ("params", JDict [])]] |}
                [("id", JInt 2); ("result", JDict [])]
                (or_intror (or_intror eq_refl)) eq_refl eq_refl eq_refl)
      as (message & Hm & ->).
    simpl. injection Hm as <-. reflexivity.
Defined.

(** [debugger_enable] and [debugger_pause] have no guard on the pause: on
    a resolved connection with an open websocket they write their command
    whatever [paused_data] is, and answer with their confirmation when the
    response has no error, or with an "Error ..." message carrying the
    timeout when none comes. *)
Theorem enable_and_pause_unguarded (m : t) (connection_id : option string)
    (key : string) (cdp : CDPClient.t) (w : CDPClient.WebSocket) :
  get_connection connection_id m = Some (key, cdp) ->
  CDPClient.ws cdp = Some w ->
  CDPClient.closed w = false ->
  let k := CDPClient.msg_id cdp + 1 in
  let sent method :=
    set_connections
      (dict_set key
         (CDPClient.set_pending_responses (delete k (CDPClient.pending_responses cdp))
            (CDPClient.set_ws
               (Some {| CDPClient.closed := false;
                        CDPClient.sent :=
                          CDPClient.sent w ++ [JDict [("id", JInt k); ("method", JStr method);
                                                      ("params", JDict [])]] |})
               (CDPClient.set_msg_id k cdp)))
         (connections m)) m in
  (forall response,
      Py.assoc "error" response = None ->
      (debugger_enable connection_id (Some (JDict response)) m).1
      = (sent "Debugger.enable", [])
      /\ debugger_pause connection_id (Some (JDict response)) m
         = (sent "Debugger.pause", [],
            inr [Lit "✓ Pause requested. Execution will pause at next statement."; Lit NL;
                 Lit "Use debugger_get_call_stack() once paused."]))
  /\ debugger_enable connection_id None m
     = (sent "Debugger.enable", [],
        inr [Lit "Error enabling debugger: "; Lit "CDP command timeout: ";
             Lit "Debugger.enable"])
  /\ debugger_pause connection_id None m
     = (sent "Debugger.pause", [],
        inr [Lit "Error pausing: "; Lit "CDP command timeout: "; Lit "Debugger.pause"]).
Proof.
  intros Hconn Hws Hcl k sent.
  pose proof (ToolsSpec.get_connection_stored _ _ _ _ Hconn) as Hget.
  repeat split; intros;
    unfold debugger_enable, debugger_pause, mbind, M_bind, bind, gets;
    cbn beta iota; rewrite Hconn; cbn beta iota;
    unfold try_except; rewrite (on_client_run key _ m cdp Hget);
    rewrite (send_command_open cdp w _ _ _ Hws Hcl);
    cbn [Py.contains]; try (rewrite H); reflexivity.
Qed.

Lemma enable_and_pause_unguarded_witness :
  (debugger_pause None None (Examples.registry (CDPClient.client Examples.busy))).2
  = inr [Lit "Error pausing: "; Lit "CDP command timeout: "; Lit "Debugger.pause"].
Proof.
  rewrite (proj2 (proj2 (enable_and_pause_unguarded
                           (Examples.registry (CDPClient.client Examples.busy)) None
                           "default" (CDPClient.client Examples.busy)
                           {| CDPClient.closed := false;
                              CDPClient.sent := [JDict [("id", JInt 1);
                                                        ("method", JStr "Debugger.enable");
                                                        ("params", JDict [])]] |}
                           eq_refl eq_refl eq_refl))).
  reflexivity.
Defined.

(** [chrome_connect] does not raise when connecting fails: it returns
    "Error connecting to Chrome: ..." with the hint for the port, and the
    registry is as before. With an id already connected it passes on the
    "already exists" message. *)
Theorem chrome_connect_reports_failure (m : t) (port : Z)
    (connection_id host : string) (env : CDPClient.connect_env) (e : exn) :
  (dict_in connection_id (connections m) = true ->
   chrome_connect port connection_id host env m
   = (m, [], inr [Lit "Error: Connection '"; Lit connection_id;
                  Lit "' already exists. Use chrome_disconnect first."]))
  /\ (dict_in connection_id (connections m) = false ->
      env = CDPClient.DiscoveryFails e \/ (exists url, env = CDPClient.SocketFails url e) ->
      is_Exception e = true ->
      chrome_connect port connection_id host env m
      = (m, [],
         inr [Lit "Error connecting to Chrome: ";
              Lit "Failed to connect to Chrome at "; Lit host; Lit ":";
              Str (JInt port); Lit ": ";
              StrExn (RuntimeError
                        [Lit "Failed to connect to Chrome CDP at "; Lit host;
                         Lit ":"; Str (JInt port); Lit ": "; StrExn e]);
              Lit NL; Lit NL; Lit "Make sure Chrome is running with:"; Lit NL;
              Lit "chrome --remote-debugging-port="; Str (JInt port)])).
Proof.
  split.
  - intros Hin. unfold chrome_connect, try_except.
    rewrite (ManagerFacts.connect_existing m connection_id host port env Hin).
    reflexivity.
  - intros Hin Henv He. unfold chrome_connect, try_except.
    rewrite (ManagerFacts.connect_failed m connection_id host port env e Hin Henv He).
    reflexivity.
Qed.

Lemma chrome_connect_reports_failure_witness :
  chrome_connect 9333 "b" "localhost" (CDPClient.DiscoveryFails ConnectionClosed) init
  = (init, [],
     inr [Lit "Error connecting to Chrome: ";
          Lit "Failed to connect to Chrome at "; Lit "localhost"; Lit ":";
          Str (JInt 9333); Lit ": ";
          StrExn (RuntimeError
                    [Lit "Failed to connect to Chrome CDP at "; Lit "localhost";
                     Lit ":"; Str (JInt 9333); Lit ": "; StrExn ConnectionClosed]);
          Lit NL; Lit NL; Lit "Make sure Chrome is running with:"; Lit NL;
          Lit "chrome --remote-debugging-port="; Str (JInt 9333)]).
Proof.
  apply (proj2 (chrome_connect_reports_failure init 9333 "b" "localhost"
                  (CDPClient.DiscoveryFails ConnectionClosed) ConnectionClosed)
           eq_refl (or_introl eq_refl) eq_refl).
Defined.

(** *** The breakpoints that are kept track of *)

Lemma get_assoc_set_str (b : string) (v : json) (d : list (json * json)) :
  Py.get_assoc (JStr b) (Py.set_assoc (JStr b) v d) = Some v.
Proof.
  induction d as [|[k v'] d IH]; simpl.
  - rewrite String.eqb_refl. reflexivity.
  - destruct (Py.key_eqb k (JStr b)) eqn:E; simpl; rewrite E; auto.
Qed.

Lemma del_set_absent (b : string) (v : json) (d : list (json * json)) :
  Py.get_assoc (JStr b) d = None ->
  Py.del_assoc (JStr b) (Py.set_assoc (JStr b) v d) = d.
Proof.
  induction d as [|[k v'] d IH]; simpl.
  - rewrite String.eqb_refl. reflexivity.
  - destruct (Py.key_eqb k (JStr b)) eqn:E; [discriminate|]. simpl. rewrite E.
    intros H. rewrite IH; auto.
Qed.

Lemma del_assoc_absent (k : json) (d : list (json * json)) :
  Py.get_assoc k d = None -> Py.del_assoc k d = d.
Proof.
  induction d as [|[k' v'] d IH]; simpl; [reflexivity|].
  destruct (Py.key_eqb k' k); [discriminate|]. intros H. rewrite IH; auto.
Qed.

Lemma except_return_ok {S} (prefix : string) (e : exn) (s : S) :
  is_Exception e = true ->
  except_return prefix e s = (s, [], inr (Lit prefix :: str_exn e)).
Proof. intros H. unfold except_return. rewrite H. reflexivity. Qed.

(** The client after the [send_command] of [debugger_set_breakpoint]. *)
Lemma set_breakpoint_run (m : t) (url : string) (line_number column_number : Z)
    (condition : option string) (connection_id : option string) (key : string)
    (cdp : CDPClient.t) (w : CDPClient.WebSocket) (reply : option json) :
  get_connection connection_id m = Some (key, cdp) ->
  CDPClient.ws cdp = Some w ->
  CDPClient.closed w = false ->
  let cond := Py.of_optional condition in
  let params := [("url", JStr url); ("lineNumber", JInt (line_number - 1));
                 ("columnNumber", JInt column_number)]
                ++ (if Py.truthy cond then [("condition", cond)] else []) in
  let k := CDPClient.msg_id cdp + 1 in
  let frame := JDict [("id", JInt k); ("method", JStr "Debugger.setBreakpointByUrl");
                      ("params", JDict params)] in
  let sent := CDPClient.set_pending_responses (delete k (CDPClient.pending_responses cdp))
                (CDPClient.set_ws
                   (Some {| CDPClient.closed := false;
                            CDPClient.sent := CDPClient.sent w ++ [frame] |})
                   (CDPClient.set_msg_id k cdp)) in
  let info := JDict [("url", JStr url); ("lineNumber", JInt line_number);
                     ("columnNumber", JInt column_number); ("condition", cond)] in
  (forall e,
      match reply with
      | Some response =>
          match Py.contains "error" response with
          | inl e => inl e
          | inr true =>
              match Py.getitem response "error" with
              | inl e => inl e
              | inr error => inl (RuntimeError [Lit "CDP error: "; Str error])
              end
          | inr false => Py.get response "result" (JDict [])
          end
      | None => inl (RuntimeError [Lit "CDP command timeout: "; Lit "Debugger.setBreakpointByUrl"])
      end = inl e ->
      is_Exception e = true ->
      debugger_set_breakpoint url line_number column_number condition connection_id reply m
      = (set_connections (dict_set key sent (connections m)) m, [],
         inr (Lit "Error setting breakpoint: " :: str_exn e)))
  /\ (forall response result breakpoint_id,
        reply = Some (JDict response) ->
        Py.assoc "error" response = None ->
        Py.assoc "result" response = Some (JDict result) ->
        Py.assoc "breakpointId" result = Some (JStr breakpoint_id) ->
        exists answer,
          debugger_set_breakpoint url line_number column_number condition
            connection_id reply m
          = (set_connections
               (dict_set key
                  (CDPClient.set_breakpoints
                     (Py.set_assoc (JStr breakpoint_id) info (CDPClient.breakpoints cdp))
                     sent)
                  (connections m)) m, [], inr answer)).
Proof.
  intros Hconn Hws Hcl cond params k frame sent info.
  pose proof (ToolsSpec.get_connection_stored _ _ _ _ Hconn) as Hget.
  assert (Hp : (if Py.truthy cond
                then [("url", JStr url); ("lineNumber", JInt (line_number - 1));
                      ("columnNumber", JInt column_number)] ++ [("condition", cond)]
                else [("url", JStr url); ("lineNumber", JInt (line_number - 1));
                      ("columnNumber", JInt column_number)]) = params)
    by (unfold params; destruct (Py.truthy cond); reflexivity).
  assert (Hor : Py.or_ (JDict params) (JDict []) = JDict params) by reflexivity.
  split.
  - intros e He Hexn.
    unfold debugger_set_breakpoint, mbind, M_bind, bind, gets.
    cbn beta iota zeta. rewrite Hconn. cbn beta iota.
    unfold try_except. rewrite (on_client_run key _ m cdp Hget).
    fold cond. rewrite Hp.
    rewrite (send_command_open cdp w _ _ _ Hws Hcl), Hor, He.
    fold k frame sent. unfold except_return. rewrite Hexn. reflexivity.
  - intros response result breakpoint_id -> Herr Hres Hbp.
    unfold debugger_set_breakpoint, mbind, M_bind, bind, gets.
    cbn beta iota zeta. rewrite Hconn. cbn beta iota.
    unfold try_except. rewrite (on_client_run key _ m cdp Hget).
    fold cond. rewrite Hp.
    rewrite (send_command_open cdp w _ _ _ Hws Hcl), Hor.
    fold k frame sent.
    unfold lift, modify, mret, M_ret, ret, Py.contains, Py.get.
    rewrite Herr, Hres. simpl. rewrite Hbp. simpl.
    destruct (Py.truthy (default (JList []) (Py.assoc "locations" result)));
      [|eexists; reflexivity].
    destruct (Py.getitem0 (default (JList []) (Py.assoc "locations" result)))
      as [e|loc] eqn:Hloc; simpl.
    { rewrite except_return_ok; [eexists; reflexivity|].
      destruct (default (JList []) (Py.assoc "locations" result)) as [| | |[]|[]|];
        simpl in Hloc; inversion Hloc; reflexivity. }
    destruct loc as [| | | | |loc]; simpl; try (eexists; reflexivity).
    destruct (Py.add1 (default (JInt 0) (Py.assoc "lineNumber" loc))) as [e|line] eqn:Hadd;
      simpl; [|eexists; reflexivity].
    rewrite except_return_ok; [eexists; reflexivity|].
    destruct (default (JInt 0) (Py.assoc "lineNumber" loc)); simpl in Hadd;
      inversion Hadd; reflexivity.
Qed.

Lemma get_assoc_set_other (b o : string) (v : json) (d : list (json * json)) :
  o <> b ->
  Py.get_assoc (JStr o) (Py.set_assoc (JStr b) v d) = Py.get_assoc (JStr o) d.
Proof.
  intros Hne. induction d as [|[k v'] d IH]; simpl.
  - destruct (String.eqb_spec b o); congruence.
  - destruct (Py.key_eqb k (JStr b)) eqn:E; simpl.
    + destruct k; simpl in E; try discriminate. apply String.eqb_eq in E as ->.
      simpl. destruct (String.eqb_spec b o); congruence.
    + rewrite IH. reflexivity.
Qed.

Lemma get_assoc_del_other (b o : string) (d : list (json * json)) :
  o <> b ->
  Py.get_assoc (JStr o) (Py.del_assoc (JStr b) d) = Py.get_assoc (JStr o) d.
Proof.
  intros Hne. induction d as [|[k v'] d IH]; simpl; [reflexivity|].
  destruct (Py.key_eqb k (JStr b)) eqn:E; simpl.
  - destruct k; simpl in E; try discriminate. apply String.eqb_eq in E as ->.
    simpl. destruct (String.eqb_spec b o); congruence.
  - rewrite IH. reflexivity.
Qed.

(** The three ways a [debugger_remove_breakpoint] call on an open
    connection ends. *)
Lemma remove_breakpoint_run (m : t) (breakpoint_id : string)
    (connection_id : option string) (key : string) (cdp : CDPClient.t)
    (w : CDPClient.WebSocket) :
  get_connection connection_id m = Some (key, cdp) ->
  CDPClient.ws cdp = Some w ->
  CDPClient.closed w = false ->
  let k := CDPClient.msg_id cdp + 1 in
  let frame := JDict [("id", JInt k); ("method", JStr "Debugger.removeBreakpoint");
                      ("params", JDict [("breakpointId", JStr breakpoint_id)])] in
  let sent := CDPClient.set_pending_responses (delete k (CDPClient.pending_responses cdp))
                (CDPClient.set_ws
                   (Some {| CDPClient.closed := false;
                            CDPClient.sent := CDPClient.sent w ++ [frame] |})
                   (CDPClient.set_msg_id k cdp)) in
  (forall response,
      Py.assoc "error" response = None ->
      debugger_remove_breakpoint breakpoint_id connection_id (Some (JDict response)) m
      = (set_connections
           (dict_set key
              (CDPClient.set_breakpoints
                 (Py.del_assoc (JStr breakpoint_id) (CDPClient.breakpoints cdp)) sent)
              (connections m)) m, [],
         inr [Lit "✓ Breakpoint "; Lit breakpoint_id; Lit " removed successfully"]))
  /\ (forall response error,
        Py.assoc "error" response = Some error ->
        debugger_remove_breakpoint breakpoint_id connection_id (Some (JDict response)) m
        = (set_connections (dict_set key sent (connections m)) m, [],
           inr [Lit "Error removing breakpoint: "; Lit "CDP error: "; Str error]))
  /\ debugger_remove_breakpoint breakpoint_id connection_id None m
     = (set_connections (dict_set key sent (connections m)) m, [],
        inr [Lit "Error removing breakpoint: "; Lit "CDP command timeout: ";
             Lit "Debugger.removeBreakpoint"]).
Proof.
  intros Hconn Hws Hcl k frame sent.
  pose proof (ToolsSpec.get_connection_stored _ _ _ _ Hconn) as Hget.
  repeat split; intros;
    unfold debugger_remove_breakpoint, mbind, M_bind, bind, gets;
    cbn beta iota; rewrite Hconn; cbn beta iota;
    unfold try_except; rewrite (on_client_run key _ m cdp Hget);
    rewrite (send_command_open cdp w _ _ _ Hws Hcl);
    cbn [Py.contains Py.getitem]; try (rewrite H); try reflexivity.
  fold k frame sent. cbn.
  destruct (Py.get_assoc (JStr breakpoint_id) (CDPClient.breakpoints cdp)) eqn:E;
    [reflexivity|].
  rewrite (del_assoc_absent _ _ E). reflexivity.
Qed.

(** A successful [debugger_set_breakpoint] keeps track of the breakpoint
    under the id the remote gave it, with the url, the 1-indexed line as
    the caller gave it (not the 0-indexed line that was sent), the column
    and the condition; the entries under other ids are as before. *)
Theorem breakpoint_recorded_with_caller_line (m : t) (url : string)
    (line_number column_number : Z) (condition : option string)
    (connection_id : option string) (key : string) (cdp : CDPClient.t)
    (w : CDPClient.WebSocket) (response result : list (string * json))
    (breakpoint_id : string) :
  get_connection connection_id m = Some (key, cdp) ->
  CDPClient.ws cdp = Some w ->
  CDPClient.closed w = false ->
  Py.assoc "error" response = None ->
  Py.assoc "result" response = Some (JDict result) ->
  Py.assoc "breakpointId" result = Some (JStr breakpoint_id) ->
  let m' := (debugger_set_breakpoint url line_number column_number condition
               connection_id (Some (JDict response)) m).1.1 in
  exists cdp',
    get_connection connection_id m' = Some (key, cdp')
    /\ Py.get_assoc (JStr breakpoint_id) (CDPClient.breakpoints cdp')
       = Some (JDict [("url", JStr url); ("lineNumber", JInt line_number);
                      ("columnNumber", JInt column_number);
                      ("condition", Py.of_optional condition)])
    /\ forall other, other <> breakpoint_id ->
         Py.get_assoc (JStr other) (CDPClient.breakpoints cdp')
         = Py.get_assoc (JStr other) (CDPClient.breakpoints cdp).
Proof.
  intros Hconn Hws Hcl Herr Hres Hbp m'.
  destruct (proj2 (set_breakpoint_run m url line_number column_number condition
                     connection_id key cdp w (Some (JDict response)) Hconn Hws Hcl)
              response result breakpoint_id eq_refl Herr Hres Hbp) as [answer Hrun].
  unfold m'. rewrite Hrun. cbn [fst].
  eexists. split; [apply (get_connection_updated _ _ _ _ _ Hconn)|].
  split.
  - cbn. apply get_assoc_set_str.
  - intros other Hne. cbn. apply get_assoc_set_other. assumption.
Qed.

Lemma breakpoint_recorded_with_caller_line_witness :
  exists cdp',
    get_connection None
      (debugger_set_breakpoint "app.js" 42 0 None None
         (Some (JDict Examples.breakpoint_response))
         (Examples.registry (CDPClient.client Examples.busy))).1.1
    = Some ("default", cdp')
    /\ Py.get_assoc (JStr "1:41:0:app.js") (CDPClient.breakpoints cdp')
       = Some (JDict [("url", JStr "app.js"); ("lineNumber", JInt 42);
                      ("columnNumber", JInt 0); ("condition", JNull)]).
Proof.
  destruct (breakpoint_recorded_with_caller_line
              (Examples.registry (CDPClient.client Examples.busy))
              "app.js" 42 0 None None "default" (CDPClient.client Examples.busy)
              {| CDPClient.closed := false;
                 CDPClient.sent := [JDict [("id", JInt 1);
                                           ("method", JStr "Debugger.enable");
                                           ("params", JDict [])]] |}
              Examples.breakpoint_response
              [("breakpointId", JStr "1:41:0:app.js");
               ("locations",
                JList [JDict [("scriptId", JStr "7"); ("lineNumber", JInt 41);
                              ("columnNumber", JInt 0)]])]
              "1:41:0:app.js"
              eq_refl eq_refl eq_refl eq_refl eq_refl eq_refl) as (cdp' & H1 & H2 & _).
  exists cdp'. split; assumption.
Defined.

(** A [debugger_set_breakpoint] whose command times out or is answered
    with an error returns "Error setting breakpoint: ..." and keeps track
    of nothing, although the command was written and its id is used up. *)
Theorem failed_breakpoint_not_recorded (m : t) (url : string)
    (line_number column_number : Z) (condition : option string)
    (connection_id : option string) (key : string) (cdp : CDPClient.t)
    (w : CDPClient.WebSocket) :
  get_connection connection_id m = Some (key, cdp) ->
  CDPClient.ws cdp = Some w ->
  CDPClient.closed w = false ->
  (exists cdp',
      debugger_set_breakpoint url line_number column_number condition
        connection_id None m
      = (set_connections (dict_set key cdp' (connections m)) m, [],
         inr [Lit "Error setting breakpoint: "; Lit "CDP command timeout: ";
              Lit "Debugger.setBreakpointByUrl"])
      /\ CDPClient.breakpoints cdp' = CDPClient.breakpoints cdp
      /\ CDPClient.msg_id cdp' = CDPClient.msg_id cdp + 1)
  /\ (forall response error,
        Py.assoc "error" response = Some error ->
        exists cdp',
          debugger_set_breakpoint url line_number column_number condition
            connection_id (Some (JDict response)) m
          = (set_connections (dict_set key cdp' (connections m)) m, [],
             inr [Lit "Error setting breakpoint: "; Lit "CDP error: "; Str error])
          /\ CDPClient.breakpoints cdp' = CDPClient.breakpoints cdp
          /\ CDPClient.msg_id cdp' = CDPClient.msg_id cdp + 1).
Proof.
  intros Hconn Hws Hcl. split.
  - eexists. split; [|split].
    + apply (proj1 (set_breakpoint_run m url line_number column_number condition
                      connection_id key cdp w None Hconn Hws Hcl)
               (RuntimeError [Lit "CDP command timeout: ";
                              Lit "Debugger.setBreakpointByUrl"]));
        reflexivity.
    + reflexivity.
    + reflexivity.
  - intros response error Herr. eexists. split; [|split].
    + apply (proj1 (set_breakpoint_run m url line_number column_number condition
                      connection_id key cdp w (Some (JDict response)) Hconn Hws Hcl)
               (RuntimeError [Lit "CDP error: "; Str error])); [|reflexivity].
      cbn [Py.contains Py.getitem]. rewrite Herr. reflexivity.
    + reflexivity.
    + reflexivity.
Qed.

Lemma failed_breakpoint_not_recorded_witness :
  exists cdp',
    debugger_set_breakpoint "app.js" 42 0 None None None
      (Examples.registry (CDPClient.client Examples.busy))
    = (set_connections [("default", cdp')]
         (Examples.registry (CDPClient.client Examples.busy)), [],
       inr [Lit "Error setting breakpoint: "; Lit "CDP command timeout: ";
            Lit "Debugger.setBreakpointByUrl"])
    /\ CDPClient.breakpoints cdp' = [].
Proof.
  destruct (proj1 (failed_breakpoint_not_recorded
                     (Examples.registry (CDPClient.client Examples.busy))
                     "app.js" 42 0 None None "default" (CDPClient.client Examples.busy)
                     {| CDPClient.closed := false;
                        CDPClient.sent := [JDict [("id", JInt 1);
                                                  ("method", JStr "Debugger.enable");
                                                  ("params", JDict [])]] |}
                     eq_refl eq_refl eq_refl)) as (cdp' & H1 & H2 & _).
  exists cdp'. split; [exact H1 | exact H2].
Defined.

(** [debugger_remove_breakpoint] on an open connection: when the response
    has no error the breakpoint id is deleted from the tracked
    breakpoints, the entries under other ids stay, and the confirmation is
    returned also for an id that was not tracked; when the command times
    out or is answered with an error, the tracked breakpoints are as
    before. *)
Theorem remove_breakpoint_untracks (m : t) (breakpoint_id : string)
    (connection_id : option string) (key : string) (cdp : CDPClient.t)
    (w : CDPClient.WebSocket) :
  get_connection connection_id m = Some (key, cdp) ->
  CDPClient.ws cdp = Some w ->
  CDPClient.closed w = false ->
  (forall response,
      Py.assoc "error" response = None ->
      exists cdp',
        debugger_remove_breakpoint breakpoint_id connection_id
          (Some (JDict response)) m
        = (set_connections (dict_set key cdp' (connections m)) m, [],
           inr [Lit "✓ Breakpoint "; Lit breakpoint_id; Lit " removed successfully"])
        /\ CDPClient.breakpoints cdp'
           = Py.del_assoc (JStr breakpoint_id) (CDPClient.breakpoints cdp)
        /\ (forall other, other <> breakpoint_id ->
              Py.get_assoc (JStr other) (CDPClient.breakpoints cdp')
              = Py.get_assoc (JStr other) (CDPClient.breakpoints cdp)))
  /\ (forall reply,
        reply = None
        \/ (exists response error,
              reply = Some (JDict response) /\ Py.assoc "error" response = Some error) ->
        exists cdp' answer,
          debugger_remove_breakpoint breakpoint_id connection_id reply m
          = (set_connections (dict_set key cdp' (connections m)) m, [],
             inr (Lit "Error removing breakpoint: " :: answer))
          /\ CDPClient.breakpoints cdp' = CDPClient.breakpoints cdp).
Proof.
  intros Hconn Hws Hcl.
  destruct (remove_breakpoint_run m breakpoint_id connection_id key cdp w Hconn Hws Hcl)
    as (Hok & Herror & Htimeout).
  split.
  - intros response Herr. eexists. split; [apply (Hok response Herr)|].
    split; [reflexivity|].
    intros other Hne. cbn. apply get_assoc_del_other. assumption.
  - intros reply [ -> | (response & error & -> & Herr) ].
    + eexists. eexists. split; [apply Htimeout | reflexivity].
    + eexists. eexists. split; [apply (Herror response error Herr) | reflexivity].
Qed.

Lemma remove_breakpoint_untracks_witness :
  (debugger_remove_breakpoint "1:41:0:app.js" None
     (Some (JDict [("id", JInt 2); ("result", JDict [])]))
     (Examples.registry (CDPClient.client Examples.busy))).2
  = inr [Lit "✓ Breakpoint "; Lit "1:41:0:app.js"; Lit " removed successfully"].
Proof.
  destruct (proj1 (remove_breakpoint_untracks
                     (Examples.registry (CDPClient.client Examples.busy))
                     "1:41:0:app.js" None "default" (CDPClient.client Examples.busy)
                     {| CDPClient.closed := false;
                        CDPClient.sent := [JDict [("id", JInt 1);
                                                  ("method", JStr "Debugger.enable");
                                                  ("params", JDict [])]] |}
                     eq_refl eq_refl eq_refl)
              [("id", JInt 2); ("result", JDict [])] eq_refl) as (cdp' & -> & _).
  reflexivity.
Defined.

(** Setting a breakpoint whose id is not tracked yet and then removing it,
    both confirmed by the remote, leaves the tracked breakpoints of the
    connection as they were before; two request ids are used. *)
Theorem set_then_remove_breakpoint (m : t) (url : string)
    (line_number column_number : Z) (condition : option string)
    (connection_id : option string) (key : string) (cdp : CDPClient.t)
    (w : CDPClient.WebSocket) (response result response' : list (string * json))
    (breakpoint_id : string) :
  get_connection connection_id m = Some (key, cdp) ->
  CDPClient.ws cdp = Some w ->
  CDPClient.closed w = false ->
  Py.assoc "error" response = None ->
  Py.assoc "result" response = Some (JDict result) ->
  Py.assoc "breakpointId" result = Some (JStr breakpoint_id) ->
  Py.assoc "error" response' = None ->
  Py.get_assoc (JStr breakpoint_id) (CDPClient.breakpoints cdp) = None ->
  let m1 := (debugger_set_breakpoint url line_number column_number condition
               connection_id (Some (JDict response)) m).1.1 in
  let m2 := (debugger_remove_breakpoint breakpoint_id connection_id
               (Some (JDict response')) m1).1.1 in
  exists cdp2,
    get_connection connection_id m2 = Some (key, cdp2)
    /\ CDPClient.breakpoints cdp2 = CDPClient.breakpoints cdp
    /\ CDPClient.msg_id cdp2 = CDPClient.msg_id cdp + 2.
Proof.
  intros Hconn Hws Hcl Herr Hres Hbp Herr' Hfresh m1 m2.
  destruct (proj2 (set_breakpoint_run m url line_number column_number condition
                     connection_id key cdp w (Some (JDict response)) Hconn Hws Hcl)
              response result breakpoint_id eq_refl Herr Hres Hbp) as [answer Hrun].
  assert (Hconn1 := get_connection_updated connection_id m key cdp).
  unfold m2, m1. rewrite Hrun. cbn [fst].
  match goal with
  | |- context [dict_set key ?c (connections m)] =>
      specialize (Hconn1 c Hconn);
      destruct (remove_breakpoint_run _ breakpoint_id connection_id key c _
                  Hconn1 eq_refl eq_refl) as (Hok & _)
  end.
  rewrite (Hok response' Herr'). cbn [fst].
  eexists. split; [apply (get_connection_updated _ _ _ _ _ Hconn1)|].
  split.
  - cbn. apply del_set_absent. assumption.
  - cbn. lia.
Qed.

Lemma set_then_remove_breakpoint_witness :
  exists cdp2,
    get_connection None
      (debugger_remove_breakpoint "1:41:0:app.js" None
         (Some (JDict [("id", JInt 3); ("result", JDict [])]))
         (debugger_set_breakpoint "app.js" 42 0 None None
            (Some (JDict Examples.breakpoint_response))
            (Examples.registry (CDPClient.client Examples.busy))).1.1).1.1
    = Some ("default", cdp2)
    /\ CDPClient.breakpoints cdp2 = []
    /\ CDPClient.msg_id cdp2 = 3.
Proof.
  apply (set_then_remove_breakpoint
           (Examples.registry (CDPClient.client Examples.busy))
           "app.js" 42 0 None None "default" (CDPClient.client Examples.busy)
           {| CDPClient.closed := false;
              CDPClient.sent := [JDict [("id", JInt 1);
                                        ("method", JStr "Debugger.enable");
                                        ("params", JDict [])]] |}
           Examples.breakpoint_response
           [("breakpointId", JStr "1:41:0:app.js");
            ("locations",
             JList [JDict [("scriptId", JStr "7"); ("lineNumber", JInt 41);
                           ("columnNumber", JInt 0)]])]
           [("id", JInt 3); ("result", JDict [])]
           "1:41:0:app.js"
           eq_refl eq_refl eq_refl eq_refl eq_refl eq_refl eq_refl eq_refl).
Defined.

(** *** The call stack *)

(** The operations that format the call stack raise nothing that
    [except Exception] lets through. *)
Lemma bind_Exception {A B} (r : exn + A) (k : A -> exn + B) :
  (forall e, r = inl e -> is_Exception e = true) ->
  (forall a e, k a = inl e -> is_Exception e = true) ->
  forall e, (r ≫= k) = inl e -> is_Exception e = true.
Proof.
  intros Hr Hk e. destruct r as [e'|a]; simpl.
  - intros [= <-]. apply Hr. reflexivity.
  - apply Hk.
Qed.

Lemma get_Exception (data : json) (key : string) (dflt : json) :
  forall e, Py.get data key dflt = inl e -> is_Exception e = true.
Proof. intros e. destruct data; simpl; intros [= <-]; reflexivity. Qed.

Lemma add1_Exception (v : json) :
  forall e, Py.add1 v = inl e -> is_Exception e = true.
Proof. intros e. destruct v; simpl; intros [= <-]; reflexivity. Qed.

Lemma iter_Exception (v : json) :
  forall e, Py.iter v = inl e -> is_Exception e = true.
Proof. intros e. destruct v; simpl; intros [= <-]; reflexivity. Qed.

Lemma join_Exception (sep : string) (items : list json) :
  forall e, Py.join sep items = inl e -> is_Exception e = true.
Proof.
  induction items as [|x rest IH]; intros e; simpl; [intros [=]|].
  destruct x; try (intros [= <-]; reflexivity).
  destruct rest as [|y rest]; [intros [=]|].
  destruct (Py.join sep (y :: rest)) as [e'|t]; [|intros [=]].
  intros [= <-]. apply IH. reflexivity.
Qed.

Lemma scopes_Exception (items : list json) :
  forall e, mapM (fun s => Py.get s "type" (JStr "unknown")) items = inl e ->
            is_Exception e = true.
Proof.
  induction items as [|x rest IH]; simpl; [intros e [=]|].
  apply bind_Exception; [apply get_Exception|]. intros y.
  apply bind_Exception; [apply IH|]. intros ys e [=].
Qed.

Lemma format_frame_Exception (i : Z) (frame : json) :
  forall e, format_frame i frame = inl e -> is_Exception e = true.
Proof.
  unfold format_frame.
  apply bind_Exception; [apply get_Exception|]. intros call_frame_id.
  apply bind_Exception; [apply get_Exception|]. intros function_name.
  cbv zeta.
  apply bind_Exception; [apply get_Exception|]. intros location.
  apply bind_Exception; [apply get_Exception|]. intros url.
  apply bind_Exception; [apply get_Exception|]. intros line.
  apply bind_Exception; [apply add1_Exception|]. intros line_num.
  apply bind_Exception; [apply get_Exception|]. intros col_num.
  apply bind_Exception; [apply get_Exception|]. intros scope_chain.
  apply bind_Exception; [|intros result e [=]].
  destruct (Py.truthy scope_chain); [|intros e [=]].
  apply bind_Exception; [apply iter_Exception|]. intros items.
  apply bind_Exception; [apply scopes_Exception|]. intros scopes.
  apply bind_Exception; [apply join_Exception|]. intros joined e [=].
Qed.

Lemma format_frames_Exception (frames : list json) :
  forall i e, format_frames i frames = inl e -> is_Exception e = true.
Proof.
  induction frames as [|frame rest IH]; intros i; simpl; [intros e [=]|].
  apply bind_Exception; [apply format_frame_Exception|]. intros lines.
  apply bind_Exception; [apply IH|]. intros more e [=].
Qed.

Lemma format_call_stack_Exception (paused_data : json) :
  forall e, format_call_stack paused_data = inl e -> is_Exception e = true.
Proof.
  unfold format_call_stack.
  apply bind_Exception; [apply get_Exception|]. intros call_frames.
  apply bind_Exception; [apply get_Exception|]. intros reason.
  destruct (negb (Py.truthy call_frames)); [intros e [=]|].
  apply bind_Exception; [apply iter_Exception|]. intros frames.
  apply bind_Exception; [apply format_frames_Exception|]. intros body e [=].
Qed.

(** What [debugger_get_call_stack] is on a resolved connection. *)
Lemma get_call_stack_run (m : t) (connection_id : option string) (key : string)
    (cdp : CDPClient.t) :
  get_connection connection_id m = Some (key, cdp) ->
  debugger_get_call_stack connection_id m
  = (m, [],
     inr (if negb (Py.truthy (CDPClient.paused_data cdp)) then
            [Lit "Not paused. Set a breakpoint with debugger_set_breakpoint() and trigger it, or use debugger_pause() to pause execution."]
          else
            match format_call_stack (CDPClient.paused_data cdp) with
            | inr answer => answer
            | inl e => Lit "Error getting call stack: " :: str_exn e
            end)).
Proof.
  intros Hconn.
  pose proof (ToolsSpec.get_connection_stored _ _ _ _ Hconn) as Hget.
  unfold debugger_get_call_stack, mbind, M_bind, bind, gets.
  cbn beta iota. rewrite Hconn. cbn beta iota.
  unfold try_except. rewrite (on_client_run key _ m cdp Hget).
  destruct (negb (Py.truthy (CDPClient.paused_data cdp))).
  - cbn. rewrite (ToolsSpec.set_connections_same m key cdp Hget). reflexivity.
  - unfold lift. cbn beta iota. rewrite app_nil_l.
    rewrite (ToolsSpec.set_connections_same m key cdp Hget).
    destruct (format_call_stack (CDPClient.paused_data cdp)) as [e|answer] eqn:E;
      [|reflexivity].
    rewrite except_return_ok; [reflexivity|].
    apply (format_call_stack_Exception _ _ E).
Qed.

(** [debugger_get_call_stack] only reads: whatever the registry and the
    pause snapshot are, it returns a message (it never raises), the
    registry and every client are as before, and nothing is printed. *)
Theorem get_call_stack_reads_only (m : t) (connection_id : option string) :
  exists answer, debugger_get_call_stack connection_id m = (m, [], inr answer).
Proof.
  destruct (get_connection connection_id m) as [[key cdp]|] eqn:Hconn.
  - eexists. apply (get_call_stack_run m connection_id key cdp Hconn).
  - eexists. unfold debugger_get_call_stack, mbind, M_bind, bind, gets.
    cbn beta iota. rewrite Hconn. reflexivity.
Qed.

(** [debugger_get_call_stack] without a stack to show: an empty pause
    snapshot gives "Not paused ..."; a snapshot whose "callFrames" is
    missing or empty gives "Execution is paused but no call stack
    available."; a non-empty snapshot that is not a dict (the params of
    the pause event are stored as they come) gives "Error getting call
    stack: ..." with the AttributeError. *)
Theorem call_stack_without_frames (m : t) (connection_id : option string)
    (key : string) (cdp : CDPClient.t) :
  get_connection connection_id m = Some (key, cdp) ->
  (Py.truthy (CDPClient.paused_data cdp) = false ->
   debugger_get_call_stack connection_id m
   = (m, [],
      inr [Lit "Not paused. Set a breakpoint with debugger_set_breakpoint() and trigger it, or use debugger_pause() to pause execution."]))
  /\ (forall d,
        CDPClient.paused_data cdp = JDict d ->
        d <> [] ->
        Py.truthy (default (JList []) (Py.assoc "callFrames" d)) = false ->
        debugger_get_call_stack connection_id m
        = (m, [], inr [Lit "Execution is paused but no call stack available."]))
  /\ (Py.truthy (CDPClient.paused_data cdp) = true ->
      (forall d, CDPClient.paused_data cdp <> JDict d) ->
      debugger_get_call_stack connection_id m
      = (m, [], inr [Lit "Error getting call stack: "; StrExn AttributeError])).
Proof.
  intros Hconn. rewrite (get_call_stack_run m connection_id key cdp Hconn).
  split; [|split].
  - intros ->. reflexivity.
  - intros d -> Hd Hframes. destruct d as [|kv d]; [congruence|].
    cbn [Py.truthy negb]. unfold format_call_stack. cbn [Py.get].
    cbn [mbind exn_bind]. rewrite Hframes. reflexivity.
  - intros -> Hnd. cbn [negb].
    destruct (CDPClient.paused_data cdp) as [| | | | |d]; try reflexivity.
    destruct (Hnd d eq_refl).
Qed.

Lemma call_stack_without_frames_witness :
  debugger_get_call_stack None (Examples.registry (CDPClient.client Examples.paused))
  = (Examples.registry (CDPClient.client Examples.paused), [],
     inr [Lit "Execution is paused but no call stack available."]).
Proof.
  apply (proj1 (proj2 (call_stack_without_frames
                         (Examples.registry (CDPClient.client Examples.paused)) None
                         "default" (CDPClient.client Examples.paused) eq_refl))
           [("callFrames", JList []); ("reason", JStr "other")]);
    [reflexivity | discriminate | reflexivity].
Defined.

(** The frames of the call stack are formatted one by one, numbered from
    the starting index: the text is the concatenation of the texts of the
    frames; when a frame cannot be formatted, the exception is that of the
    first such frame and the texts of the frames before it are lost. *)
Theorem format_frames_each (frames : list json) (i : Z) :
  match format_frames i frames with
  | inr body =>
      exists texts : list fstring,
        body = concat texts
        /\ length texts = length frames
        /\ forall (j : nat) frame text,
             frames !! j = Some frame -> texts !! j = Some text ->
             format_frame (i + Z.of_nat j) frame = inr text
  | inl e =>
      exists (j : nat) frame,
        frames !! j = Some frame
        /\ format_frame (i + Z.of_nat j) frame = inl e
        /\ forall (j' : nat) frame',
             (j' < j)%nat -> frames !! j' = Some frame' ->
             exists text, format_frame (i + Z.of_nat j') frame' = inr text
  end.
Proof.
  revert i. induction frames as [|frame rest IH]; intros i; simpl.
  - exists []. repeat split. intros j frame text [=].
  - destruct (format_frame i frame) as [e|text] eqn:Hframe; simpl.
    + exists 0%nat, frame. rewrite Z.add_0_r. repeat split; [assumption|].
      intros j' frame' Hlt. lia.
    + specialize (IH (i + 1)).
      destruct (format_frames (i + 1) rest) as [e|more]; simpl.
      * destruct IH as (j & frame' & Hj & He & Hbefore).
        exists (S j), frame'. split; [exact Hj|]. split.
        { rewrite <- He. f_equal. lia. }
        intros [|j'] f' Hlt Hf'.
        { injection Hf' as <-. exists text. rewrite Z.add_0_r. assumption. }
        destruct (Hbefore j' f' ltac:(lia) Hf') as [t Ht].
        exists t. rewrite <- Ht. f_equal. lia.
      * destruct IH as (texts & -> & Hlen & Heach).
        exists (text :: texts). split; [reflexivity|]. split; [simpl; lia|].
        intros [|j] f t Hf Ht.
        { injection Hf as <-. injection Ht as <-. rewrite Z.add_0_r. assumption. }
        rewrite <- (Heach j f t Hf Ht). f_equal. lia.
Qed.

(** A frame of the call stack is shown with its line 1-indexed: the
    0-indexed "lineNumber" of its location plus one, so a frame without a
    location or line is shown at line 1; a frame without a function name
    has "(anonymous)", one without an id or url has "unknown". *)
Theorem call_stack_line_one_indexed (i : Z) (frame loc : list (string * json))
    (l : Z) :
  default (JDict []) (Py.assoc "location" frame) = JDict loc ->
  default (JInt 0) (Py.assoc "lineNumber" loc) = JInt l ->
  Py.truthy (default (JList []) (Py.assoc "scopeChain" frame)) = false ->
  format_frame i (JDict frame)
  = inr [Lit "["; Str (JInt i); Lit "] ";
         Str (Py.or_ (default JNull (Py.assoc "functionName" frame))
                     (JStr "(anonymous)")); Lit NL;
         Lit "    Frame ID: ";
         Str (default (JStr "unknown") (Py.assoc "callFrameId" frame)); Lit NL;
         Lit "    Location: ";
         Str (default (JStr "unknown") (Py.assoc "url" frame)); Lit ":";
         Str (JInt (l + 1)); Lit ":";
         Str (default (JInt 0) (Py.assoc "columnNumber" loc)); Lit NL;
         Lit NL].
Proof.
  intros Hloc Hline Hscopes. unfold format_frame. cbn [Py.get mbind exn_bind].
  rewrite Hloc. cbn [Py.get mbind exn_bind]. rewrite Hline.
  cbn [Py.add1 mbind exn_bind]. rewrite Hscopes. reflexivity.
Qed.

Lemma call_stack_line_one_indexed_witness :
  format_frame 0
    (JDict [("callFrameId", JStr "frame0"); ("functionName", JStr "");
            ("location", JDict [("scriptId", JStr "7"); ("lineNumber", JInt 41);
                                ("columnNumber", JInt 4)]);
            ("url", JStr "app.js")])
  = inr [Lit "["; Str (JInt 0); Lit "] "; Str (JStr "(anonymous)"); Lit NL;
         Lit "    Frame ID: "; Str (JStr "frame0"); Lit NL;
         Lit "    Location: "; Str (JStr "app.js"); Lit ":"; Str (JInt 42); Lit ":";
         Str (JInt 4); Lit NL; Lit NL].
Proof.
  apply (call_stack_line_one_indexed 0
           [("callFrameId", JStr "frame0"); ("functionName", JStr "");
            ("location", JDict [("scriptId", JStr "7"); ("lineNumber", JInt 41);
                                ("columnNumber", JInt 4)]);
            ("url", JStr "app.js")]
           [("scriptId", JStr "7"); ("lineNumber", JInt 41); ("columnNumber", JInt 4)]
           41 eq_refl eq_refl eq_refl).
Defined.

(** *** Disconnecting *)

(** [chrome_disconnect] of a connected id removes the connection from the
    registry and confirms it; afterwards the id resolves to nothing, so a
    debugger tool called with it reports that there is no such
    connection, and a second [chrome_disconnect] answers "not found" and
    changes nothing. *)
Theorem chrome_disconnect_then_unresolved (m : t) (connection_id : string)
    (cdp : CDPClient.t) :
  invariant m ->
  dict_get connection_id (connections m) = Some cdp ->
  exists m',
    chrome_disconnect connection_id m
    = (m', [], inr [Lit "✓ Disconnected from '"; Lit connection_id; Lit "'"])
    /\ get_connection (Some connection_id) m' = None
    /\ (forall reply,
          debugger_enable (Some connection_id) reply m'
          = (m', [], inr (no_connection (Some connection_id))))
    /\ chrome_disconnect connection_id m'
       = (m', [], inr [Lit "Error: Connection '"; Lit connection_id; Lit "' not found"]).
Proof.
  intros [Hnd Hact] Hget.
  assert (Hin : dict_in connection_id (connections m) = true)
    by (apply ManagerSpec.dict_in_true; eauto).
  assert (Hgone : dict_get connection_id
                    (dict_del connection_id
                       (dict_set connection_id (CDPClient.disconnect cdp).1.1
                          (connections m))) = None)
    by (apply ManagerSpec.dict_get_del_eq, ManagerSpec.dict_set_NoDup, Hnd).
  assert (Hrun : exists m',
             disconnect connection_id m
             = (m', [], inr [Lit "✓ Disconnected from '"; Lit connection_id; Lit "'"])
             /\ dict_get connection_id (connections m') = None).
  { unfold disconnect, mbind, M_bind, bind, gets, on_client. simpl.
    rewrite Hin. simpl. rewrite Hget. rewrite CDPClientSpec.disconnect_eq in *.
    simpl in *.
    destruct (bool_decide (active_connection_id m = Some connection_id));
      eexists; (split; [reflexivity | exact Hgone]). }
  destruct Hrun as (m' & Hrun & Hnone).
  assert (Hres : get_connection (Some connection_id) m' = None)
    by (unfold get_connection, get; rewrite Hnone; reflexivity).
  exists m'. split; [|split; [|split]].
  - unfold chrome_disconnect, try_except. rewrite Hrun. reflexivity.
  - exact Hres.
  - intros reply. unfold debugger_enable, mbind, M_bind, bind, gets.
    cbn beta iota. rewrite Hres. reflexivity.
  - unfold chrome_disconnect, try_except.
    rewrite (ManagerSpec.disconnect_unknown connection_id m' Hnone). reflexivity.
Qed.

Lemma chrome_disconnect_then_unresolved_witness :
  exists m',
    chrome_disconnect "default" (Examples.registry (CDPClient.client Examples.busy))
    = (m', [], inr [Lit "✓ Disconnected from '"; Lit "default"; Lit "'"])
    /\ get_connection (Some "default") m' = None.
Proof.
  destruct (chrome_disconnect_then_unresolved
              (Examples.registry (CDPClient.client Examples.busy)) "default"
              (CDPClient.client Examples.busy)
              (ManagerFacts.registry_invariant_one _) eq_refl)
    as (m' & H1 & H2 & _).
  exists m'. split; assumption.
Defined.

End ToolsFacts.

